(** * CubeSat 1U flight software: command and telemetry core

    A shallow embedding of the STM32 firmware's command/telemetry path
    ([Core/Src/main.c], [Core/Src/communication.c], [Core/Inc/main.h]):
    the packed packet layouts, the one's-complement byte-sum checksum, the
    byte-wise receive parser, the command dispatcher, and the loop bodies of
    the four periodic tasks.

    Conventions.
    - A C unsigned integer of width w is a [Z]; every place where the C code
      truncates is written out with [u8], [u16] or [u32].
    - A [float] member is carried as its IEEE-754 binary32 bit pattern (this
      is what goes on the wire); comparisons decode the pattern into
      [spec_float].
    - Global variables of [main.c] are the fields of [Sys]; the file-static
      variables of [communication.c] are the fields of [RxState].
    - Calls into the HAL and the RTOS append an [event] to [trace]. *)

From Stdlib Require Import ZArith Lia Bool.
From Stdlib Require Import Floats.SpecFloat.
From stdpp Require Import base list.

Local Open Scope Z_scope.

(** ** Fixed-width unsigned arithmetic *)

Definition u8 (x : Z) : Z := x mod 256.
Definition u16 (x : Z) : Z := x mod 65536.
Definition u32 (x : Z) : Z := x mod 4294967296.

(** Little-endian images of 16- and 32-bit members (Cortex-M4, packed
    structs), and the 16-bit value held by two consecutive bytes. *)
Definition le16 (v : Z) : list Z := [v mod 256; (v / 256) mod 256].
Definition le32 (v : Z) : list Z :=
  [v mod 256; (v / 256) mod 256; (v / 65536) mod 256; (v / 16777216) mod 256].
Definition rd16 (b0 b1 : Z) : Z := b0 + 256 * b1.

(** ** IEEE-754 binary32 patterns *)

Definition f32_of_bits (w : Z) : spec_float :=
  let s := Z.testbit w 31 in
  let e := Z.land (Z.shiftr w 23) 255 in
  let m := Z.land w 8388607 in
  if e =? 0 then
    match m with
    | Zpos p => S754_finite s p (-149)
    | _ => S754_zero s
    end
  else if e =? 255 then
    (if m =? 0 then S754_infinity s else S754_nan)
  else
    match m + 8388608 with
    | Zpos p => S754_finite s p (e - 150)
    | _ => S754_nan
    end.

(** [a > b] and [a < b] on floats: false as soon as one side is a NaN. *)
Definition f32_gt (a b : Z) : bool :=
  match SFcompare (f32_of_bits a) (f32_of_bits b) with
  | Some Gt => true
  | _ => false
  end.
Definition f32_lt (a b : Z) : bool :=
  match SFcompare (f32_of_bits a) (f32_of_bits b) with
  | Some Lt => true
  | _ => false
  end.

(** The literals [70.0f] and [-20.0f]. *)
Definition F32_70 : Z := 0x428C0000.
Definition F32_minus_20 : Z := 0xC1A00000.

(** ** main.h: constants *)

Definition STATE_BOOT : Z := 0x00.
Definition STATE_IDLE : Z := 0x01.
Definition STATE_NOMINAL : Z := 0x02.
Definition STATE_SAFE : Z := 0x03.
Definition STATE_LOW_POWER : Z := 0x04.
Definition STATE_EMERGENCY : Z := 0x05.
Definition STATE_IMAGE_CAPTURE : Z := 0x06.
Definition STATE_DATA_TX : Z := 0x07.

Definition CMD_PING : Z := 0x01.
Definition CMD_GET_TELEMETRY : Z := 0x02.
Definition CMD_CAPTURE_IMAGE : Z := 0x03.
Definition CMD_SET_MODE : Z := 0x04.
Definition CMD_RESET : Z := 0x05.
Definition CMD_TRANSMIT_FILE : Z := 0x06.
Definition CMD_UPDATE_FIRMWARE : Z := 0x07.
Definition CMD_SET_SCHEDULE : Z := 0x08.
Definition CMD_BEACON : Z := 0x09.

Definition ERROR_NONE : Z := 0x00.
Definition ERROR_I2C : Z := 0x01.
Definition ERROR_SPI : Z := 0x02.
Definition ERROR_UART : Z := 0x03.
Definition ERROR_ADC : Z := 0x04.
Definition ERROR_BATTERY : Z := 0x05.
Definition ERROR_TEMPERATURE : Z := 0x06.
Definition ERROR_TASK_HANG : Z := 0x07.
Definition ERROR_MEMORY : Z := 0x08.

Definition BATTERY_NOMINAL : Z := 3700.
Definition BATTERY_LOW : Z := 3500.
Definition BATTERY_CRITICAL : Z := 3400.

(** communication.h *)
Definition UART_TX_BUFFER_SIZE : Z := 512.
Definition UART_RX_BUFFER_SIZE : Z := 256.

(** ** main.h: packet structures *)

Module Telemetry.

Record t := {
  sync1 : Z; sync2 : Z; packet_type : Z; sequence_number : Z; timestamp : Z;
  mag_x : Z; mag_y : Z; mag_z : Z; corrosion_raw : Z; radiation_cps : Z;
  temperature_bme : Z; pressure : Z; humidity : Z; temperature_tmp : Z;
  latitude : Z; longitude : Z; altitude : Z; gps_quality : Z;
  gps_satellites : Z;
  battery_voltage : Z; battery_current : Z; boot_count : Z; error_flags : Z;
  system_state : Z; uptime : Z;
  checksum : Z
}.

(** A zero-initialised object (a C global without initialiser). *)
Definition zero : t :=
  {| sync1 := 0; sync2 := 0; packet_type := 0; sequence_number := 0;
     timestamp := 0; mag_x := 0; mag_y := 0; mag_z := 0; corrosion_raw := 0;
     radiation_cps := 0; temperature_bme := 0; pressure := 0; humidity := 0;
     temperature_tmp := 0; latitude := 0; longitude := 0; altitude := 0;
     gps_quality := 0; gps_satellites := 0; battery_voltage := 0;
     battery_current := 0; boot_count := 0; error_flags := 0;
     system_state := 0; uptime := 0; checksum := 0 |}.

(** Assignments to one member (or to the members one driver call writes). *)
Definition set_sync1 (v : Z) (p : t) : t :=
  {| sync1 := v; sync2 := sync2 p; packet_type := packet_type p;
     sequence_number := sequence_number p; timestamp := timestamp p;
     mag_x := mag_x p; mag_y := mag_y p; mag_z := mag_z p;
     corrosion_raw := corrosion_raw p; radiation_cps := radiation_cps p;
     temperature_bme := temperature_bme p; pressure := pressure p;
     humidity := humidity p; temperature_tmp := temperature_tmp p;
     latitude := latitude p; longitude := longitude p;
     altitude := altitude p; gps_quality := gps_quality p;
     gps_satellites := gps_satellites p;
     battery_voltage := battery_voltage p;
     battery_current := battery_current p; boot_count := boot_count p;
     error_flags := error_flags p; system_state := system_state p;
     uptime := uptime p; checksum := checksum p |}.

Definition set_sync2 (v : Z) (p : t) : t :=
  {| sync1 := sync1 p; sync2 := v; packet_type := packet_type p;
     sequence_number := sequence_number p; timestamp := timestamp p;
     mag_x := mag_x p; mag_y := mag_y p; mag_z := mag_z p;
     corrosion_raw := corrosion_raw p; radiation_cps := radiation_cps p;
     temperature_bme := temperature_bme p; pressure := pressure p;
     humidity := humidity p; temperature_tmp := temperature_tmp p;
     latitude := latitude p; longitude := longitude p;
     altitude := altitude p; gps_quality := gps_quality p;
     gps_satellites := gps_satellites p;
     battery_voltage := battery_voltage p;
     battery_current := battery_current p; boot_count := boot_count p;
     error_flags := error_flags p; system_state := system_state p;
     uptime := uptime p; checksum := checksum p |}.

Definition set_packet_type (v : Z) (p : t) : t :=
  {| sync1 := sync1 p; sync2 := sync2 p; packet_type := v;
     sequence_number := sequence_number p; timestamp := timestamp p;
     mag_x := mag_x p; mag_y := mag_y p; mag_z := mag_z p;
     corrosion_raw := corrosion_raw p; radiation_cps := radiation_cps p;
     temperature_bme := temperature_bme p; pressure := pressure p;
     humidity := humidity p; temperature_tmp := temperature_tmp p;
     latitude := latitude p; longitude := longitude p;
     altitude := altitude p; gps_quality := gps_quality p;
     gps_satellites := gps_satellites p;
     battery_voltage := battery_voltage p;
     battery_current := battery_current p; boot_count := boot_count p;
     error_flags := error_flags p; system_state := system_state p;
     uptime := uptime p; checksum := checksum p |}.

Definition set_sequence_number (v : Z) (p : t) : t :=
  {| sync1 := sync1 p; sync2 := sync2 p; packet_type := packet_type p;
     sequence_number := v; timestamp := timestamp p; mag_x := mag_x p;
     mag_y := mag_y p; mag_z := mag_z p; corrosion_raw := corrosion_raw p;
     radiation_cps := radiation_cps p; temperature_bme := temperature_bme p;
     pressure := pressure p; humidity := humidity p;
     temperature_tmp := temperature_tmp p; latitude := latitude p;
     longitude := longitude p; altitude := altitude p;
     gps_quality := gps_quality p; gps_satellites := gps_satellites p;
     battery_voltage := battery_voltage p;
     battery_current := battery_current p; boot_count := boot_count p;
     error_flags := error_flags p; system_state := system_state p;
     uptime := uptime p; checksum := checksum p |}.

Definition set_timestamp (v : Z) (p : t) : t :=
  {| sync1 := sync1 p; sync2 := sync2 p; packet_type := packet_type p;
     sequence_number := sequence_number p; timestamp := v; mag_x := mag_x p;
     mag_y := mag_y p; mag_z := mag_z p; corrosion_raw := corrosion_raw p;
     radiation_cps := radiation_cps p; temperature_bme := temperature_bme p;
     pressure := pressure p; humidity := humidity p;
     temperature_tmp := temperature_tmp p; latitude := latitude p;
     longitude := longitude p; altitude := altitude p;
     gps_quality := gps_quality p; gps_satellites := gps_satellites p;
     battery_voltage := battery_voltage p;
     battery_current := battery_current p; boot_count := boot_count p;
     error_flags := error_flags p; system_state := system_state p;
     uptime := uptime p; checksum := checksum p |}.

Definition set_corrosion_raw (v : Z) (p : t) : t :=
  {| sync1 := sync1 p; sync2 := sync2 p; packet_type := packet_type p;
     sequence_number := sequence_number p; timestamp := timestamp p;
     mag_x := mag_x p; mag_y := mag_y p; mag_z := mag_z p;
     corrosion_raw := v; radiation_cps := radiation_cps p;
     temperature_bme := temperature_bme p; pressure := pressure p;
     humidity := humidity p; temperature_tmp := temperature_tmp p;
     latitude := latitude p; longitude := longitude p;
     altitude := altitude p; gps_quality := gps_quality p;
     gps_satellites := gps_satellites p;
     battery_voltage := battery_voltage p;
     battery_current := battery_current p; boot_count := boot_count p;
     error_flags := error_flags p; system_state := system_state p;
     uptime := uptime p; checksum := checksum p |}.

Definition set_radiation_cps (v : Z) (p : t) : t :=
  {| sync1 := sync1 p; sync2 := sync2 p; packet_type := packet_type p;
     sequence_number := sequence_number p; timestamp := timestamp p;
     mag_x := mag_x p; mag_y := mag_y p; mag_z := mag_z p;
     corrosion_raw := corrosion_raw p; radiation_cps := v;
     temperature_bme := temperature_bme p; pressure := pressure p;
     humidity := humidity p; temperature_tmp := temperature_tmp p;
     latitude := latitude p; longitude := longitude p;
     altitude := altitude p; gps_quality := gps_quality p;
     gps_satellites := gps_satellites p;
     battery_voltage := battery_voltage p;
     battery_current := battery_current p; boot_count := boot_count p;
     error_flags := error_flags p; system_state := system_state p;
     uptime := uptime p; checksum := checksum p |}.

Definition set_temperature_tmp (v : Z) (p : t) : t :=
  {| sync1 := sync1 p; sync2 := sync2 p; packet_type := packet_type p;
     sequence_number := sequence_number p; timestamp := timestamp p;
     mag_x := mag_x p; mag_y := mag_y p; mag_z := mag_z p;
     corrosion_raw := corrosion_raw p; radiation_cps := radiation_cps p;
     temperature_bme := temperature_bme p; pressure := pressure p;
     humidity := humidity p; temperature_tmp := v; latitude := latitude p;
     longitude := longitude p; altitude := altitude p;
     gps_quality := gps_quality p; gps_satellites := gps_satellites p;
     battery_voltage := battery_voltage p;
     battery_current := battery_current p; boot_count := boot_count p;
     error_flags := error_flags p; system_state := system_state p;
     uptime := uptime p; checksum := checksum p |}.

Definition set_battery_voltage (v : Z) (p : t) : t :=
  {| sync1 := sync1 p; sync2 := sync2 p; packet_type := packet_type p;
     sequence_number := sequence_number p; timestamp := timestamp p;
     mag_x := mag_x p; mag_y := mag_y p; mag_z := mag_z p;
     corrosion_raw := corrosion_raw p; radiation_cps := radiation_cps p;
     temperature_bme := temperature_bme p; pressure := pressure p;
     humidity := humidity p; temperature_tmp := temperature_tmp p;
     latitude := latitude p; longitude := longitude p;
     altitude := altitude p; gps_quality := gps_quality p;
     gps_satellites := gps_satellites p; battery_voltage := v;
     battery_current := battery_current p; boot_count := boot_count p;
     error_flags := error_flags p; system_state := system_state p;
     uptime := uptime p; checksum := checksum p |}.

Definition set_battery_current (v : Z) (p : t) : t :=
  {| sync1 := sync1 p; sync2 := sync2 p; packet_type := packet_type p;
     sequence_number := sequence_number p; timestamp := timestamp p;
     mag_x := mag_x p; mag_y := mag_y p; mag_z := mag_z p;
     corrosion_raw := corrosion_raw p; radiation_cps := radiation_cps p;
     temperature_bme := temperature_bme p; pressure := pressure p;
     humidity := humidity p; temperature_tmp := temperature_tmp p;
     latitude := latitude p; longitude := longitude p;
     altitude := altitude p; gps_quality := gps_quality p;
     gps_satellites := gps_satellites p;
     battery_voltage := battery_voltage p; battery_current := v;
     boot_count := boot_count p; error_flags := error_flags p;
     system_state := system_state p; uptime := uptime p;
     checksum := checksum p |}.

Definition set_boot_count (v : Z) (p : t) : t :=
  {| sync1 := sync1 p; sync2 := sync2 p; packet_type := packet_type p;
     sequence_number := sequence_number p; timestamp := timestamp p;
     mag_x := mag_x p; mag_y := mag_y p; mag_z := mag_z p;
     corrosion_raw := corrosion_raw p; radiation_cps := radiation_cps p;
     temperature_bme := temperature_bme p; pressure := pressure p;
     humidity := humidity p; temperature_tmp := temperature_tmp p;
     latitude := latitude p; longitude := longitude p;
     altitude := altitude p; gps_quality := gps_quality p;
     gps_satellites := gps_satellites p;
     battery_voltage := battery_voltage p;
     battery_current := battery_current p; boot_count := v;
     error_flags := error_flags p; system_state := system_state p;
     uptime := uptime p; checksum := checksum p |}.

Definition set_error_flags (v : Z) (p : t) : t :=
  {| sync1 := sync1 p; sync2 := sync2 p; packet_type := packet_type p;
     sequence_number := sequence_number p; timestamp := timestamp p;
     mag_x := mag_x p; mag_y := mag_y p; mag_z := mag_z p;
     corrosion_raw := corrosion_raw p; radiation_cps := radiation_cps p;
     temperature_bme := temperature_bme p; pressure := pressure p;
     humidity := humidity p; temperature_tmp := temperature_tmp p;
     latitude := latitude p; longitude := longitude p;
     altitude := altitude p; gps_quality := gps_quality p;
     gps_satellites := gps_satellites p;
     battery_voltage := battery_voltage p;
     battery_current := battery_current p; boot_count := boot_count p;
     error_flags := v; system_state := system_state p; uptime := uptime p;
     checksum := checksum p |}.

Definition set_system_state (v : Z) (p : t) : t :=
  {| sync1 := sync1 p; sync2 := sync2 p; packet_type := packet_type p;
     sequence_number := sequence_number p; timestamp := timestamp p;
     mag_x := mag_x p; mag_y := mag_y p; mag_z := mag_z p;
     corrosion_raw := corrosion_raw p; radiation_cps := radiation_cps p;
     temperature_bme := temperature_bme p; pressure := pressure p;
     humidity := humidity p; temperature_tmp := temperature_tmp p;
     latitude := latitude p; longitude := longitude p;
     altitude := altitude p; gps_quality := gps_quality p;
     gps_satellites := gps_satellites p;
     battery_voltage := battery_voltage p;
     battery_current := battery_current p; boot_count := boot_count p;
     error_flags := error_flags p; system_state := v; uptime := uptime p;
     checksum := checksum p |}.

Definition set_uptime (v : Z) (p : t) : t :=
  {| sync1 := sync1 p; sync2 := sync2 p; packet_type := packet_type p;
     sequence_number := sequence_number p; timestamp := timestamp p;
     mag_x := mag_x p; mag_y := mag_y p; mag_z := mag_z p;
     corrosion_raw := corrosion_raw p; radiation_cps := radiation_cps p;
     temperature_bme := temperature_bme p; pressure := pressure p;
     humidity := humidity p; temperature_tmp := temperature_tmp p;
     latitude := latitude p; longitude := longitude p;
     altitude := altitude p; gps_quality := gps_quality p;
     gps_satellites := gps_satellites p;
     battery_voltage := battery_voltage p;
     battery_current := battery_current p; boot_count := boot_count p;
     error_flags := error_flags p; system_state := system_state p;
     uptime := v; checksum := checksum p |}.

Definition set_checksum (v : Z) (p : t) : t :=
  {| sync1 := sync1 p; sync2 := sync2 p; packet_type := packet_type p;
     sequence_number := sequence_number p; timestamp := timestamp p;
     mag_x := mag_x p; mag_y := mag_y p; mag_z := mag_z p;
     corrosion_raw := corrosion_raw p; radiation_cps := radiation_cps p;
     temperature_bme := temperature_bme p; pressure := pressure p;
     humidity := humidity p; temperature_tmp := temperature_tmp p;
     latitude := latitude p; longitude := longitude p;
     altitude := altitude p; gps_quality := gps_quality p;
     gps_satellites := gps_satellites p;
     battery_voltage := battery_voltage p;
     battery_current := battery_current p; boot_count := boot_count p;
     error_flags := error_flags p; system_state := system_state p;
     uptime := uptime p; checksum := v |}.

Definition set_mag (x y z : Z) (p : t) : t :=
  {| sync1 := sync1 p; sync2 := sync2 p; packet_type := packet_type p;
     sequence_number := sequence_number p; timestamp := timestamp p;
     mag_x := x; mag_y := y; mag_z := z; corrosion_raw := corrosion_raw p;
     radiation_cps := radiation_cps p; temperature_bme := temperature_bme p;
     pressure := pressure p; humidity := humidity p;
     temperature_tmp := temperature_tmp p; latitude := latitude p;
     longitude := longitude p; altitude := altitude p;
     gps_quality := gps_quality p; gps_satellites := gps_satellites p;
     battery_voltage := battery_voltage p;
     battery_current := battery_current p; boot_count := boot_count p;
     error_flags := error_flags p; system_state := system_state p;
     uptime := uptime p; checksum := checksum p |}.

Definition set_bme (temp press hum : Z) (p : t) : t :=
  {| sync1 := sync1 p; sync2 := sync2 p; packet_type := packet_type p;
     sequence_number := sequence_number p; timestamp := timestamp p;
     mag_x := mag_x p; mag_y := mag_y p; mag_z := mag_z p;
     corrosion_raw := corrosion_raw p; radiation_cps := radiation_cps p;
     temperature_bme := temp; pressure := press; humidity := hum;
     temperature_tmp := temperature_tmp p; latitude := latitude p;
     longitude := longitude p; altitude := altitude p;
     gps_quality := gps_quality p; gps_satellites := gps_satellites p;
     battery_voltage := battery_voltage p;
     battery_current := battery_current p; boot_count := boot_count p;
     error_flags := error_flags p; system_state := system_state p;
     uptime := uptime p; checksum := checksum p |}.

(** The object representation without the trailing checksum member:
    [sizeof(TelemetryPacket_t) - 2] bytes. *)
Definition payload (p : t) : list Z :=
  [u8 (sync1 p); u8 (sync2 p); u8 (packet_type p)]
  ++ le16 (sequence_number p) ++ le32 (timestamp p)
  ++ le32 (mag_x p) ++ le32 (mag_y p) ++ le32 (mag_z p)
  ++ le16 (corrosion_raw p) ++ le32 (radiation_cps p)
  ++ le32 (temperature_bme p) ++ le32 (pressure p) ++ le32 (humidity p)
  ++ le32 (temperature_tmp p)
  ++ le32 (latitude p) ++ le32 (longitude p) ++ le32 (altitude p)
  ++ [u8 (gps_quality p); u8 (gps_satellites p)]
  ++ le16 (battery_voltage p) ++ le16 (battery_current p)
  ++ [u8 (boot_count p); u8 (error_flags p); u8 (system_state p)]
  ++ le32 (uptime p).

(** The whole packed object, as [(uint8_t * )packet] sees it. *)
Definition bytes (p : t) : list Z := payload p ++ le16 (checksum p).

End Telemetry.

Abbreviation TelemetryPacket_t := Telemetry.t.

Module Command.

Record t := {
  sync1 : Z; sync2 : Z; command_id : Z; sequence_number : Z;
  parameter_length : Z;
  parameters : list Z;
  checksum : Z
}.

(** Member ranges of the C type; [parameters] is [uint8_t[64]]. *)
Definition wf (c : t) : Prop :=
  0 <= sync1 c < 256 /\ 0 <= sync2 c < 256 /\ 0 <= command_id c < 256 /\
  0 <= sequence_number c < 65536 /\ 0 <= parameter_length c < 65536 /\
  length (parameters c) = 64%nat /\
  Forall (fun b => 0 <= b < 256) (parameters c) /\
  0 <= checksum c < 65536.

(** The object representation without the trailing checksum member:
    [sizeof(CommandPacket_t) - 2] bytes. *)
Definition payload (c : t) : list Z :=
  [u8 (sync1 c); u8 (sync2 c); u8 (command_id c)]
  ++ le16 (sequence_number c) ++ le16 (parameter_length c)
  ++ parameters c.

Definition bytes (c : t) : list Z := payload c ++ le16 (checksum c).

(** Reading a packed object out of raw memory: the cast
    [(CommandPacket_t * )rx_buffer]. *)
Definition of_bytes (b : list Z) : t :=
  {| sync1 := nth 0 b 0; sync2 := nth 1 b 0; command_id := nth 2 b 0;
     sequence_number := rd16 (nth 3 b 0) (nth 4 b 0);
     parameter_length := rd16 (nth 5 b 0) (nth 6 b 0);
     parameters := take 64 (drop 7 b);
     checksum := rd16 (nth 71 b 0) (nth 72 b 0) |}.

End Command.

Abbreviation CommandPacket_t := Command.t.

Definition sizeof_TelemetryPacket_t : Z := 70.
Definition sizeof_CommandPacket_t : Z := 73.

(** ** The outside world: HAL and RTOS calls *)

Inductive uart := huart1 | huart2.
Inductive gpio := PI_WAKE_PIN | LED_PIN | SPI1_CS_Pin.
Inductive periph_clock := I2C1_CLK | SPI1_CLK.

Inductive event :=
| EvUartTransmit (h : uart) (data : list Z)   (* HAL_UART_Transmit *)
| EvGpioWrite (pin : gpio) (level : bool)     (* HAL_GPIO_WritePin *)
| EvGpioToggle (pin : gpio)                   (* HAL_GPIO_TogglePin *)
| EvDelay (ms : Z)                            (* HAL_Delay, osDelay, vTaskDelay *)
| EvSystemReset                               (* NVIC_SystemReset *)
| EvIwdgRefresh                               (* HAL_IWDG_Refresh *)
| EvClockDisable (c : periph_clock).          (* __HAL_RCC_x_CLK_DISABLE *)

(** Reads that [ProcessCommand] performs on the object [*cmd]. *)
Inductive cmd_access :=
| RdSync1
| RdSync2
| RdCommandId
| RdSequenceNumber
| RdParameterLength
| RdParameters (i : Z)      (* cmd->parameters[i] *)
| RdChecksum
| RdObject (n : Z).         (* the first n bytes, through (uint8_t * )cmd *)

(** ** main.c: global variables *)

Record Sys := {
  system_state : Z;                        (* uint8_t *)
  boot_count : Z;                          (* uint32_t *)
  system_uptime : Z;                       (* uint32_t *)
  current_telemetry : TelemetryPacket_t;
  radiation_pulse_count : Z;               (* volatile uint32_t *)
  telemetryQueue : list TelemetryPacket_t; (* contents behind telemetryQueueHandle *)
  commandQueue : list CommandPacket_t;     (* contents behind commandQueueHandle *)
  hal_tick : Z;                            (* the HAL millisecond tick *)
  mcu_reset : bool;                        (* NVIC_SystemReset has been called *)
  trace : list event;
  cmd_reads : list cmd_access
}.

Definition sys_init : Sys :=
  {| system_state := STATE_BOOT; boot_count := 0; system_uptime := 0;
     current_telemetry := Telemetry.zero; radiation_pulse_count := 0;
     telemetryQueue := []; commandQueue := []; hal_tick := 0;
     mcu_reset := false; trace := []; cmd_reads := [] |}.

Definition set_system_state (v : Z) (s : Sys) : Sys :=
  {| system_state := v; boot_count := boot_count s;
     system_uptime := system_uptime s;
     current_telemetry := current_telemetry s;
     radiation_pulse_count := radiation_pulse_count s;
     telemetryQueue := telemetryQueue s; commandQueue := commandQueue s;
     hal_tick := hal_tick s; mcu_reset := mcu_reset s; trace := trace s;
     cmd_reads := cmd_reads s |}.

Definition set_boot_count (v : Z) (s : Sys) : Sys :=
  {| system_state := system_state s; boot_count := v;
     system_uptime := system_uptime s;
     current_telemetry := current_telemetry s;
     radiation_pulse_count := radiation_pulse_count s;
     telemetryQueue := telemetryQueue s; commandQueue := commandQueue s;
     hal_tick := hal_tick s; mcu_reset := mcu_reset s; trace := trace s;
     cmd_reads := cmd_reads s |}.

Definition set_system_uptime (v : Z) (s : Sys) : Sys :=
  {| system_state := system_state s; boot_count := boot_count s;
     system_uptime := v; current_telemetry := current_telemetry s;
     radiation_pulse_count := radiation_pulse_count s;
     telemetryQueue := telemetryQueue s; commandQueue := commandQueue s;
     hal_tick := hal_tick s; mcu_reset := mcu_reset s; trace := trace s;
     cmd_reads := cmd_reads s |}.

Definition set_current_telemetry (v : TelemetryPacket_t) (s : Sys) : Sys :=
  {| system_state := system_state s; boot_count := boot_count s;
     system_uptime := system_uptime s; current_telemetry := v;
     radiation_pulse_count := radiation_pulse_count s;
     telemetryQueue := telemetryQueue s; commandQueue := commandQueue s;
     hal_tick := hal_tick s; mcu_reset := mcu_reset s; trace := trace s;
     cmd_reads := cmd_reads s |}.

Definition set_radiation_pulse_count (v : Z) (s : Sys) : Sys :=
  {| system_state := system_state s; boot_count := boot_count s;
     system_uptime := system_uptime s;
     current_telemetry := current_telemetry s; radiation_pulse_count := v;
     telemetryQueue := telemetryQueue s; commandQueue := commandQueue s;
     hal_tick := hal_tick s; mcu_reset := mcu_reset s; trace := trace s;
     cmd_reads := cmd_reads s |}.

Definition set_telemetryQueue (v : list TelemetryPacket_t) (s : Sys) : Sys :=
  {| system_state := system_state s; boot_count := boot_count s;
     system_uptime := system_uptime s;
     current_telemetry := current_telemetry s;
     radiation_pulse_count := radiation_pulse_count s; telemetryQueue := v;
     commandQueue := commandQueue s; hal_tick := hal_tick s;
     mcu_reset := mcu_reset s; trace := trace s; cmd_reads := cmd_reads s |}.

Definition set_commandQueue (v : list CommandPacket_t) (s : Sys) : Sys :=
  {| system_state := system_state s; boot_count := boot_count s;
     system_uptime := system_uptime s;
     current_telemetry := current_telemetry s;
     radiation_pulse_count := radiation_pulse_count s;
     telemetryQueue := telemetryQueue s; commandQueue := v;
     hal_tick := hal_tick s; mcu_reset := mcu_reset s; trace := trace s;
     cmd_reads := cmd_reads s |}.

Definition set_hal_tick (v : Z) (s : Sys) : Sys :=
  {| system_state := system_state s; boot_count := boot_count s;
     system_uptime := system_uptime s;
     current_telemetry := current_telemetry s;
     radiation_pulse_count := radiation_pulse_count s;
     telemetryQueue := telemetryQueue s; commandQueue := commandQueue s;
     hal_tick := v; mcu_reset := mcu_reset s; trace := trace s;
     cmd_reads := cmd_reads s |}.

Definition set_mcu_reset (v : bool) (s : Sys) : Sys :=
  {| system_state := system_state s; boot_count := boot_count s;
     system_uptime := system_uptime s;
     current_telemetry := current_telemetry s;
     radiation_pulse_count := radiation_pulse_count s;
     telemetryQueue := telemetryQueue s; commandQueue := commandQueue s;
     hal_tick := hal_tick s; mcu_reset := v; trace := trace s;
     cmd_reads := cmd_reads s |}.

Definition set_trace (v : list event) (s : Sys) : Sys :=
  {| system_state := system_state s; boot_count := boot_count s;
     system_uptime := system_uptime s;
     current_telemetry := current_telemetry s;
     radiation_pulse_count := radiation_pulse_count s;
     telemetryQueue := telemetryQueue s; commandQueue := commandQueue s;
     hal_tick := hal_tick s; mcu_reset := mcu_reset s; trace := v;
     cmd_reads := cmd_reads s |}.

Definition set_cmd_reads (v : list cmd_access) (s : Sys) : Sys :=
  {| system_state := system_state s; boot_count := boot_count s;
     system_uptime := system_uptime s;
     current_telemetry := current_telemetry s;
     radiation_pulse_count := radiation_pulse_count s;
     telemetryQueue := telemetryQueue s; commandQueue := commandQueue s;
     hal_tick := hal_tick s; mcu_reset := mcu_reset s; trace := trace s;
     cmd_reads := v |}.

Definition with_telemetry (f : TelemetryPacket_t -> TelemetryPacket_t)
    (s : Sys) : Sys :=
  set_current_telemetry (f (current_telemetry s)) s.

Definition emit (e : event) (s : Sys) : Sys := set_trace (trace s ++ [e]) s.

Definition reads (a : cmd_access) (s : Sys) : Sys :=
  set_cmd_reads (cmd_reads s ++ [a]) s.

Definition HAL_GetTick (s : Sys) : Z := hal_tick s.

Definition HAL_UART_Transmit (h : uart) (pData : list Z) (Size : Z)
    (s : Sys) : Sys :=
  emit (EvUartTransmit h (take (Z.to_nat Size) pData)) s.

Definition NVIC_SystemReset (s : Sys) : Sys :=
  set_mcu_reset true (emit EvSystemReset s).

(** Capacities given to [osMessageQueueNew] in [main]. *)
Definition telemetryQueue_capacity : Z := 10.
Definition commandQueue_capacity : Z := 5.

(** Modelled from the spec: the RTOS message queues, which the repository
    only declares through a compile-only stub header.  A queue is a bounded
    FIFO; a put with zero timeout on a full queue drops the new item; a get
    takes the oldest item and reports failure on an empty queue. *)
Definition osMessageQueuePut {A} (capacity : Z) (queue : list A) (msg : A)
    : list A :=
  if Z.of_nat (length queue) <? capacity then queue ++ [msg] else queue.

Definition osMessageQueueGet {A} (queue : list A) : option (A * list A) :=
  match queue with
  | [] => None
  | msg :: rest => Some (msg, rest)
  end.

(** ** main.c: radiation counter *)

Definition GPIO_PIN_0 : Z := 0x0001.
Definition RADIATION_PIN : Z := GPIO_PIN_0.

Definition HAL_GPIO_EXTI_Callback (GPIO_Pin : Z) (s : Sys) : Sys :=
  if GPIO_Pin =? RADIATION_PIN
  then set_radiation_pulse_count (u32 (radiation_pulse_count s + 1)) s
  else s.

Definition Get_Radiation_Counts (s : Sys) : Z := radiation_pulse_count s.

Definition Reset_Radiation_Counter (s : Sys) : Sys :=
  set_radiation_pulse_count 0 s.

(** ** main.c: battery and ADC helpers *)

(** [adc] is [Some adc_value] when [HAL_ADC_PollForConversion] returned
    [HAL_OK]. *)
Definition Read_Battery_Voltage (adc : option Z) : Z :=
  match adc with
  | Some adc_value => u16 (u32 (u32 (adc_value * 3300) * 2) / 4096)
  | None => 0
  end.

Definition Read_Battery_Current : Z := 0.

(** [rx1], [rx2] are the bytes [rx_data[1]], [rx_data[2]] clocked in by the
    SPI transfer. *)
Definition MCP3008_Read (rx1 rx2 : Z) (s : Sys) : Z * Sys :=
  let s := emit (EvGpioWrite SPI1_CS_Pin false) s in
  let s := emit (EvGpioWrite SPI1_CS_Pin true) s in
  (u16 (Z.lor (Z.shiftl (Z.land rx1 0x03) 8) rx2), s).

(** ** main.c: communication functions *)

Definition CalculateChecksum (data : list Z) (length : Z) : Z :=
  let checksum :=
    fold_left (fun checksum byte => u16 (checksum + byte))
              (take (Z.to_nat length) data) 0 in
  u16 (Z.lnot checksum).

Definition COMM_SendTelemetry (packet : TelemetryPacket_t) (s : Sys)
    : TelemetryPacket_t * Sys :=
  let packet := Telemetry.set_sync1 0xAA packet in
  let packet := Telemetry.set_sync2 0x55 packet in
  let packet := Telemetry.set_packet_type 0x01 packet in
  let packet := Telemetry.set_timestamp (HAL_GetTick s) packet in
  let packet :=
    Telemetry.set_checksum
      (CalculateChecksum (Telemetry.bytes packet) (sizeof_TelemetryPacket_t - 2))
      packet in
  (packet,
   HAL_UART_Transmit huart1 (Telemetry.bytes packet) sizeof_TelemetryPacket_t s).

Definition beacon_frame (s : Sys) : list Z :=
  [0xAA; 0x59; system_state s;
   u8 (Z.land (boot_count s) 0xFF);
   u8 (Z.shiftr (Telemetry.battery_voltage (current_telemetry s)) 8);
   u8 (Z.land (Telemetry.battery_voltage (current_telemetry s)) 0xFF)].

Definition COMM_SendBeacon (s : Sys) : Sys :=
  HAL_UART_Transmit huart2 (beacon_frame s) 6 s.

Definition LogError (error_code : Z) (s : Sys) : Sys :=
  with_telemetry
    (fun t => Telemetry.set_error_flags
                (u8 (Z.lor (Telemetry.error_flags t) (u8 error_code))) t)
    s.

Definition ShutdownPayload (s : Sys) : Sys :=
  let s := emit (EvGpioWrite PI_WAKE_PIN false) s in
  let s := emit (EvClockDisable I2C1_CLK) s in
  emit (EvClockDisable SPI1_CLK) s.

Section Dispatcher.

(** [ERROR_UNKNOWN_COMMAND] is used by [ProcessCommand] but defined in none
    of the headers; it is kept abstract. *)
Variable ERROR_UNKNOWN_COMMAND : Z.

Definition ProcessCommand (cmd : CommandPacket_t) (s : Sys) : Sys :=
  let s := reads RdSync1 s in
  if negb (Command.sync1 cmd =? 0xAA) then s else
  let s := reads RdSync2 s in
  if negb (Command.sync2 cmd =? 0x56) then s else
  let s := reads (RdObject (sizeof_CommandPacket_t - 2)) s in
  let calc_checksum :=
    CalculateChecksum (Command.bytes cmd) (sizeof_CommandPacket_t - 2) in
  let s := reads RdChecksum s in
  if negb (calc_checksum =? Command.checksum cmd) then LogError ERROR_UART s
  else
  let s := reads RdCommandId s in
  let id := Command.command_id cmd in
  if id =? CMD_PING then
    let s := reads RdSequenceNumber s in
    let response :=
      [0xAA; 0x57; 0x01; u8 (Z.land (Command.sequence_number cmd) 0xFF)] in
    HAL_UART_Transmit huart1 response 4 s
  else if id =? CMD_GET_TELEMETRY then
    let '(packet, s) := COMM_SendTelemetry (current_telemetry s) s in
    set_current_telemetry packet s
  else if id =? CMD_CAPTURE_IMAGE then
    let s := emit (EvGpioWrite PI_WAKE_PIN true) s in
    let s := emit (EvDelay 100) s in
    let s := emit (EvGpioWrite PI_WAKE_PIN false) s in
    set_system_state STATE_IMAGE_CAPTURE s
  else if id =? CMD_SET_MODE then
    let s := reads RdParameterLength s in
    if Command.parameter_length cmd >=? 1 then
      let s := reads (RdParameters 0) s in
      set_system_state (nth 0 (Command.parameters cmd) 0) s
    else s
  else if id =? CMD_RESET then
    let s := emit (EvDelay 100) s in
    NVIC_SystemReset s
  else if id =? CMD_TRANSMIT_FILE then
    let s := reads (RdObject sizeof_CommandPacket_t) s in
    HAL_UART_Transmit huart1 (Command.bytes cmd) sizeof_CommandPacket_t s
  else
    LogError ERROR_UNKNOWN_COMMAND s.

End Dispatcher.

(** ** main.c: loop bodies of the periodic tasks

    Each [*_iteration] is one pass through the body of the task's
    [while(1)] loop; variables that survive from one pass to the next
    ([sequence], [last_count], [last_beacon]) are threaded explicitly.
    What a task does once before its loop (sensor initialisation, arming
    the UART reception) is not part of a pass. *)

(** What the sensor drivers deliver in one pass: [Some] when the driver
    returned [HAL_OK] and wrote its outputs, [None] when it returned
    [HAL_ERROR] and left them alone. *)
Record SensorInputs := {
  lis3mdl : option (Z * Z * Z);     (* mx, my, mz *)
  bme280 : option (Z * Z * Z);      (* temp, press, hum *)
  tmp117 : option Z;
  mcp3008 : Z * Z;                  (* rx_data[1], rx_data[2] *)
  adc1 : option Z
}.

Definition SensorTask_iteration (inp : SensorInputs) (sequence : Z) (s : Sys)
    : Sys * Z :=
  let s := match lis3mdl inp with
           | Some (mx, my, mz) => with_telemetry (Telemetry.set_mag mx my mz) s
           | None => s
           end in
  let s := match bme280 inp with
           | Some (temp, press, hum) =>
               with_telemetry (Telemetry.set_bme temp press hum) s
           | None => s
           end in
  let s := match tmp117 inp with
           | Some temp => with_telemetry (Telemetry.set_temperature_tmp temp) s
           | None => s
           end in
  let '(raw, s) := MCP3008_Read (fst (mcp3008 inp)) (snd (mcp3008 inp)) s in
  let s := with_telemetry (Telemetry.set_corrosion_raw raw) s in
  let s := with_telemetry
             (Telemetry.set_battery_voltage (Read_Battery_Voltage (adc1 inp))) s in
  let s := with_telemetry
             (Telemetry.set_battery_current Read_Battery_Current) s in
  let s := with_telemetry (Telemetry.set_sequence_number sequence) s in
  let sequence := u16 (sequence + 1) in
  let s := with_telemetry (Telemetry.set_boot_count (u8 (boot_count s))) s in
  let s := with_telemetry (Telemetry.set_system_state (system_state s)) s in
  let s := with_telemetry (Telemetry.set_uptime (system_uptime s)) s in
  let s := set_telemetryQueue
             (osMessageQueuePut telemetryQueue_capacity (telemetryQueue s)
                                (current_telemetry s)) s in
  let s := emit (EvGpioToggle LED_PIN) s in
  let s := emit (EvDelay 1000) s in
  (s, sequence).

Definition RadiationTask_iteration (last_count : Z) (s : Sys) : Sys * Z :=
  let current_count := Get_Radiation_Counts s in
  let s := with_telemetry
             (Telemetry.set_radiation_cps (u32 (current_count - last_count))) s in
  let last_count := current_count in
  let s := emit (EvDelay 1000) s in
  (s, last_count).

(** The beacon block of [CommTask]: the [if] and its body. *)
Definition CommTask_beacon (last_beacon : Z) (s : Sys) : Sys * Z :=
  if (u32 (HAL_GetTick s - last_beacon) >? 30000)
     && ((system_state s =? STATE_NOMINAL) || (system_state s =? STATE_IDLE))
  then
    let s := COMM_SendBeacon s in
    (s, HAL_GetTick s)
  else (s, last_beacon).

Definition WatchdogTask_iteration (s : Sys) : Sys :=
  let s :=
    if Telemetry.battery_voltage (current_telemetry s) <? BATTERY_CRITICAL
    then ShutdownPayload (set_system_state STATE_LOW_POWER s)
    else s in
  let s :=
    if f32_gt (Telemetry.temperature_bme (current_telemetry s)) F32_70
       || f32_lt (Telemetry.temperature_bme (current_telemetry s)) F32_minus_20
    then LogError ERROR_TEMPERATURE (set_system_state STATE_SAFE s)
    else s in
  let s := emit EvIwdgRefresh s in
  let s := set_system_uptime (u32 (system_uptime s + 5)) s in
  emit (EvDelay 5000) s.

Section CommTask.

Variable ERROR_UNKNOWN_COMMAND : Z.

(** A call of [NVIC_SystemReset] does not return: the rest of the pass is
    not executed. *)
Definition CommTask_iteration (last_beacon : Z) (s : Sys) : Sys * Z :=
  let s := match osMessageQueueGet (telemetryQueue s) with
           | Some (tx_packet, rest) =>
               snd (COMM_SendTelemetry tx_packet (set_telemetryQueue rest s))
           | None => s
           end in
  let s := match osMessageQueueGet (commandQueue s) with
           | Some (cmd, rest) =>
               ProcessCommand ERROR_UNKNOWN_COMMAND cmd (set_commandQueue rest s)
           | None => s
           end in
  if mcu_reset s then (s, last_beacon) else
  let '(s, last_beacon) := CommTask_beacon last_beacon s in
  (emit (EvDelay 100) s, last_beacon).

End CommTask.

(** system.c *)
Definition SYSTEM_Init (s : Sys) : Sys :=
  set_boot_count (u32 (boot_count s + 1)) s.

(** ** communication.c: the byte-wise receive parser *)

Record RxState := {
  rx_buffer : list Z;        (* static uint8_t rx_buffer[UART_RX_BUFFER_SIZE] *)
  rx_index : Z;              (* static uint16_t *)
  expected_length : Z;       (* static uint16_t, local to the function *)
  packet_type : Z            (* static uint8_t, local to the function *)
}.

Definition rx_init : RxState :=
  {| rx_buffer := replicate (Z.to_nat UART_RX_BUFFER_SIZE) 0;
     rx_index := 0; expected_length := 0; packet_type := 0 |}.

(** One pass through the body of the [for] loop, for the input byte
    [data[i] = b].  The result is [None] when the store
    [rx_buffer[rx_index++] = data[i]] would fall outside [rx_buffer]. *)
Definition rx_byte (b : Z) (c : RxState * Sys) : option (RxState * Sys) :=
  let '(st, s) := c in
  if negb ((0 <=? rx_index st) && (rx_index st <? UART_RX_BUFFER_SIZE))
  then None else
  let buf := <[Z.to_nat (rx_index st) := b]> (rx_buffer st) in
  let idx := u16 (rx_index st + 1) in
  if (idx =? 1) && negb (nth 0 buf 0 =? 0xAA) then
    Some ({| rx_buffer := buf; rx_index := 0;
             expected_length := expected_length st;
             packet_type := packet_type st |}, s)
  else
    let '(idx, len, ty) :=
      if idx =? 2 then
        if nth 1 buf 0 =? 0x55 then (idx, sizeof_TelemetryPacket_t, 0x01)
        else if nth 1 buf 0 =? 0x56 then (idx, sizeof_CommandPacket_t, 0x02)
        else (0, expected_length st, packet_type st)
      else (idx, expected_length st, packet_type st) in
    if (idx >=? len) && (len >? 0) then
      let s :=
        if ty =? 0x02
        then set_commandQueue
               (osMessageQueuePut commandQueue_capacity (commandQueue s)
                                  (Command.of_bytes buf)) s
        else s in
      Some ({| rx_buffer := buf; rx_index := 0; expected_length := 0;
               packet_type := ty |}, s)
    else
      Some ({| rx_buffer := buf; rx_index := idx; expected_length := len;
               packet_type := ty |}, s).

Fixpoint rx_bytes (data : list Z) (c : RxState * Sys)
    : option (RxState * Sys) :=
  match data with
  | [] => Some c
  | b :: rest =>
      match rx_byte b c with
      | Some c' => rx_bytes rest c'
      | None => None
      end
  end.

(** [data] holds the bytes the caller passes; the loop consumes the first
    [length] of them. *)
Definition COMM_ProcessReceivedData (data : list Z) (length : Z)
    (c : RxState * Sys) : option (RxState * Sys) :=
  rx_bytes (take (Z.to_nat length) data) c.

(** The receive-complete interrupt of [communication.c].  Reception is
    armed with [HAL_UART_Receive_IT(&huart1, rx_buffer, 1)], so the received
    byte sits in [rx_buffer[0]] when the callback runs, and the callback
    passes [rx_buffer] itself as [data].  ([main.c] defines a second callback
    of the same name that queues a whole packet unchecked; the two cannot be
    linked together, and the byte-wise one is the one modelled.) *)
Definition HAL_UART_RxCpltCallback (h : uart) (received : Z)
    (c : RxState * Sys) : option (RxState * Sys) :=
  match h with
  | huart1 =>
      let '(st, s) := c in
      let st := {| rx_buffer := <[0%nat := received]> (rx_buffer st);
                   rx_index := rx_index st;
                   expected_length := expected_length st;
                   packet_type := packet_type st |} in
      COMM_ProcessReceivedData (rx_buffer st) 1 (st, s)
  | huart2 => Some c
  end.

(** ** The firmware as a whole *)

Record Firmware := {
  sys : Sys;
  rxs : RxState;
  sequence : Z;          (* SensorTask: static uint16_t sequence *)
  last_count : Z;        (* RadiationTask: uint32_t last_count *)
  last_beacon : Z        (* CommTask: uint32_t last_beacon *)
}.

Definition fw_init : Firmware :=
  {| sys := sys_init; rxs := rx_init; sequence := 0; last_count := 0;
     last_beacon := 0 |}.

Inductive op :=
| OpSensorTask (inp : SensorInputs)
| OpRadiationTask
| OpCommTask
| OpWatchdogTask
| OpRadiationPulse (GPIO_Pin : Z)
| OpReceive (data : list Z) (length : Z)
| OpUartRx (h : uart) (received : Z)
| OpSysTick
| OpSystemInit.

Section Exec.

Variable ERROR_UNKNOWN_COMMAND : Z.

Definition with_rx (r : option (RxState * Sys)) (f : Firmware) : Firmware :=
  match r with
  | Some (st, s) =>
      {| sys := s; rxs := st; sequence := sequence f;
         last_count := last_count f; last_beacon := last_beacon f |}
  | None => f
  end.

(** One scheduling step.  After [NVIC_SystemReset] nothing of this boot
    session runs any more.  An operation is taken as a whole here; a task
    preempted inside [LogError] is the matter of [LogError_preempted]. *)
Definition exec (o : op) (f : Firmware) : Firmware :=
  if mcu_reset (sys f) then f else
  match o with
  | OpSensorTask inp =>
      let '(s, n) := SensorTask_iteration inp (sequence f) (sys f) in
      {| sys := s; rxs := rxs f; sequence := n; last_count := last_count f;
         last_beacon := last_beacon f |}
  | OpRadiationTask =>
      let '(s, n) := RadiationTask_iteration (last_count f) (sys f) in
      {| sys := s; rxs := rxs f; sequence := sequence f; last_count := n;
         last_beacon := last_beacon f |}
  | OpCommTask =>
      let '(s, n) :=
        CommTask_iteration ERROR_UNKNOWN_COMMAND (last_beacon f) (sys f) in
      {| sys := s; rxs := rxs f; sequence := sequence f;
         last_count := last_count f; last_beacon := n |}
  | OpWatchdogTask =>
      {| sys := WatchdogTask_iteration (sys f); rxs := rxs f;
         sequence := sequence f; last_count := last_count f;
         last_beacon := last_beacon f |}
  | OpRadiationPulse pin =>
      {| sys := HAL_GPIO_EXTI_Callback pin (sys f); rxs := rxs f;
         sequence := sequence f; last_count := last_count f;
         last_beacon := last_beacon f |}
  | OpReceive data length =>
      with_rx (COMM_ProcessReceivedData data length (rxs f, sys f)) f
  | OpUartRx h received =>
      with_rx (HAL_UART_RxCpltCallback h received (rxs f, sys f)) f
  | OpSysTick =>
      {| sys := set_hal_tick (u32 (hal_tick (sys f) + 1)) (sys f);
         rxs := rxs f; sequence := sequence f; last_count := last_count f;
         last_beacon := last_beacon f |}
  | OpSystemInit =>
      {| sys := SYSTEM_Init (sys f); rxs := rxs f; sequence := sequence f;
         last_count := last_count f; last_beacon := last_beacon f |}
  end.

Definition run (ops : list op) (f : Firmware) : Firmware :=
  fold_left (fun f o => exec o f) ops f.

Inductive reachable : Firmware -> Prop :=
| reachable_init : reachable fw_init
| reachable_step o f : reachable f -> reachable (exec o f).

End Exec.

(** ** Observations on traces *)

Definition is_shutdown (e : event) : bool :=
  match e with EvClockDisable I2C1_CLK => true | _ => false end.

(** Number of calls of [ShutdownPayload] recorded in a trace (the I2C clock
    is disabled nowhere else). *)
Definition shutdown_invocations (tr : list event) : nat :=
  length (List.filter is_shutdown tr).

Definition is_beacon (e : event) : bool :=
  match e with EvUartTransmit huart2 _ => true | _ => false end.

(** Number of beacons recorded in a trace (nothing else goes out on
    [huart2]). *)
Definition beacons (tr : list event) : nat :=
  length (List.filter is_beacon tr).

(** [n] rising edges on the radiation input. *)
Fixpoint pulses (n : nat) (s : Sys) : Sys :=
  match n with
  | O => s
  | S n => HAL_GPIO_EXTI_Callback RADIATION_PIN (pulses n s)
  end.

(** A read of [*cmd] that stays inside the object: an element of
    [parameters] inside [parameters[0..63]], a byte-wise read inside the
    [sizeof(CommandPacket_t)] bytes. *)
Definition access_in_bounds (a : cmd_access) : Prop :=
  match a with
  | RdParameters i => 0 <= i <= 63
  | RdObject n => 0 <= n <= sizeof_CommandPacket_t
  | _ => True
  end.

(** The checks [ProcessCommand] makes before it dispatches. *)
Definition sync_ok (cmd : CommandPacket_t) : Prop :=
  Command.sync1 cmd = 0xAA /\ Command.sync2 cmd = 0x56.

Definition checksum_valid (cmd : CommandPacket_t) : Prop :=
  CalculateChecksum (Command.bytes cmd) (sizeof_CommandPacket_t - 2)
  = Command.checksum cmd.

(** The reads of [*cmd] that precede the [switch]. *)
Definition checked (s : Sys) : Sys :=
  reads RdCommandId
    (reads RdChecksum
       (reads (RdObject (sizeof_CommandPacket_t - 2))
          (reads RdSync2 (reads RdSync1 s)))).

(** The [error_flags] byte of the shared telemetry record. *)
Definition flags (s : Sys) : Z := Telemetry.error_flags (current_telemetry s).

(** [b] is [a] itself or [a] with one more error code ORed in. *)
Definition flags_grow (a b : Z) : Prop :=
  b = a \/ exists code, b = u8 (Z.lor a (u8 code)).

(** ** Invariant of the receive parser

    Between two input bytes the parser is either waiting for a sync pair
    (no length chosen, at most the first sync byte stored) or accumulating
    a frame whose kind and length were chosen by the second byte. *)
Definition rx_inv (st : RxState) : Prop :=
  length (rx_buffer st) = Z.to_nat UART_RX_BUFFER_SIZE /\
  ((expected_length st = 0 /\ 0 <= rx_index st <= 1)
   \/ (expected_length st = sizeof_TelemetryPacket_t /\ packet_type st = 0x01
       /\ 2 <= rx_index st < sizeof_TelemetryPacket_t)
   \/ (expected_length st = sizeof_CommandPacket_t /\ packet_type st = 0x02
       /\ 2 <= rx_index st < sizeof_CommandPacket_t)).

(** The parser waits for the first sync byte. *)
Definition rx_idle (st : RxState) : Prop :=
  length (rx_buffer st) = Z.to_nat UART_RX_BUFFER_SIZE
  /\ rx_index st = 0 /\ expected_length st = 0.

(** The boot-time state with a given operating mode, tick count, battery
    voltage (mV) and BME280 temperature (binary32 pattern). *)
Definition sys_at (state tick mv temp : Z) : Sys :=
  set_system_state state
    (set_hal_tick tick
       (with_telemetry
          (fun t => Telemetry.set_bme temp 0 0
                      (Telemetry.set_battery_voltage mv t))
          sys_init)).

(** The literals [25.0f] and [71.0f]. *)
Definition F32_25 : Z := 0x41C80000.
Definition F32_71 : Z := 0x428E0000.

(** The condition of the beacon block of [CommTask]. *)
Definition beacon_due (last_beacon : Z) (s : Sys) : bool :=
  (u32 (HAL_GetTick s - last_beacon) >? 30000)
  && ((system_state s =? STATE_NOMINAL) || (system_state s =? STATE_IDLE)).

(** The temperature condition of [WatchdogTask]. *)
Definition temperature_out_of_range (s : Sys) : bool :=
  f32_gt (Telemetry.temperature_bme (current_telemetry s)) F32_70
  || f32_lt (Telemetry.temperature_bme (current_telemetry s)) F32_minus_20.

(** ** Sample inputs *)

(** A value to put in the place of [ERROR_UNKNOWN_COMMAND] when a concrete
    run is evaluated (the next free code after [ERROR_MEMORY]). *)
Definition SAMPLE_UNKNOWN_COMMAND : Z := 0x09.

(** The packet [c] with the checksum a sender computes for it. *)
Definition with_checksum (c : CommandPacket_t) : CommandPacket_t :=
  {| Command.sync1 := Command.sync1 c; Command.sync2 := Command.sync2 c;
     Command.command_id := Command.command_id c;
     Command.sequence_number := Command.sequence_number c;
     Command.parameter_length := Command.parameter_length c;
     Command.parameters := Command.parameters c;
     Command.checksum :=
       CalculateChecksum (Command.bytes c) (sizeof_CommandPacket_t - 2) |}.

(** A command packet with the given identifier, sequence number 0, no
    parameters, and the checksum that matches. *)
Definition bare_command (id : Z) : CommandPacket_t :=
  with_checksum
    {| Command.sync1 := 0xAA; Command.sync2 := 0x56;
       Command.command_id := id; Command.sequence_number := 0;
       Command.parameter_length := 0;
       Command.parameters := replicate 64 0;
       Command.checksum := 0 |}.

(** The Ping frame of sequence number 7 with its matching checksum. *)
Definition ping_frame : list Z :=
  [0xAA; 0x56; CMD_PING; 0x07; 0x00; 0x00; 0x00] ++ replicate 64 0
  ++ [0xF7; 0xFE].

(** A SetMode command that announces 65 parameter bytes and asks for
    [STATE_NOMINAL]. *)
Definition set_mode_65 : CommandPacket_t :=
  with_checksum
    {| Command.sync1 := 0xAA; Command.sync2 := 0x56;
       Command.command_id := CMD_SET_MODE; Command.sequence_number := 1;
       Command.parameter_length := 65;
       Command.parameters := STATE_NOMINAL :: replicate 63 0;
       Command.checksum := 0 |}.

(** A Ping frame whose two checksum bytes are wrong (the right ones are
    0xF7 0xFE). *)
Definition corrupted_ping_frame : list Z :=
  [0xAA; 0x56; CMD_PING; 0x07; 0x00; 0x00; 0x00] ++ replicate 64 0
  ++ [0x00; 0x00].

(** Sensor readings with the BME280 at 71 degrees Celsius. *)
Definition hot_inputs : SensorInputs :=
  {| lis3mdl := None; bme280 := Some (F32_71, 0, 0); tmp117 := None;
     mcp3008 := (0, 0); adc1 := Some 2500 |}.

(** The firmware after one sensor pass with [hot_inputs] and one watchdog
    pass. *)
Definition fw_overheated : Firmware :=
  exec SAMPLE_UNKNOWN_COMMAND OpWatchdogTask
    (exec SAMPLE_UNKNOWN_COMMAND (OpSensorTask hot_inputs) fw_init).

(** What arrives at the parser: a direct call, or a receive-complete
    interrupt. *)
Inductive rx_input :=
| RxCall (data : list Z) (length : Z)
| RxInterrupt (h : uart) (received : Z).

Definition rx_feed (i : rx_input) (c : RxState * Sys)
    : option (RxState * Sys) :=
  match i with
  | RxCall data length => COMM_ProcessReceivedData data length c
  | RxInterrupt h received => HAL_UART_RxCpltCallback h received c
  end.

Fixpoint rx_run (inputs : list rx_input) (c : RxState * Sys)
    : option (RxState * Sys) :=
  match inputs with
  | [] => Some c
  | i :: rest =>
      match rx_feed i c with
      | Some c' => rx_run rest c'
      | None => None
      end
  end.

(** ** Proof tools *)

Ltac case_cmp :=
  match goal with
  | |- context [?a =? ?b] => destruct (Z.eqb_spec a b)
  | |- context [?a <? ?b] => destruct (Z.ltb_spec a b)
  | |- context [?a <=? ?b] => destruct (Z.leb_spec a b)
  | |- context [?a >=? ?b] => rewrite (Z.geb_leb a b)
  | |- context [?a >? ?b] => rewrite (Z.gtb_ltb a b)
  end.

Ltac rx_cases :=
  repeat (case_cmp; cbn beta iota zeta; cbn [andb negb]; try lia).

Ltac rx_consts :=
  unfold UART_RX_BUFFER_SIZE, sizeof_TelemetryPacket_t, sizeof_CommandPacket_t,
    commandQueue_capacity in *.

Ltac by_compute :=
  vm_compute; repeat split; first [reflexivity | discriminate].

(** ** Further observations *)

(** The plain sum of a byte sequence. *)
Definition byte_sum (l : list Z) : Z := fold_right Z.add 0 l.

(** Every element is a byte. *)
Definition all_bytes (l : list Z) : Prop := Forall (fun b => 0 <= b < 256) l.

(** A TransmitFile frame without parameters, with its matching checksum
    bytes. *)
Definition transmit_file_frame : list Z :=
  [0xAA; 0x56; CMD_TRANSMIT_FILE; 0x00; 0x00; 0x00; 0x00] ++ replicate 64 0
  ++ [0xF9; 0xFE].

(** The middle of [ping_frame]: what lies between the sync pair and the
    last checksum byte. *)
Definition ping_body : list Z :=
  [CMD_PING; 0x07; 0x00; 0x00; 0x00] ++ replicate 64 0 ++ [0xF7].

Definition is_iwdg_refresh (e : event) : bool :=
  match e with EvIwdgRefresh => true | _ => false end.

(** Number of watchdog refreshes recorded in a trace. *)
Definition iwdg_refreshes (tr : list event) : nat :=
  length (List.filter is_iwdg_refresh tr).

(** The bit pattern [w] is a binary32 NaN: exponent all ones, mantissa not
    zero. *)
Definition f32_is_nan (w : Z) : bool :=
  (Z.land (Z.shiftr w 23) 255 =? 255) && negb (Z.land w 8388607 =? 0).

(** The restricted operating modes the watchdog can force. *)
Definition safing (state : Z) : Prop :=
  state = STATE_SAFE \/ state = STATE_LOW_POWER.

(** Sensor readings of a pass in which every driver and the ADC fail. *)
Definition failed_inputs : SensorInputs :=
  {| lis3mdl := None; bme280 := None; tmp117 := None;
     mcp3008 := (0, 0); adc1 := None |}.

(** ** system.c: task health *)

(** The four task handles of [main.c]. *)
Inductive task := sensorTask | radiationTask | commTask | watchdogTask.

Record HealthState := {
  last_health_check : Z;     (* static uint32_t *)
  task_health : list Z       (* static uint8_t task_health[4] *)
}.

Definition health_init : HealthState :=
  {| last_health_check := 0; task_health := [0; 0; 0; 0] |}.

(** [is_running t] is the value of
    [osThreadGetState(handle of t) == osThreadRunning] at the time of the
    call. *)
Definition SYSTEM_CheckHealth (is_running : task -> bool) (s : Sys)
    (h : HealthState) : HealthState :=
  let current_time := HAL_GetTick s in
  if u32 (current_time - last_health_check h) >? 60000 then
    let th := task_health h in
    let th := <[0%nat := Z.b2z (is_running sensorTask)]> th in
    let th := <[1%nat := Z.b2z (is_running radiationTask)]> th in
    let th := <[2%nat := Z.b2z (is_running commTask)]> th in
    let th := <[3%nat := Z.b2z (is_running watchdogTask)]> th in
    {| last_health_check := current_time; task_health := th |}
  else h.

Definition SYSTEM_CheckTaskHealth (h : HealthState) : Z :=
  Z.b2z (negb (nth 0 (task_health h) 0 =? 0)
         && negb (nth 1 (task_health h) 0 =? 0)
         && negb (nth 2 (task_health h) 0 =? 0)
         && negb (nth 3 (task_health h) 0 =? 0)).

Definition SYSTEM_ResetSystem (s : Sys) : Sys :=
  NVIC_SystemReset (emit (EvDelay 100) s).

(** A series of health polls, each with the thread states and the global
    state it finds. *)
Definition health_polls (polls : list ((task -> bool) * Sys))
    (h : HealthState) : HealthState :=
  fold_left (fun h p => SYSTEM_CheckHealth (fst p) (snd p) h) polls h.

(** ** main.c: sensor initialisation over I2C *)

Inductive HAL_StatusTypeDef := HAL_OK | HAL_ERROR | HAL_BUSY | HAL_TIMEOUT.

Definition is_HAL_OK (r : HAL_StatusTypeDef) : bool :=
  match r with HAL_OK => true | _ => false end.

Inductive bus_event :=
| BusMemWrite (dev reg value : Z)     (* HAL_I2C_Mem_Write, one byte *)
| BusMemRead (dev reg size : Z)       (* HAL_I2C_Mem_Read *)
| BusDelay (ms : Z).                  (* HAL_Delay *)

(** The I2C bus as the drivers see it: how many transactions were issued
    so far, and which. *)
Record I2c := { i2c_calls : nat; i2c_log : list bus_event }.

Definition i2c_idle : I2c := {| i2c_calls := 0; i2c_log := [] |}.

Definition LIS3MDL_ADDR : Z := 0x1E.
Definition BME280_ADDR : Z := 0x76.
Definition TMP117_ADDR : Z := 0x48.

Section I2cDrivers.

(** [status k] is what the [k]-th I2C transaction since boot returns. *)
Variable status : nat -> HAL_StatusTypeDef.

Definition HAL_I2C_Mem_Write (dev reg value : Z) (b : I2c)
    : HAL_StatusTypeDef * I2c :=
  (status (i2c_calls b),
   {| i2c_calls := S (i2c_calls b);
      i2c_log := i2c_log b ++ [BusMemWrite dev reg value] |}).

Definition HAL_I2C_Mem_Read (dev reg size : Z) (b : I2c)
    : HAL_StatusTypeDef * I2c :=
  (status (i2c_calls b),
   {| i2c_calls := S (i2c_calls b);
      i2c_log := i2c_log b ++ [BusMemRead dev reg size] |}).

Definition HAL_Delay_bus (ms : Z) (b : I2c) : I2c :=
  {| i2c_calls := i2c_calls b; i2c_log := i2c_log b ++ [BusDelay ms] |}.

Definition LIS3MDL_Init (b : I2c) : HAL_StatusTypeDef * I2c :=
  let '(r, b) := HAL_I2C_Mem_Write LIS3MDL_ADDR 0x20 0x70 b in
  if negb (is_HAL_OK r) then (HAL_ERROR, b) else
  let '(r, b) := HAL_I2C_Mem_Write LIS3MDL_ADDR 0x21 0x00 b in
  if negb (is_HAL_OK r) then (HAL_ERROR, b) else
  let '(r, b) := HAL_I2C_Mem_Write LIS3MDL_ADDR 0x22 0x00 b in
  if negb (is_HAL_OK r) then (HAL_ERROR, b) else
  let '(r, b) := HAL_I2C_Mem_Write LIS3MDL_ADDR 0x23 0x08 b in
  if negb (is_HAL_OK r) then (HAL_ERROR, b) else
  (HAL_OK, b).

Definition BME280_Init (b : I2c) : HAL_StatusTypeDef * I2c :=
  let '(r, b) := HAL_I2C_Mem_Write BME280_ADDR 0xE0 0xB6 b in
  if negb (is_HAL_OK r) then (HAL_ERROR, b) else
  let b := HAL_Delay_bus 10 b in
  let '(r, b) := HAL_I2C_Mem_Write BME280_ADDR 0xF2 0x03 b in
  if negb (is_HAL_OK r) then (HAL_ERROR, b) else
  let '(r, b) := HAL_I2C_Mem_Write BME280_ADDR 0xF4 0x27 b in
  if negb (is_HAL_OK r) then (HAL_ERROR, b) else
  let '(r, b) := HAL_I2C_Mem_Write BME280_ADDR 0xF5 0xA0 b in
  if negb (is_HAL_OK r) then (HAL_ERROR, b) else
  (HAL_OK, b).

Definition TMP117_Init (b : I2c) : HAL_StatusTypeDef * I2c :=
  let '(r, b) := HAL_I2C_Mem_Read TMP117_ADDR 0x0F 1 b in
  if negb (is_HAL_OK r) then (HAL_ERROR, b) else
  let '(r, b) := HAL_I2C_Mem_Write TMP117_ADDR 0x01 0x00 b in
  if negb (is_HAL_OK r) then (HAL_ERROR, b) else
  (HAL_OK, b).

(** What [SensorTask] does before its loop: the three initialisations,
    their results dropped. *)
Definition SensorTask_init (b : I2c) : I2c :=
  let b := snd (LIS3MDL_Init b) in
  let b := snd (BME280_Init b) in
  snd (TMP117_Init b).

End I2cDrivers.

(** The register writes of the two initialisations, in program order. *)
Definition LIS3MDL_writes : list bus_event :=
  [BusMemWrite LIS3MDL_ADDR 0x20 0x70; BusMemWrite LIS3MDL_ADDR 0x21 0x00;
   BusMemWrite LIS3MDL_ADDR 0x22 0x00; BusMemWrite LIS3MDL_ADDR 0x23 0x08].

Definition BME280_sequence : list bus_event :=
  [BusMemWrite BME280_ADDR 0xE0 0xB6; BusDelay 10;
   BusMemWrite BME280_ADDR 0xF2 0x03; BusMemWrite BME280_ADDR 0xF4 0x27;
   BusMemWrite BME280_ADDR 0xF5 0xA0].

(** An I2C bus on which the transaction number [j] fails and all others
    succeed. *)
Definition fails_at (j : nat) (k : nat) : HAL_StatusTypeDef :=
  if Nat.eqb k j then HAL_TIMEOUT else HAL_OK.

(** ** sensors.c: BME280 calibration data *)

(** The conversions [(int16_t)] and [(int8_t)]. *)
Definition s16 (x : Z) : Z :=
  let y := x mod 65536 in if y <? 32768 then y else y - 65536.
Definition s8 (x : Z) : Z :=
  let y := x mod 256 in if y <? 128 then y else y - 256.

Record bme280_cal_t := {
  dig_T1 : Z; dig_T2 : Z; dig_T3 : Z;
  dig_P1 : Z; dig_P2 : Z; dig_P3 : Z; dig_P4 : Z; dig_P5 : Z; dig_P6 : Z;
  dig_P7 : Z; dig_P8 : Z; dig_P9 : Z;
  dig_H1 : Z; dig_H2 : Z; dig_H3 : Z; dig_H4 : Z; dig_H5 : Z; dig_H6 : Z
}.

Definition bme280_cal_zero : bme280_cal_t :=
  {| dig_T1 := 0; dig_T2 := 0; dig_T3 := 0; dig_P1 := 0; dig_P2 := 0;
     dig_P3 := 0; dig_P4 := 0; dig_P5 := 0; dig_P6 := 0; dig_P7 := 0;
     dig_P8 := 0; dig_P9 := 0; dig_H1 := 0; dig_H2 := 0; dig_H3 := 0;
     dig_H4 := 0; dig_H5 := 0; dig_H6 := 0 |}.

(** The three reads of [Sensors_Init], each given by its status and by what
    its destination holds when the call returns: [cal_data] after the read
    at 0x88, [dig_H1] after the read at 0xA1, [cal_data] after the read at
    0xE1. *)
Definition Sensors_Init
    (rd88 : HAL_StatusTypeDef * list Z) (rdA1 : HAL_StatusTypeDef * Z)
    (rdE1 : HAL_StatusTypeDef * list Z) (cal : bme280_cal_t)
    : HAL_StatusTypeDef * bme280_cal_t :=
  let cal_data := snd rd88 in
  if negb (is_HAL_OK (fst rd88)) then (HAL_ERROR, cal) else
  let w16 hi lo := Z.lor (Z.shiftl (nth hi cal_data 0) 8) (nth lo cal_data 0) in
  let T1 := u16 (w16 1 0)%nat in
  let T2 := s16 (w16 3 2)%nat in
  let T3 := s16 (w16 5 4)%nat in
  let P1 := u16 (w16 7 6)%nat in
  let P2 := s16 (w16 9 8)%nat in
  let P3 := s16 (w16 11 10)%nat in
  let P4 := s16 (w16 13 12)%nat in
  let P5 := s16 (w16 15 14)%nat in
  let P6 := s16 (w16 17 16)%nat in
  let P7 := s16 (w16 19 18)%nat in
  let P8 := s16 (w16 21 20)%nat in
  let P9 := s16 (w16 23 22)%nat in
  let H1 := snd rdA1 in
  let cal_data := snd rdE1 in
  let H2 := s16 (Z.lor (Z.shiftl (nth 1 cal_data 0) 8) (nth 0 cal_data 0)) in
  let H3 := nth 2 cal_data 0 in
  let H4 := s16 (Z.lor (Z.shiftl (nth 3 cal_data 0) 4)
                       (Z.land (nth 4 cal_data 0) 0x0F)) in
  let H5 := s16 (Z.lor (Z.shiftl (nth 5 cal_data 0) 4)
                       (Z.shiftr (nth 4 cal_data 0) 4)) in
  let H6 := s8 (nth 6 cal_data 0) in
  (HAL_OK,
   {| dig_T1 := T1; dig_T2 := T2; dig_T3 := T3; dig_P1 := P1; dig_P2 := P2;
      dig_P3 := P3; dig_P4 := P4; dig_P5 := P5; dig_P6 := P6; dig_P7 := P7;
      dig_P8 := P8; dig_P9 := P9; dig_H1 := H1; dig_H2 := H2; dig_H3 := H3;
      dig_H4 := H4; dig_H5 := H5; dig_H6 := H6 |}).

(** ** main.c: the whole-packet receive callback

    [main.c] has a second [HAL_UART_RxCpltCallback], kept here under its
    file's name.  [CommTask] arms the first reception into its own
    variable [cmd]; the callback offers its static [rx_cmd] to the command
    queue and arms the next reception into [rx_cmd]. *)
Definition Command_zero : CommandPacket_t :=
  {| Command.sync1 := 0; Command.sync2 := 0; Command.command_id := 0;
     Command.sequence_number := 0; Command.parameter_length := 0;
     Command.parameters := replicate 64 0; Command.checksum := 0 |}.

Module MainC.

Record PacketRx := {
  rx_cmd : CommandPacket_t;        (* static CommandPacket_t rx_cmd *)
  armed_into_rx_cmd : bool         (* the running reception stores into rx_cmd *)
}.

(** After [CommTask] has called [HAL_UART_Receive_IT] on [&cmd]. *)
Definition packet_rx_init : PacketRx :=
  {| rx_cmd := Command_zero; armed_into_rx_cmd := false |}.

(** The reception of [sizeof(CommandPacket_t)] bytes on [huart1] completes:
    the bytes are where the reception was armed, and the callback runs.
    On another UART the callback does nothing. *)
Definition HAL_UART_RxCpltCallback (h : uart) (received : list Z)
    (c : PacketRx * Sys) : PacketRx * Sys :=
  let '(p, s) := c in
  match h with
  | huart1 =>
      let rx_cmd_now :=
        if armed_into_rx_cmd p then Command.of_bytes received else rx_cmd p in
      ({| rx_cmd := rx_cmd_now; armed_into_rx_cmd := true |},
       set_commandQueue
         (osMessageQueuePut commandQueue_capacity (commandQueue s) rx_cmd_now)
         s)
  | huart2 => c
  end.

End MainC.

(** ** main.c: [ProcessCommand] with its reads of [*cmd] checked

    The same statements as [ProcessCommand], with every read that takes an
    index or a length going through an accessor that fails outside the
    object: an element of [parameters] outside the array, or more bytes
    than the object has.  The accessor records the read it makes. *)

(** [cmd->parameters[i]]. *)
Definition load_parameter (cmd : CommandPacket_t) (i : Z) (s : Sys)
    : option (Z * Sys) :=
  if 0 <=? i then
    match Command.parameters cmd !! Z.to_nat i with
    | Some v => Some (v, reads (RdParameters i) s)
    | None => None
    end
  else None.

(** The first [n] bytes of [*cmd], as a callee given [(uint8_t * )cmd] and
    the length [n] reads them. *)
Definition load_object (cmd : CommandPacket_t) (n : Z) (s : Sys)
    : option (list Z * Sys) :=
  if (0 <=? n) && (n <=? Z.of_nat (length (Command.bytes cmd))) then
    Some (take (Z.to_nat n) (Command.bytes cmd), reads (RdObject n) s)
  else None.

Definition ProcessCommand_checked (ERROR_UNKNOWN_COMMAND : Z)
    (cmd : CommandPacket_t) (s : Sys) : option Sys :=
  let s := reads RdSync1 s in
  if negb (Command.sync1 cmd =? 0xAA) then Some s else
  let s := reads RdSync2 s in
  if negb (Command.sync2 cmd =? 0x56) then Some s else
  match load_object cmd (sizeof_CommandPacket_t - 2) s with
  | None => None
  | Some (data, s) =>
  let calc_checksum := CalculateChecksum data (sizeof_CommandPacket_t - 2) in
  let s := reads RdChecksum s in
  if negb (calc_checksum =? Command.checksum cmd)
  then Some (LogError ERROR_UART s)
  else
  let s := reads RdCommandId s in
  let id := Command.command_id cmd in
  if id =? CMD_PING then
    let s := reads RdSequenceNumber s in
    let response :=
      [0xAA; 0x57; 0x01; u8 (Z.land (Command.sequence_number cmd) 0xFF)] in
    Some (HAL_UART_Transmit huart1 response 4 s)
  else if id =? CMD_GET_TELEMETRY then
    let '(packet, s) := COMM_SendTelemetry (current_telemetry s) s in
    Some (set_current_telemetry packet s)
  else if id =? CMD_CAPTURE_IMAGE then
    let s := emit (EvGpioWrite PI_WAKE_PIN true) s in
    let s := emit (EvDelay 100) s in
    let s := emit (EvGpioWrite PI_WAKE_PIN false) s in
    Some (set_system_state STATE_IMAGE_CAPTURE s)
  else if id =? CMD_SET_MODE then
    let s := reads RdParameterLength s in
    if Command.parameter_length cmd >=? 1 then
      match load_parameter cmd 0 s with
      | None => None
      | Some (v, s) => Some (set_system_state v s)
      end
    else Some s
  else if id =? CMD_RESET then
    let s := emit (EvDelay 100) s in
    Some (NVIC_SystemReset s)
  else if id =? CMD_TRANSMIT_FILE then
    match load_object cmd sizeof_CommandPacket_t s with
    | None => None
    | Some (data, s) =>
        Some (HAL_UART_Transmit huart1 data sizeof_CommandPacket_t s)
    end
  else
    Some (LogError ERROR_UNKNOWN_COMMAND s)
  end.

(** ** main.c: [LogError] under preemption

    [current_telemetry.error_flags |= error_code] is a load of the byte, an
    OR and a store.  [LogError] takes no critical section (the two
    radiation counter functions do), and it is called from [CommTask],
    through [ProcessCommand], and from [WatchdogTask].
    [LogError_preempted] is a call whose task is preempted between the
    load and the store: [preempting] is what the other tasks do to the
    globals before the caller is resumed. *)
Definition LogError_load (s : Sys) : Z :=
  Telemetry.error_flags (current_telemetry s).

Definition LogError_store (loaded error_code : Z) (s : Sys) : Sys :=
  with_telemetry
    (fun t => Telemetry.set_error_flags (u8 (Z.lor loaded (u8 error_code))) t)
    s.

Definition LogError_preempted (error_code : Z) (preempting : Sys -> Sys)
    (s : Sys) : Sys :=
  let loaded := LogError_load s in
  let s := preempting s in
  LogError_store loaded error_code s.

(** ** Further proof tools *)

Ltac dispatch_to id_eq :=
  unfold ProcessCommand;
  match goal with
  | H1 : Command.sync1 _ = _, H2 : Command.sync2 _ = _,
    Hc : CalculateChecksum _ _ = _ |- _ =>
      rewrite H1, H2, Hc, !Z.eqb_refl, id_eq; cbn [negb]
  end.

Ltac bus_result l n :=
  exists l, n; cbn [i2c_calls i2c_log snd];
  rewrite <- ?app_assoc; cbn [app];
  repeat split; first [reflexivity | lia | (cbn; tauto)].


(** * Properties *)

(** ** Fixed-width arithmetic *)

Lemma u8_range x : 0 <= u8 x < 256.
Proof. unfold u8. apply Z.mod_pos_bound. lia. Qed.

Lemma u16_range x : 0 <= u16 x < 65536.
Proof. unfold u16. apply Z.mod_pos_bound. lia. Qed.

Lemma u32_range x : 0 <= u32 x < 4294967296.
Proof. unfold u32. apply Z.mod_pos_bound. lia. Qed.

Lemma u8_small x : 0 <= x < 256 -> u8 x = x.
Proof. intros H. unfold u8. apply Z.mod_small. exact H. Qed.

Lemma u16_small x : 0 <= x < 65536 -> u16 x = x.
Proof. intros H. unfold u16. apply Z.mod_small. exact H. Qed.

Lemma u8_land x : u8 x = Z.land x (Z.ones 8).
Proof. unfold u8. rewrite Z.land_ones by lia. reflexivity. Qed.

Lemma testbit_u8 x i :
  0 <= i -> Z.testbit (u8 x) i = Z.testbit x i && (i <? 8).
Proof.
  intros Hi. rewrite u8_land, Z.land_spec.
  destruct (Z.ltb_spec i 8).
  - rewrite Z.ones_spec_low by lia. reflexivity.
  - rewrite Z.ones_spec_high by lia. reflexivity.
Qed.

(** ORing a code into a byte keeps every bit of the byte. *)
Lemma u8_lor_keeps f code i :
  0 <= f < 256 ->
  Z.testbit f i = true -> Z.testbit (u8 (Z.lor f (u8 code))) i = true.
Proof.
  intros Hf Hb.
  assert (Hi : 0 <= i).
  { destruct (Z.neg_nonneg_cases i) as [Hn | ?]; [| assumption].
    rewrite Z.testbit_neg_r in Hb by exact Hn. discriminate. }
  assert (Hi8 : i < 8).
  { destruct (Z.ltb_spec i 8) as [? | Hge]; [assumption |].
    assert (Hx : Z.testbit (u8 f) i = false).
    { rewrite testbit_u8 by exact Hi.
      destruct (Z.ltb_spec i 8); [lia | apply andb_false_r]. }
    rewrite u8_small in Hx by exact Hf. congruence. }
  rewrite testbit_u8 by exact Hi. rewrite Z.lor_spec, Hb.
  destruct (Z.ltb_spec i 8); [reflexivity | lia].
Qed.

Lemma u8_lor_assoc f a b :
  u8 (Z.lor (u8 (Z.lor f (u8 a))) (u8 b)) = u8 (Z.lor f (u8 (Z.lor a b))).
Proof.
  apply Z.bits_inj'. intros i Hi.
  repeat first [rewrite testbit_u8 by exact Hi | rewrite Z.lor_spec].
  destruct (Z.testbit f i), (Z.testbit a i), (Z.testbit b i), (i <? 8);
    reflexivity.
Qed.

Lemma u8_lor_u8 f c : u8 (Z.lor f (u8 c)) = u8 (Z.lor f c).
Proof.
  apply Z.bits_inj'. intros i Hi.
  repeat first [rewrite testbit_u8 by exact Hi | rewrite Z.lor_spec].
  destruct (Z.testbit f i), (Z.testbit c i), (i <? 8); reflexivity.
Qed.

Lemma lor_byte f c : 0 <= f < 256 -> 0 <= c < 256 -> 0 <= Z.lor f c < 256.
Proof.
  intros Hf Hc.
  split; [apply Z.lor_nonneg; lia |].
  destruct (Z.eq_dec (Z.lor f c) 0) as [-> | Hnz]; [lia |].
  assert (0 <= Z.lor f c) by (apply Z.lor_nonneg; lia).
  apply Z.log2_lt_pow2 with (b := 8); [lia |].
  rewrite Z.log2_lor by lia.
  apply Z.max_lub_lt.
  - destruct (Z.eq_dec f 0) as [-> | ?]; [reflexivity |].
    apply Z.log2_lt_pow2; lia.
  - destruct (Z.eq_dec c 0) as [-> | ?]; [reflexivity |].
    apply Z.log2_lt_pow2; lia.
Qed.

(** C10.  [LogError] ORs the numeric error code into [error_flags] and
    touches nothing else: the new flags byte is the old one ORed with the
    code, bit by bit.  So logging the UART error (0x03) leaves exactly the
    state that logging the I2C error (0x01) and then the SPI error (0x02)
    leaves, because [f | 0x03 = (f | 0x01) | 0x02] for every [f]; the two
    histories cannot be told apart from the flags byte. *)
Theorem LogError_uart_is_i2c_then_spi :
  (forall (error_code : Z) (s : Sys),
      flags (LogError error_code s) = u8 (Z.lor (flags s) error_code)
      /\ (0 <= flags s < 256 -> 0 <= error_code < 256 ->
          flags (LogError error_code s) = Z.lor (flags s) error_code)
      /\ (forall i, 0 <= i < 8 ->
          Z.testbit (flags (LogError error_code s)) i
          = Z.testbit (flags s) i || Z.testbit error_code i)
      /\ LogError error_code s
         = set_current_telemetry
             (Telemetry.set_error_flags (flags (LogError error_code s))
                (current_telemetry s)) s)
  /\ (forall s : Sys,
      LogError ERROR_UART s = LogError ERROR_SPI (LogError ERROR_I2C s))
  /\ (forall f : Z,
      Z.lor f ERROR_UART = Z.lor (Z.lor f ERROR_I2C) ERROR_SPI)
  /\ (forall s : Sys,
      flags (LogError ERROR_UART s)
      = flags (LogError ERROR_SPI (LogError ERROR_I2C s))
      /\ flags (LogError ERROR_UART s) = u8 (Z.lor (flags s) 0x03)).
Proof.
  assert (HF : forall c s,
             flags (LogError c s) = u8 (Z.lor (flags s) c)).
  { intros c s. unfold LogError, flags, with_telemetry. cbn.
    apply u8_lor_u8. }
  assert (HU : forall s,
             LogError ERROR_UART s = LogError ERROR_SPI (LogError ERROR_I2C s)).
  { intros s. unfold LogError, with_telemetry, set_current_telemetry; simpl.
    f_equal. unfold Telemetry.set_error_flags; simpl. f_equal.
    rewrite u8_lor_assoc. reflexivity. }
  split; [| split; [exact HU | split]].
  - intros c s. split; [apply HF |]. split; [| split].
    + intros Hf Hc. rewrite HF. apply u8_small. apply lor_byte; assumption.
    + intros i Hi. rewrite HF, testbit_u8, Z.lor_spec by lia.
      destruct (Z.ltb_spec i 8); [apply andb_true_r | lia].
    + reflexivity.
  - intros f. rewrite <- Z.lor_assoc. reflexivity.
  - intros s. split; [rewrite <- HU; reflexivity | apply HF].
Qed.

(** ** Radiation counter *)

Lemma pulses_count n s :
  u32 (radiation_pulse_count (pulses n s))
  = u32 (radiation_pulse_count s + Z.of_nat n).
Proof.
  induction n as [| n IH].
  - simpl. f_equal. lia.
  - cbn [pulses]. unfold HAL_GPIO_EXTI_Callback.
    rewrite Z.eqb_refl. cbn [radiation_pulse_count set_radiation_pulse_count].
    unfold u32 in *. rewrite Z.mod_mod by lia.
    rewrite <- Z.add_mod_idemp_l by lia. rewrite IH.
    rewrite Z.add_mod_idemp_l by lia. f_equal. lia.
Qed.

Lemma RadiationTask_cps last s :
  Telemetry.radiation_cps
    (current_telemetry (fst (RadiationTask_iteration last s)))
  = u32 (radiation_pulse_count s - last).
Proof. reflexivity. Qed.

Lemma RadiationTask_last last s :
  snd (RadiationTask_iteration last s) = radiation_pulse_count s.
Proof. reflexivity. Qed.

Lemma RadiationTask_count last s :
  radiation_pulse_count (fst (RadiationTask_iteration last s))
  = radiation_pulse_count s.
Proof. reflexivity. Qed.

(** C6.  Two successive passes of [RadiationTask] that read 100 and then
    137 report [radiation_cps = 37].  For every pair of successive reads the
    reported value is the difference of the two counter values modulo 2^32,
    hence never negative; and when [n] pulses arrive between two passes the
    second pass reports [n] modulo 2^32, whether or not the 32-bit counter
    wrapped in between. *)
Theorem RadiationTask_delta :
  (forall s last0,
      let '(s1, last1) :=
        RadiationTask_iteration last0 (set_radiation_pulse_count 100 s) in
      let '(s2, _) :=
        RadiationTask_iteration last1 (set_radiation_pulse_count 137 s1) in
      Telemetry.radiation_cps (current_telemetry s2) = 37)
  /\ (forall s last0 s',
      let '(_, last1) := RadiationTask_iteration last0 s in
      let cps := Telemetry.radiation_cps
                   (current_telemetry (fst (RadiationTask_iteration last1 s'))) in
      cps = (Get_Radiation_Counts s' - Get_Radiation_Counts s) mod 2 ^ 32
      /\ 0 <= cps < 2 ^ 32)
  /\ (forall s last0 n,
      let '(s1, last1) := RadiationTask_iteration last0 s in
      let '(s2, _) := RadiationTask_iteration last1 (pulses n s1) in
      Telemetry.radiation_cps (current_telemetry s2) = Z.of_nat n mod 2 ^ 32).
Proof.
  split; [| split].
  - intros s last0. reflexivity.
  - intros s last0 s'. cbn [RadiationTask_iteration]. cbv zeta.
    rewrite RadiationTask_cps.
    unfold Get_Radiation_Counts. change (2 ^ 32) with 4294967296.
    split; [reflexivity | apply u32_range].
  - intros s last0 n.
    destruct (RadiationTask_iteration last0 s) as [s1 last1] eqn:E1.
    destruct (RadiationTask_iteration last1 (pulses n s1)) as [s2 x] eqn:E2.
    assert (H1 : last1 = radiation_pulse_count s1).
    { pose proof (RadiationTask_last last0 s) as Hl.
      pose proof (RadiationTask_count last0 s) as Hc.
      rewrite E1 in Hl, Hc. simpl in Hl, Hc. congruence. }
    pose proof (RadiationTask_cps last1 (pulses n s1)) as Hcps.
    rewrite E2 in Hcps. simpl in Hcps. rewrite Hcps.
    change (2 ^ 32) with 4294967296.
    pose proof (pulses_count n s1) as Hp. unfold u32 in *.
    rewrite <- Zminus_mod_idemp_l, Hp, Zminus_mod_idemp_l.
    f_equal. lia.
Qed.

(** ** Command dispatcher *)

Section DispatcherFacts.

Variable ERROR_UNKNOWN_COMMAND : Z.

Lemma ProcessCommand_bad_checksum cmd s :
  sync_ok cmd -> ~ checksum_valid cmd ->
  ProcessCommand ERROR_UNKNOWN_COMMAND cmd s
  = LogError ERROR_UART
      (reads RdChecksum
         (reads (RdObject (sizeof_CommandPacket_t - 2))
            (reads RdSync2 (reads RdSync1 s)))).
Proof.
  intros [H1 H2] Hc. unfold checksum_valid in Hc. unfold ProcessCommand.
  rewrite H1, H2. cbn [Z.eqb Pos.eqb negb].
  destruct (Z.eqb_spec
              (CalculateChecksum (Command.bytes cmd) (sizeof_CommandPacket_t - 2))
              (Command.checksum cmd)) as [He | _]; [contradiction |].
  reflexivity.
Qed.

Lemma ProcessCommand_default cmd s :
  sync_ok cmd -> checksum_valid cmd ->
  ~ (CMD_PING <= Command.command_id cmd <= CMD_TRANSMIT_FILE) ->
  ProcessCommand ERROR_UNKNOWN_COMMAND cmd s = LogError ERROR_UNKNOWN_COMMAND (checked s).
Proof.
  intros [H1 H2] Hc Hid. unfold checksum_valid in Hc. unfold ProcessCommand.
  rewrite H1, H2, Hc, !Z.eqb_refl. cbn [negb].
  unfold CMD_PING, CMD_GET_TELEMETRY, CMD_CAPTURE_IMAGE, CMD_SET_MODE,
    CMD_RESET, CMD_TRANSMIT_FILE in *.
  repeat match goal with
         | |- context [if ?a =? ?b then _ else _] =>
             destruct (Z.eqb_spec a b); [lia |]
         end.
  reflexivity.
Qed.

Lemma ProcessCommand_flags cmd s :
  flags_grow (flags s) (flags (ProcessCommand ERROR_UNKNOWN_COMMAND cmd s)).
Proof.
  unfold ProcessCommand, flags.
  repeat match goal with
         | |- context [if ?c then _ else _] => destruct c
         end;
    cbn; first [left; reflexivity | right; eexists; reflexivity].
Qed.

Lemma ProcessCommand_beacons cmd s :
  beacons (trace (ProcessCommand ERROR_UNKNOWN_COMMAND cmd s))
  = beacons (trace s).
Proof.
  unfold ProcessCommand.
  repeat match goal with
         | |- context [if ?c then _ else _] => destruct c
         end;
    cbn; unfold beacons; rewrite ?List.filter_app, ?length_app; cbn; lia.
Qed.

End DispatcherFacts.

(** ** Receive parser *)

Lemma nth_insert_same (buf : list Z) (i : nat) b :
  (i < length buf)%nat -> nth i (<[i:=b]> buf) 0 = b.
Proof.
  intros H. apply nth_lookup_Some with (d := 0).
  apply list_lookup_insert_eq. exact H.
Qed.

(** First sync byte. *)
Lemma rx_byte_sync1 b st s :
  rx_idle st ->
  rx_byte b (st, s)
  = Some ({| rx_buffer := <[0%nat:=b]> (rx_buffer st);
             rx_index := if b =? 0xAA then 1 else 0;
             expected_length := 0;
             packet_type := packet_type st |}, s).
Proof.
  intros (Hlen & Hi & He). unfold rx_byte. rewrite Hi, He. rx_consts.
  cbn [Z.leb Z.ltb Z.compare andb negb Z.add Z.to_nat u16 Z.modulo Z.div_eucl
       snd Z.eqb Pos.eqb].
  rewrite (nth_insert_same _ 0) by (rewrite Hlen; lia).
  destruct (Z.eqb_spec b 170); cbn; reflexivity.
Qed.

(** Second byte: the frame kind. *)
Lemma rx_byte_kind b st s :
  length (rx_buffer st) = Z.to_nat UART_RX_BUFFER_SIZE ->
  rx_index st = 1 -> expected_length st = 0 ->
  rx_byte b (st, s)
  = Some ({| rx_buffer := <[1%nat:=b]> (rx_buffer st);
             rx_index := if (b =? 0x55) || (b =? 0x56) then 2 else 0;
             expected_length :=
               if b =? 0x55 then sizeof_TelemetryPacket_t
               else if b =? 0x56 then sizeof_CommandPacket_t else 0;
             packet_type :=
               if b =? 0x55 then 0x01
               else if b =? 0x56 then 0x02 else packet_type st |}, s).
Proof.
  intros Hlen Hi He. unfold rx_byte. rewrite Hi, He. rx_consts.
  change (Z.to_nat 1) with 1%nat. change (u16 (1 + 1)) with 2.
  cbn [Z.leb Z.ltb Z.compare andb negb Z.eqb Pos.eqb].
  rewrite (nth_insert_same _ 1) by (rewrite Hlen; lia).
  destruct (Z.eqb_spec b 85); [reflexivity |].
  destruct (Z.eqb_spec b 86); reflexivity.
Qed.

(** A byte in the middle of a frame. *)
Lemma rx_byte_accumulate b st s :
  2 <= rx_index st -> rx_index st + 1 < expected_length st ->
  expected_length st <= UART_RX_BUFFER_SIZE ->
  rx_byte b (st, s)
  = Some ({| rx_buffer := <[Z.to_nat (rx_index st):=b]> (rx_buffer st);
             rx_index := rx_index st + 1;
             expected_length := expected_length st;
             packet_type := packet_type st |}, s).
Proof.
  intros H2 Hlt Hle. unfold rx_byte. rx_consts.
  unfold u16. rewrite (Z.mod_small (rx_index st + 1)) by lia.
  rx_cases; reflexivity.
Qed.

(** The last byte of a frame. *)
Lemma rx_byte_complete b st s :
  2 <= rx_index st -> rx_index st + 1 = expected_length st ->
  expected_length st <= UART_RX_BUFFER_SIZE ->
  rx_byte b (st, s)
  = Some ({| rx_buffer := <[Z.to_nat (rx_index st):=b]> (rx_buffer st);
             rx_index := 0;
             expected_length := 0;
             packet_type := packet_type st |},
          if packet_type st =? 0x02
          then set_commandQueue
                 (osMessageQueuePut commandQueue_capacity (commandQueue s)
                    (Command.of_bytes
                       (<[Z.to_nat (rx_index st):=b]> (rx_buffer st)))) s
          else s).
Proof.
  intros H2 Hlt Hle. unfold rx_byte. rx_consts.
  unfold u16. rewrite (Z.mod_small (rx_index st + 1)) by lia.
  rx_cases; reflexivity.
Qed.

Lemma rx_bytes_app d1 d2 c :
  rx_bytes (d1 ++ d2) c
  = match rx_bytes d1 c with
    | Some c' => rx_bytes d2 c'
    | None => None
    end.
Proof.
  revert c. induction d1 as [| b d1 IH]; intros c; [reflexivity |].
  cbn [rx_bytes app]. destruct (rx_byte b c); [apply IH | reflexivity].
Qed.

(** The invariant survives every input byte, no store leaves [rx_buffer],
    and the only global the parser touches is the command queue. *)
Lemma rx_byte_inv b st s :
  rx_inv st ->
  exists st' q,
    rx_byte b (st, s) = Some (st', set_commandQueue q s) /\ rx_inv st'.
Proof.
  intros (Hlen & [(He & Hi) | [(He & Ht & Hi) | (He & Ht & Hi)]]).
  - assert (Hc : rx_index st = 0 \/ rx_index st = 1) by lia.
    destruct Hc as [H0 | H1].
    + rewrite rx_byte_sync1 by (repeat split; assumption).
      eexists _, (commandQueue s). split; [destruct s; reflexivity |].
      split; cbn; [rewrite length_insert; exact Hlen |].
      left. destruct (b =? 170); lia.
    + rewrite rx_byte_kind by assumption.
      eexists _, (commandQueue s). split; [destruct s; reflexivity |].
      split; cbn; [rewrite length_insert; exact Hlen |]. rx_consts.
      destruct (Z.eqb_spec b 85); [right; left; cbn; lia |].
      destruct (Z.eqb_spec b 86); [right; right; cbn; lia |].
      left. cbn. lia.
  - rx_consts.
    destruct (Z.eq_dec (rx_index st + 1) (expected_length st)) as [Hl | Hl].
    + rewrite rx_byte_complete by (rx_consts; lia). rewrite Ht.
      eexists _, (commandQueue s). split; [destruct s; reflexivity |].
      split; cbn; [rewrite length_insert; exact Hlen |]. left. lia.
    + rewrite rx_byte_accumulate by (rx_consts; lia).
      eexists _, (commandQueue s). split; [destruct s; reflexivity |].
      split; cbn; [rewrite length_insert; exact Hlen |].
      right; left. rx_consts. lia.
  - rx_consts.
    destruct (Z.eq_dec (rx_index st + 1) (expected_length st)) as [Hl | Hl].
    + rewrite rx_byte_complete by (rx_consts; lia). rewrite Ht.
      eexists _, _. split; [reflexivity |].
      split; cbn; [rewrite length_insert; exact Hlen |]. left. lia.
    + rewrite rx_byte_accumulate by (rx_consts; lia).
      eexists _, (commandQueue s). split; [destruct s; reflexivity |].
      split; cbn; [rewrite length_insert; exact Hlen |].
      right; right. rx_consts. lia.
Qed.

Lemma set_commandQueue_twice q1 q2 s :
  set_commandQueue q2 (set_commandQueue q1 s) = set_commandQueue q2 s.
Proof. reflexivity. Qed.

Lemma rx_bytes_inv data st s :
  rx_inv st ->
  exists st' q,
    rx_bytes data (st, s) = Some (st', set_commandQueue q s) /\ rx_inv st'.
Proof.
  revert st s. induction data as [| b data IH]; intros st s Hinv.
  - exists st, (commandQueue s). split; [destruct s; reflexivity | exact Hinv].
  - cbn [rx_bytes].
    destruct (rx_byte_inv b st s Hinv) as (st1 & q1 & E1 & Hinv1).
    rewrite E1.
    destruct (IH st1 (set_commandQueue q1 s) Hinv1) as (st2 & q2 & E2 & Hinv2).
    exists st2, q2. rewrite E2, set_commandQueue_twice. split; [reflexivity | exact Hinv2].
Qed.

Lemma rx_init_inv : rx_inv rx_init.
Proof. split; [reflexivity | left; cbn; lia]. Qed.

Lemma COMM_ProcessReceivedData_inv data length st s :
  rx_inv st ->
  exists st' q,
    COMM_ProcessReceivedData data length (st, s)
    = Some (st', set_commandQueue q s) /\ rx_inv st'.
Proof. intros H. unfold COMM_ProcessReceivedData. apply rx_bytes_inv, H. Qed.

Lemma HAL_UART_RxCpltCallback_inv h received st s :
  rx_inv st ->
  exists st' q,
    HAL_UART_RxCpltCallback h received (st, s)
    = Some (st', set_commandQueue q s) /\ rx_inv st'.
Proof.
  intros Hinv. destruct h; cbn [HAL_UART_RxCpltCallback].
  - apply COMM_ProcessReceivedData_inv.
    destruct Hinv as [Hlen Hc]. split; cbn; [rewrite length_insert; exact Hlen | exact Hc].
  - exists st, (commandQueue s). split; [destruct s; reflexivity | exact Hinv].
Qed.

Lemma rx_run_inv inputs st s :
  rx_inv st ->
  exists st' q,
    rx_run inputs (st, s) = Some (st', set_commandQueue q s) /\ rx_inv st'.
Proof.
  revert st s. induction inputs as [| i inputs IH]; intros st s Hinv.
  - exists st, (commandQueue s). split; [destruct s; reflexivity | exact Hinv].
  - cbn [rx_run].
    assert (H : exists st1 q1,
               rx_feed i (st, s) = Some (st1, set_commandQueue q1 s)
               /\ rx_inv st1).
    { destruct i as [data n | h received]; cbn [rx_feed].
      - apply COMM_ProcessReceivedData_inv, Hinv.
      - apply HAL_UART_RxCpltCallback_inv, Hinv. }
    destruct H as (st1 & q1 & E1 & Hinv1). rewrite E1.
    destruct (IH st1 (set_commandQueue q1 s) Hinv1) as (st2 & q2 & E2 & Hinv2).
    exists st2, q2. rewrite E2, set_commandQueue_twice.
    split; [reflexivity | exact Hinv2].
Qed.

(** *** Whole frames *)

Lemma take_S_insert (buf : list Z) (k : nat) b :
  (k < length buf)%nat -> take (S k) (<[k:=b]> buf) = take k buf ++ [b].
Proof.
  intros H. rewrite (take_S_r _ _ b) by (apply list_lookup_insert_eq; exact H).
  rewrite take_insert_ge by lia. reflexivity.
Qed.

(** Bytes in the middle of a frame pile up behind what is already stored. *)
Lemma rx_bytes_accumulate data st s :
  length (rx_buffer st) = Z.to_nat UART_RX_BUFFER_SIZE ->
  2 <= rx_index st ->
  rx_index st + Z.of_nat (length data) < expected_length st ->
  expected_length st <= UART_RX_BUFFER_SIZE ->
  exists st',
    rx_bytes data (st, s) = Some (st', s)
    /\ rx_index st' = rx_index st + Z.of_nat (length data)
    /\ expected_length st' = expected_length st
    /\ packet_type st' = packet_type st
    /\ length (rx_buffer st') = Z.to_nat UART_RX_BUFFER_SIZE
    /\ take (Z.to_nat (rx_index st')) (rx_buffer st')
       = take (Z.to_nat (rx_index st)) (rx_buffer st) ++ data.
Proof.
  revert st. induction data as [| b data IH]; intros st Hlen H2 Hlt Hle.
  - exists st. cbn [rx_bytes length Z.of_nat]. rewrite Z.add_0_r, app_nil_r.
    repeat split; trivial.
  - cbn [rx_bytes]. cbn [length] in Hlt.
    rewrite rx_byte_accumulate by lia.
    set (st1 := {| rx_buffer := <[Z.to_nat (rx_index st):=b]> (rx_buffer st);
                   rx_index := rx_index st + 1;
                   expected_length := expected_length st;
                   packet_type := packet_type st |}).
    destruct (IH st1) as (st' & E & Hi & He & Ht & Hl & Hb).
    + cbn. rewrite length_insert. exact Hlen.
    + cbn. lia.
    + cbn. lia.
    + cbn. exact Hle.
    + exists st'. cbn in Hi, He, Ht, Hb. cbn [length].
      repeat split; trivial; try lia.
      rewrite Hb. replace (Z.to_nat (rx_index st + 1))
        with (S (Z.to_nat (rx_index st))) by lia.
      rewrite take_S_insert by (unfold UART_RX_BUFFER_SIZE in *; lia).
      rewrite <- app_assoc. reflexivity.
Qed.

(** A frame that starts with 0xAA and a known kind byte, fed to the idle
    parser: every byte is stored, the parser is idle again afterwards, and
    a command frame is offered to the command queue as it stands. *)
Lemma rx_frame kind L ty body last st s :
  rx_idle st ->
  (kind = 0x55 /\ L = sizeof_TelemetryPacket_t /\ ty = 0x01)
  \/ (kind = 0x56 /\ L = sizeof_CommandPacket_t /\ ty = 0x02) ->
  Z.of_nat (length body) = L - 3 ->
  exists st',
    rx_bytes (0xAA :: kind :: body ++ [last]) (st, s)
    = Some (st',
            if ty =? 0x02
            then set_commandQueue
                   (osMessageQueuePut commandQueue_capacity (commandQueue s)
                      (Command.of_bytes (rx_buffer st'))) s
            else s)
    /\ rx_idle st'
    /\ take (Z.to_nat L) (rx_buffer st') = 0xAA :: kind :: body ++ [last].
Proof.
  intros (Hlen & Hi & He) Hk Hb.
  cbn [rx_bytes]. rewrite rx_byte_sync1 by (repeat split; assumption).
  change (170 =? 170) with true. cbn beta iota.
  rewrite rx_byte_kind by (cbn; rewrite ?length_insert; trivial).
  cbn [rx_buffer rx_index expected_length packet_type].
  set (st2 := {| rx_buffer := <[1%nat:=kind]> (<[0%nat:=170]> (rx_buffer st)) |}).
  assert (H2 : rx_index st2 = 2 /\ expected_length st2 = L /\ packet_type st2 = ty
               /\ length (rx_buffer st2) = Z.to_nat UART_RX_BUFFER_SIZE
               /\ take 2 (rx_buffer st2) = [170; kind]).
  { subst st2. cbn [rx_buffer rx_index expected_length packet_type].
    rewrite !length_insert.
    assert (Ht : take 2 (<[1%nat:=kind]> (<[0%nat:=170]> (rx_buffer st)))
                 = [170; kind]).
    { unfold UART_RX_BUFFER_SIZE in Hlen.
      destruct (rx_buffer st) as [| x [| y l]]; cbn [length] in Hlen; try lia.
      reflexivity. }
    destruct Hk as [(-> & -> & ->) | (-> & -> & ->)]; cbn; auto. }
  clearbody st2. destruct H2 as (Hi2 & He2 & Ht2 & Hl2 & Hb2).
  assert (HL : 70 <= L <= 73) by (rx_consts; lia).
  rewrite rx_bytes_app.
  destruct (rx_bytes_accumulate body st2 s) as (st3 & E & Hi3 & He3 & Ht3 & Hl3 & Hb3);
    try (rx_consts; lia).
  rewrite E. cbn [rx_bytes].
  rewrite rx_byte_complete by (rx_consts; lia).
  rewrite Ht3, Ht2.
  match goal with |- context [Some (?x, _) = _] => exists x end.
  split; [reflexivity |]. cbn [rx_buffer rx_index expected_length].
  split.
  - unfold rx_idle. cbn [rx_buffer rx_index expected_length].
    rewrite length_insert. auto.
  - replace (Z.to_nat L) with (S (Z.to_nat (rx_index st3))) by lia.
    rewrite take_S_insert by (rx_consts; lia).
    rewrite Hb3, Hi2. change (Z.to_nat 2) with 2%nat. rewrite Hb2.
    reflexivity.
Qed.

Lemma of_bytes_take b :
  Command.of_bytes (take (Z.to_nat sizeof_CommandPacket_t) b)
  = Command.of_bytes b.
Proof.
  unfold Command.of_bytes, sizeof_CommandPacket_t.
  change (Z.to_nat 73) with 73%nat.
  rewrite !List.nth_firstn. cbn [Nat.ltb Nat.leb].
  rewrite List.skipn_firstn_comm, take_take. reflexivity.
Qed.

Lemma frame_split (frame : list Z) (n : nat) kind :
  length frame = S (S (S n)) ->
  nth 0 frame 0 = 0xAA -> nth 1 frame 0 = kind ->
  exists body last,
    frame = 0xAA :: kind :: body ++ [last] /\ length body = n.
Proof.
  intros Hlen H0 H1.
  destruct frame as [| b0 [| b1 rest]]; cbn [length] in Hlen; try lia.
  cbn in H0, H1. subst b0 b1.
  assert (Hne : rest <> []) by (intros ->; cbn in Hlen; lia).
  destruct (exists_last Hne) as (body & last & ->).
  exists body, last. split; [reflexivity |].
  rewrite length_app in Hlen. cbn in Hlen. lia.
Qed.

(** A complete command frame reaches the command queue as it stands;
    its checksum plays no part. *)
Lemma rx_command_frame frame st s :
  rx_idle st ->
  length frame = Z.to_nat sizeof_CommandPacket_t ->
  nth 0 frame 0 = 0xAA -> nth 1 frame 0 = 0x56 ->
  exists st',
    rx_bytes frame (st, s)
    = Some (st',
            set_commandQueue
              (osMessageQueuePut commandQueue_capacity (commandQueue s)
                 (Command.of_bytes frame)) s)
    /\ rx_idle st'.
Proof.
  intros Hidle Hlen H0 H1.
  destruct (frame_split frame 70 0x56 Hlen H0 H1) as (body & last & -> & Hb).
  destruct (rx_frame 0x56 sizeof_CommandPacket_t 0x02 body last st s Hidle)
    as (st' & E & Hidle' & Htake).
  - right. auto.
  - rx_consts. lia.
  - exists st'. split; [| exact Hidle'].
    rewrite E. cbn [Z.eqb Pos.eqb].
    rewrite <- (of_bytes_take (rx_buffer st')), Htake. reflexivity.
Qed.

(** A complete telemetry frame is consumed and nothing comes of it. *)
Lemma rx_telemetry_frame frame st s :
  rx_idle st ->
  length frame = Z.to_nat sizeof_TelemetryPacket_t ->
  nth 0 frame 0 = 0xAA -> nth 1 frame 0 = 0x55 ->
  exists st', rx_bytes frame (st, s) = Some (st', s) /\ rx_idle st'.
Proof.
  intros Hidle Hlen H0 H1.
  destruct (frame_split frame 67 0x55 Hlen H0 H1) as (body & last & -> & Hb).
  destruct (rx_frame 0x55 sizeof_TelemetryPacket_t 0x01 body last st s Hidle)
    as (st' & E & Hidle' & Htake).
  - left. auto.
  - rx_consts. lia.
  - exists st'. split; [| exact Hidle']. rewrite E. reflexivity.
Qed.

Lemma rx_init_idle : rx_idle rx_init.
Proof. repeat split. Qed.

(** Once a frame kind is chosen, the frame ends after exactly the bytes
    that are still missing, whatever they are. *)
Lemma rx_bytes_terminates data st s :
  rx_inv st -> 0 < expected_length st ->
  Z.of_nat (length data) = expected_length st - rx_index st ->
  exists st' q,
    rx_bytes data (st, s) = Some (st', set_commandQueue q s)
    /\ rx_index st' = 0 /\ expected_length st' = 0.
Proof.
  intros Hinv Hpos Hlen.
  assert (H : length (rx_buffer st) = Z.to_nat UART_RX_BUFFER_SIZE
              /\ 2 <= rx_index st < expected_length st
              /\ expected_length st <= UART_RX_BUFFER_SIZE).
  { destruct Hinv as (Hl & [(He & Hi) | [(He & Ht & Hi) | (He & Ht & Hi)]]);
      rx_consts; repeat split; try lia; assumption. }
  destruct H as (Hl & Hi & Hle).
  assert (Hne : data <> []) by (intros ->; cbn in Hlen; lia).
  destruct (exists_last Hne) as (body & last & ->).
  rewrite length_app in Hlen. cbn [length] in Hlen.
  rewrite rx_bytes_app.
  destruct (rx_bytes_accumulate body st s) as (st1 & E & Hi1 & He1 & Ht1 & Hl1 & _);
    try lia; try assumption.
  rewrite E. cbn [rx_bytes]. rewrite rx_byte_complete by lia.
  destruct (packet_type st1 =? 2).
  - eexists _, _. split; [reflexivity |]. split; reflexivity.
  - eexists _, (commandQueue s).
    split; [destruct s; reflexivity |]. split; reflexivity.
Qed.

(** ** Packet layouts and checksum *)

Lemma rd16_le16 v :
  0 <= v < 65536 -> rd16 (v mod 256) ((v / 256) mod 256) = v.
Proof.
  intros H. unfold rd16.
  rewrite (Z.mod_small (v / 256)).
  - pose proof (Z.div_mod v 256). lia.
  - split; [apply Z.div_pos; lia | apply Z.div_lt_upper_bound; lia].
Qed.

Lemma CalculateChecksum_range data n : 0 <= CalculateChecksum data n < 65536.
Proof. unfold CalculateChecksum. apply u16_range. Qed.

Lemma CalculateChecksum_app d1 d2 n :
  length d1 = Z.to_nat n ->
  CalculateChecksum (d1 ++ d2) n = CalculateChecksum d1 n.
Proof.
  intros H. unfold CalculateChecksum.
  rewrite take_app_length' by (symmetry; exact H).
  rewrite take_ge by lia. reflexivity.
Qed.

Lemma nth_app_le16 (l : list Z) c n :
  length l = n ->
  nth n (l ++ le16 c) 0 = c mod 256
  /\ nth (S n) (l ++ le16 c) 0 = (c / 256) mod 256.
Proof.
  intros <-. split.
  - rewrite List.app_nth2 by lia. rewrite Nat.sub_diag. reflexivity.
  - rewrite List.app_nth2 by lia.
    replace (S (length l) - length l)%nat with 1%nat by lia. reflexivity.
Qed.

Lemma Telemetry_payload_length p : length (Telemetry.payload p) = 68%nat.
Proof. reflexivity. Qed.

Lemma Command_payload_length c :
  length (Command.parameters c) = 64%nat ->
  length (Command.payload c) = 71%nat.
Proof. intros H. unfold Command.payload. cbn. rewrite H. reflexivity. Qed.

(** Reading back the object representation of a command packet. *)
Lemma Command_of_bytes_bytes c :
  Command.wf c -> Command.of_bytes (Command.bytes c) = c.
Proof.
  intros (H1 & H2 & H3 & H4 & H5 & Hlen & Hp & H6).
  destruct c as [s1 s2 id sq pl ps ck]. cbn in *.
  unfold Command.of_bytes, Command.bytes, Command.payload.
  cbn [Command.sync1 Command.sync2 Command.command_id Command.sequence_number
       Command.parameter_length Command.parameters Command.checksum].
  cbn [app nth skipn].
  destruct (nth_app_le16 ps ck 64 Hlen) as [E0 E1].
  rewrite E0, E1. unfold le16. rewrite !rd16_le16 by assumption.
  rewrite drop_0, take_app_length' by (symmetry; exact Hlen).
  rewrite !u8_small by assumption. reflexivity.
Qed.

(** What [COMM_SendTelemetry] puts on the wire carries the checksum of
    everything in front of it. *)
Lemma COMM_SendTelemetry_wire p s :
  let wire := Telemetry.bytes (fst (COMM_SendTelemetry p s)) in
  trace (snd (COMM_SendTelemetry p s)) = trace s ++ [EvUartTransmit huart1 wire]
  /\ length wire = Z.to_nat sizeof_TelemetryPacket_t
  /\ nth 0 wire 0 = 0xAA /\ nth 1 wire 0 = 0x55
  /\ CalculateChecksum (take (Z.to_nat (sizeof_TelemetryPacket_t - 2)) wire)
                       (sizeof_TelemetryPacket_t - 2)
     = rd16 (nth 68 wire 0) (nth 69 wire 0).
Proof.
  cbv zeta. unfold COMM_SendTelemetry. cbn [fst snd].
  set (p1 := Telemetry.set_timestamp _ _).
  set (ck := CalculateChecksum (Telemetry.bytes p1) _).
  assert (Hb : Telemetry.bytes (Telemetry.set_checksum ck p1)
               = Telemetry.payload p1 ++ le16 ck) by reflexivity.
  rewrite Hb. clear Hb.
  assert (Hlen : length (Telemetry.payload p1 ++ le16 ck) = 70%nat).
  { rewrite length_app, Telemetry_payload_length. reflexivity. }
  split; [| split; [| split; [| split]]].
  - unfold HAL_UART_Transmit, emit. cbn [trace set_trace].
    rewrite take_ge by (rewrite Hlen; unfold sizeof_TelemetryPacket_t; lia).
    reflexivity.
  - exact Hlen.
  - reflexivity.
  - reflexivity.
  - destruct (nth_app_le16 (Telemetry.payload p1) ck 68
                (Telemetry_payload_length p1)) as [E0 E1].
    rewrite E0, E1, rd16_le16 by apply CalculateChecksum_range.
    unfold sizeof_TelemetryPacket_t. change (Z.to_nat (70 - 2)) with 68%nat.
    rewrite take_app_length' by reflexivity.
    subst ck. unfold Telemetry.bytes.
    rewrite CalculateChecksum_app by reflexivity. reflexivity.
Qed.

(** ** Sticky error flags *)

Lemma flags_grow_refl a : flags_grow a a.
Proof. left. reflexivity. Qed.

Lemma flags_grow_range a b : 0 <= a < 256 -> flags_grow a b -> 0 <= b < 256.
Proof. intros Ha [-> | [code ->]]; [exact Ha | apply u8_range]. Qed.

Lemma flags_grow_keeps a b i :
  0 <= a < 256 -> flags_grow a b ->
  Z.testbit a i = true -> Z.testbit b i = true.
Proof.
  intros Ha [-> | [code ->]] Hb; [exact Hb |].
  apply u8_lor_keeps; assumption.
Qed.

(** The parser leaves every global but the command queue alone. *)
Lemma rx_byte_sys b st s st' s' :
  rx_byte b (st, s) = Some (st', s') ->
  exists q, s' = set_commandQueue q s.
Proof.
  unfold rx_byte. intros H.
  repeat match type of H with
         | context [if ?c then _ else _] => destruct c
         end;
    cbn beta iota zeta in H; try discriminate;
    repeat match type of H with
           | context [if ?c then _ else _] => destruct c
           end;
    injection H as _ <-;
    first [ eexists; reflexivity
          | exists (commandQueue s); destruct s; reflexivity ].
Qed.

Lemma rx_bytes_sys data st s st' s' :
  rx_bytes data (st, s) = Some (st', s') ->
  exists q, s' = set_commandQueue q s.
Proof.
  revert st s. induction data as [| b data IH]; intros st s H.
  - injection H as _ <-. exists (commandQueue s). destruct s; reflexivity.
  - cbn [rx_bytes] in H. destruct (rx_byte b (st, s)) as [[st1 s1] |] eqn:E;
      [| discriminate].
    destruct (rx_byte_sys _ _ _ _ _ E) as [q1 ->].
    destruct (IH _ _ H) as [q ->]. exists q. reflexivity.
Qed.

Lemma with_rx_flags r f :
  (forall st' s', r = Some (st', s') -> exists q, s' = set_commandQueue q (sys f)) ->
  flags (sys (with_rx r f)) = flags (sys f).
Proof.
  intros H. destruct r as [[st' s'] |]; [| reflexivity].
  destruct (H _ _ eq_refl) as [q ->]. reflexivity.
Qed.

Lemma WatchdogTask_flags s :
  flags_grow (flags s) (flags (WatchdogTask_iteration s)).
Proof.
  unfold WatchdogTask_iteration, flags.
  repeat match goal with
         | |- context [if ?c then _ else _] => destruct c
         end;
    cbn; first [left; reflexivity | right; eexists; reflexivity].
Qed.

Lemma SensorTask_flags inp n s :
  flags (fst (SensorTask_iteration inp n s)) = flags s.
Proof.
  unfold SensorTask_iteration.
  destruct (lis3mdl inp) as [[[? ?] ?] |], (bme280 inp) as [[[? ?] ?] |],
    (tmp117 inp); reflexivity.
Qed.

Section ExecFacts.

Variable ERROR_UNKNOWN_COMMAND : Z.

Lemma CommTask_flags last s :
  flags_grow (flags s)
    (flags (fst (CommTask_iteration ERROR_UNKNOWN_COMMAND last s))).
Proof.
  unfold CommTask_iteration.
  set (s1 := match osMessageQueueGet (telemetryQueue s) with
             | Some _ => _ | None => _ end).
  assert (H1 : flags s1 = flags s).
  { subst s1. destruct (telemetryQueue s); reflexivity. }
  set (s2 := match osMessageQueueGet (commandQueue s1) with
             | Some _ => _ | None => _ end).
  assert (H2 : flags_grow (flags s) (flags s2)).
  { subst s2. rewrite <- H1. destruct (commandQueue s1) as [| cmd rest].
    - left. reflexivity.
    - cbn [osMessageQueueGet].
      apply (ProcessCommand_flags ERROR_UNKNOWN_COMMAND cmd
               (set_commandQueue rest s1)). }
  clearbody s2. destruct (mcu_reset s2); [exact H2 |].
  unfold CommTask_beacon. destruct (_ && _); exact H2.
Qed.

Lemma exec_flags o f :
  flags_grow (flags (sys f)) (flags (sys (exec ERROR_UNKNOWN_COMMAND o f))).
Proof.
  unfold exec. destruct (mcu_reset (sys f)); [apply flags_grow_refl |].
  destruct o as [inp | | | | pin | data n | h received | |].
  - pose proof (SensorTask_flags inp (sequence f) (sys f)) as H.
    destruct (SensorTask_iteration inp (sequence f) (sys f)) as [s n].
    left. exact H.
  - left. reflexivity.
  - pose proof (CommTask_flags (last_beacon f) (sys f)) as H.
    destruct (CommTask_iteration _ _ _) as [s n]. exact H.
  - apply WatchdogTask_flags.
  - left. cbn [sys]. unfold HAL_GPIO_EXTI_Callback.
    destruct (pin =? RADIATION_PIN); reflexivity.
  - left. apply with_rx_flags. intros st' s' H.
    apply (rx_bytes_sys _ _ _ _ _ H).
  - left. apply with_rx_flags. intros st' s' H.
    destruct h; cbn [HAL_UART_RxCpltCallback] in H.
    + apply (rx_bytes_sys _ _ _ _ _ H).
    + injection H as _ <-. exists (commandQueue (sys f)).
      destruct (sys f); reflexivity.
  - left. reflexivity.
  - left. reflexivity.
Qed.

Lemma reachable_flags_range f :
  reachable ERROR_UNKNOWN_COMMAND f -> 0 <= flags (sys f) < 256.
Proof.
  induction 1 as [| o f _ IH].
  - cbn. lia.
  - exact (flags_grow_range _ _ IH (exec_flags o f)).
Qed.

Lemma reachable_run ops f :
  reachable ERROR_UNKNOWN_COMMAND f ->
  reachable ERROR_UNKNOWN_COMMAND (run ERROR_UNKNOWN_COMMAND ops f).
Proof.
  revert f. induction ops as [| o ops IH]; intros f H; [exact H |].
  cbn. apply IH. constructor. exact H.
Qed.

(** Operations that run to completion only add flags: in every reachable
    state and under every sequence of whole operations of the firmware
    (task passes, interrupt callbacks, received data), a bit that is set in
    [current_telemetry.error_flags] is still set afterwards.  What happens
    when a task is preempted inside [LogError] is the matter of
    [LogError_preempted]. *)
Theorem error_flags_sticky f ops i :
  reachable ERROR_UNKNOWN_COMMAND f ->
  Z.testbit (flags (sys f)) i = true ->
  Z.testbit (flags (sys (run ERROR_UNKNOWN_COMMAND ops f))) i = true.
Proof.
  revert f. induction ops as [| o ops IH]; intros f Hr Hb; [exact Hb |].
  cbn [run fold_left]. apply IH.
  - constructor. exact Hr.
  - exact (flags_grow_keeps _ _ i (reachable_flags_range f Hr)
             (exec_flags o f) Hb).
Qed.

End ExecFacts.

(** ** Error flags under preemption *)

Lemma LogError_not_preempted error_code s :
  LogError_preempted error_code (fun s => s) s = LogError error_code s.
Proof. reflexivity. Qed.

(** C7.  The code does not keep it.  [LogError] is a load, an OR and a
    store without a critical section.  When the calling task is preempted
    between the load and the store, the store writes the flags as they
    were at the load, ORed with the caller's code: a bit that the
    preempting code has set in the meantime, and that was neither set at
    the load nor part of the caller's code, is cleared. *)
Theorem LogError_preempted_clears_flag
    (error_code : Z) (preempting : Sys -> Sys) (s : Sys) (i : Z) :
  0 <= i < 8 ->
  Z.testbit (flags s) i = false ->
  Z.testbit error_code i = false ->
  Z.testbit (flags (preempting s)) i = true ->
  flags (LogError_preempted error_code preempting s)
  = flags (LogError error_code s)
  /\ Z.testbit (flags (LogError_preempted error_code preempting s)) i = false.
Proof.
  intros Hi Hf Hc _.
  split; [reflexivity |].
  unfold LogError_preempted, LogError_store, LogError_load, flags in *.
  cbn. rewrite !testbit_u8, Z.lor_spec, testbit_u8 by lia.
  rewrite Hf, Hc. destruct (i <? 8); reflexivity.
Qed.

Lemma LogError_preempted_clears_flag_witness :
  flags (LogError_preempted ERROR_UART WatchdogTask_iteration
           (sys_at STATE_NOMINAL 0 3700 F32_71))
  = flags (LogError ERROR_UART (sys_at STATE_NOMINAL 0 3700 F32_71))
  /\ Z.testbit
       (flags (LogError_preempted ERROR_UART WatchdogTask_iteration
                 (sys_at STATE_NOMINAL 0 3700 F32_71))) 2
     = false.
Proof.
  apply (LogError_preempted_clears_flag ERROR_UART WatchdogTask_iteration
           (sys_at STATE_NOMINAL 0 3700 F32_71) 2).
  - lia.
  - reflexivity.
  - reflexivity.
  - vm_compute. reflexivity.
Defined.

(** The run behind it: [CommTask] logs the UART error for a command with
    a wrong checksum while the flags are 0 and is preempted after the
    load; [WatchdogTask] finds 71 degrees and logs the temperature error
    (flags 0x06); [CommTask] resumes and stores 0x03. *)
Example temperature_flag_lost :
  flags (sys_at STATE_NOMINAL 0 3700 F32_71) = 0
  /\ flags (WatchdogTask_iteration (sys_at STATE_NOMINAL 0 3700 F32_71)) = 0x06
  /\ flags (LogError_preempted ERROR_UART WatchdogTask_iteration
              (sys_at STATE_NOMINAL 0 3700 F32_71)) = 0x03
  /\ flags (LogError ERROR_UART
              (WatchdogTask_iteration (sys_at STATE_NOMINAL 0 3700 F32_71)))
     = 0x07.
Proof. vm_compute. repeat split. Qed.

(** ** Watchdog: battery rule *)

Lemma shutdown_invocations_app tr1 tr2 :
  shutdown_invocations (tr1 ++ tr2)
  = (shutdown_invocations tr1 + shutdown_invocations tr2)%nat.
Proof. unfold shutdown_invocations. rewrite List.filter_app, length_app. reflexivity. Qed.

Lemma beacons_app tr1 tr2 :
  beacons (tr1 ++ tr2) = (beacons tr1 + beacons tr2)%nat.
Proof. unfold beacons. rewrite List.filter_app, length_app. reflexivity. Qed.

(** C3, as the code has it.  A pass of [WatchdogTask] that finds the
    battery voltage below 3400 mV (3399 for one) calls [ShutdownPayload]
    once in that pass, and leaves [system_state] at [STATE_LOW_POWER] unless
    the temperature rule of the same pass then sets [STATE_SAFE]; a pass
    that finds 3400 mV or more (3401 for one) does not call
    [ShutdownPayload], and its battery rule leaves [system_state] alone. *)
Theorem WatchdogTask_battery_rule (s : Sys) :
  let v := Telemetry.battery_voltage (current_telemetry s) in
  let s' := WatchdogTask_iteration s in
  (v < BATTERY_CRITICAL ->
     shutdown_invocations (trace s') = S (shutdown_invocations (trace s))
     /\ system_state s'
        = if temperature_out_of_range s then STATE_SAFE else STATE_LOW_POWER)
  /\ (BATTERY_CRITICAL <= v ->
     shutdown_invocations (trace s') = shutdown_invocations (trace s)
     /\ system_state s'
        = if temperature_out_of_range s then STATE_SAFE else system_state s).
Proof.
  cbv zeta. unfold WatchdogTask_iteration, temperature_out_of_range.
  split; intros Hv.
  - destruct (Z.ltb_spec (Telemetry.battery_voltage (current_telemetry s))
                BATTERY_CRITICAL) as [_ | Hge]; [| lia].
    destruct (_ || _); cbn - [shutdown_invocations];
      rewrite <- !app_assoc, !shutdown_invocations_app;
      cbn; split; (lia || reflexivity).
  - destruct (Z.ltb_spec (Telemetry.battery_voltage (current_telemetry s))
                BATTERY_CRITICAL) as [Hlt | _]; [lia |].
    destruct (_ || _); cbn - [shutdown_invocations];
      rewrite <- ?app_assoc, !shutdown_invocations_app;
      cbn; split; (lia || reflexivity).
Qed.

(** ** Beacon gating *)

Lemma COMM_SendTelemetry_sys p s :
  let s' := snd (COMM_SendTelemetry p s) in
  system_state s' = system_state s /\ hal_tick s' = hal_tick s
  /\ current_telemetry s' = current_telemetry s
  /\ commandQueue s' = commandQueue s
  /\ beacons (trace s') = beacons (trace s).
Proof.
  cbn - [beacons]. repeat split. rewrite beacons_app. cbn. lia.
Qed.

(** C4, as the code has it.  In one evaluation of the beacon block: with
    [system_state = STATE_SAFE] nothing is sent, whatever time has elapsed;
    with [STATE_IDLE] or [STATE_NOMINAL] and more than 30000 ms elapsed
    (tick difference modulo 2^32) exactly one beacon goes out on [huart2] and
    [last_beacon] becomes the current tick; with 30000 ms or less elapsed
    nothing is sent.  A whole pass of [CommTask] that finds the command
    queue empty sends one beacon if [beacon_due] holds and none otherwise;
    no pass sends more than one. *)
Theorem CommTask_beacon_gating (last_beacon : Z) (s : Sys) :
  let elapsed := u32 (HAL_GetTick s - last_beacon) in
  let r := CommTask_beacon last_beacon s in
  (system_state s = STATE_SAFE -> r = (s, last_beacon))
  /\ (system_state s = STATE_IDLE \/ system_state s = STATE_NOMINAL ->
      30000 < elapsed ->
      r = (COMM_SendBeacon s, HAL_GetTick s)
      /\ trace (fst r) = trace s ++ [EvUartTransmit huart2 (beacon_frame s)]
      /\ beacons (trace (fst r)) = S (beacons (trace s)))
  /\ (elapsed <= 30000 -> r = (s, last_beacon))
  /\ (forall ERROR_UNKNOWN_COMMAND,
      mcu_reset s = false -> commandQueue s = [] ->
      beacons (trace (fst (CommTask_iteration ERROR_UNKNOWN_COMMAND
                             last_beacon s)))
      = (beacons (trace s) + if beacon_due last_beacon s then 1 else 0)%nat)
  /\ (forall ERROR_UNKNOWN_COMMAND,
      (beacons (trace (fst (CommTask_iteration ERROR_UNKNOWN_COMMAND
                              last_beacon s)))
       <= S (beacons (trace s)))%nat).
Proof.
  cbv zeta. unfold CommTask_beacon. rewrite Z.gtb_ltb.
  split; [| split; [| split; [| split]]].
  - intros ->. rewrite andb_false_r. reflexivity.
  - intros Hst Hel.
    destruct (Z.ltb_spec 30000 (u32 (HAL_GetTick s - last_beacon))); [| lia].
    assert (Hc : (system_state s =? STATE_NOMINAL)
                 || (system_state s =? STATE_IDLE) = true).
    { destruct Hst as [-> | ->]; reflexivity. }
    rewrite Hc. cbn [andb fst]. split; [reflexivity |].
    split; [reflexivity |].
    cbn - [beacons]. rewrite beacons_app. cbn. lia.
  - intros Hel.
    destruct (Z.ltb_spec 30000 (u32 (HAL_GetTick s - last_beacon))); [lia |].
    reflexivity.
  - intros E Hr Hq. unfold CommTask_iteration.
    set (s1 := match osMessageQueueGet (telemetryQueue s) with
               | Some _ => _ | None => _ end).
    assert (H1 : system_state s1 = system_state s /\ hal_tick s1 = hal_tick s
                 /\ commandQueue s1 = [] /\ mcu_reset s1 = false
                 /\ beacons (trace s1) = beacons (trace s)).
    { subst s1. destruct (telemetryQueue s) as [| p rest].
      - cbn. auto.
      - cbn - [beacons]. rewrite beacons_app. cbn. repeat split; auto; lia. }
    clearbody s1. destruct H1 as (Hs & Ht & Hq1 & Hm & Hb).
    rewrite Hq1. cbn [osMessageQueueGet]. rewrite Hm.
    unfold beacon_due, CommTask_beacon, HAL_GetTick. rewrite Hs, Ht.
    destruct (_ && _); cbn - [beacons]; rewrite !beacons_app, Hb; cbn; lia.
  - intros E. unfold CommTask_iteration.
    set (s1 := match osMessageQueueGet (telemetryQueue s) with
               | Some _ => _ | None => _ end).
    assert (H1 : beacons (trace s1) = beacons (trace s)).
    { subst s1. destruct (telemetryQueue s) as [| p rest]; [reflexivity |].
      cbn - [beacons]. rewrite beacons_app. cbn. lia. }
    set (s2 := match osMessageQueueGet (commandQueue s1) with
               | Some _ => _ | None => _ end).
    assert (H2 : beacons (trace s2) = beacons (trace s)).
    { subst s2. rewrite <- H1. destruct (commandQueue s1) as [| cmd rest];
        [reflexivity |].
      cbn [osMessageQueueGet]. rewrite ProcessCommand_beacons. reflexivity. }
    clearbody s2. destruct (mcu_reset s2); [cbn [fst]; lia |].
    unfold CommTask_beacon.
    destruct (_ && _); cbn - [beacons]; rewrite !beacons_app, H2; cbn; lia.
Qed.

(** ** The receive parser stays inside its buffer *)

Lemma rx_byte_outcome b st s :
  rx_inv st ->
  exists st' q,
    rx_byte b (st, s) = Some (st', set_commandQueue q s)
    /\ (rx_index st = 0 -> b <> 0xAA -> rx_index st' = 0)
    /\ (rx_index st = 1 -> b <> 0x55 -> b <> 0x56 -> rx_index st' = 0)
    /\ (0 < expected_length st -> rx_index st + 1 = expected_length st ->
        rx_index st' = 0 /\ expected_length st' = 0).
Proof.
  intros Hinv.
  destruct (rx_byte_inv b st s Hinv) as (st' & q & E & _).
  exists st', q. split; [exact E |].
  destruct Hinv as (Hlen & [(He & Hi) | Hacc]).
  - split; [| split].
    + intros H0 Hb. rewrite rx_byte_sync1 in E by (repeat split; assumption).
      injection E as <- _. cbn. destruct (Z.eqb_spec b 170); [contradiction | reflexivity].
    + intros H1 Hb1 Hb2. rewrite rx_byte_kind in E by assumption.
      injection E as <- _. cbn.
      destruct (Z.eqb_spec b 85); [contradiction |].
      destruct (Z.eqb_spec b 86); [contradiction | reflexivity].
    + lia.
  - assert (H : 2 <= rx_index st < expected_length st
                /\ expected_length st <= UART_RX_BUFFER_SIZE).
    { destruct Hacc as [(He & _ & Hi) | (He & _ & Hi)]; rx_consts; lia. }
    split; [lia | split; [lia |]].
    intros _ Hl. rewrite rx_byte_complete in E by lia.
    injection E as <- _. cbn. auto.
Qed.

(** C9.  Whatever is fed to the parser, as direct calls of
    [COMM_ProcessReceivedData] or as receive interrupts, starting from the
    boot state: no store ever falls outside [rx_buffer] (the run never
    yields [None]); between bytes [rx_index] is below
    [sizeof(CommandPacket_t) = 73], so the store of the next byte is inside
    the 256-byte buffer and the incremented index is at most 73; a rejected
    first or second byte and a completed frame put the index back to 0; and
    once a length is chosen the frame ends after exactly the missing
    bytes. *)
Theorem rx_index_bounded (inputs : list rx_input) (s : Sys) :
  exists st q,
    rx_run inputs (rx_init, s) = Some (st, set_commandQueue q s)
    /\ 0 <= rx_index st < sizeof_CommandPacket_t
    /\ u16 (rx_index st + 1) <= sizeof_CommandPacket_t
    /\ sizeof_CommandPacket_t <= UART_RX_BUFFER_SIZE
    /\ Z.of_nat (length (rx_buffer st)) = UART_RX_BUFFER_SIZE
    /\ (forall b s1, exists st' q',
          rx_byte b (st, s1) = Some (st', set_commandQueue q' s1)
          /\ (rx_index st = 0 -> b <> 0xAA -> rx_index st' = 0)
          /\ (rx_index st = 1 -> b <> 0x55 -> b <> 0x56 -> rx_index st' = 0)
          /\ (0 < expected_length st ->
              rx_index st + 1 = expected_length st ->
              rx_index st' = 0 /\ expected_length st' = 0))
    /\ (0 < expected_length st ->
        forall data s1,
          Z.of_nat (length data) = expected_length st - rx_index st ->
          exists st' q',
            rx_bytes data (st, s1) = Some (st', set_commandQueue q' s1)
            /\ rx_index st' = 0 /\ expected_length st' = 0).
Proof.
  destruct (rx_run_inv inputs rx_init s rx_init_inv) as (st & q & E & Hinv).
  exists st, q. split; [exact E |].
  assert (Hi : 0 <= rx_index st < sizeof_CommandPacket_t).
  { destruct Hinv as (_ & [(_ & Hi) | [(_ & _ & Hi) | (_ & _ & Hi)]]);
      rx_consts; lia. }
  split; [exact Hi |].
  split; [unfold u16; rewrite Z.mod_small by (rx_consts; lia); lia |].
  split; [rx_consts; lia |].
  split; [destruct Hinv as [-> _]; reflexivity |].
  split.
  - intros b s1. apply rx_byte_outcome, Hinv.
  - intros Hpos data s1 Hlen. apply rx_bytes_terminates; assumption.
Qed.

(** ** Checksum validation happens in the dispatcher *)

Lemma COMM_ProcessReceivedData_all (frame : list Z) n c :
  length frame = Z.to_nat n ->
  COMM_ProcessReceivedData frame n c = rx_bytes frame c.
Proof.
  intros H. unfold COMM_ProcessReceivedData. rewrite take_ge by lia.
  reflexivity.
Qed.

(** C1, as the code has it.  The receive parser does not look at the
    checksum: every completed command frame is offered to the command queue
    as it stands, and every completed telemetry frame is dropped; neither
    raises a fault.  The checksum is recomputed by [ProcessCommand], over
    all bytes but the last two, when the packet is taken from the queue: on
    a mismatch it logs [ERROR_UART] and dispatches nothing. *)
Theorem checksum_checked_by_dispatcher (ERROR_UNKNOWN_COMMAND : Z) :
  (forall frame st s,
      rx_idle st ->
      length frame = Z.to_nat sizeof_CommandPacket_t ->
      nth 0 frame 0 = 0xAA -> nth 1 frame 0 = 0x56 ->
      exists st',
        COMM_ProcessReceivedData frame sizeof_CommandPacket_t (st, s)
        = Some (st',
                set_commandQueue
                  (osMessageQueuePut commandQueue_capacity (commandQueue s)
                     (Command.of_bytes frame)) s)
        /\ rx_idle st')
  /\ (forall frame st s,
      rx_idle st ->
      length frame = Z.to_nat sizeof_TelemetryPacket_t ->
      nth 0 frame 0 = 0xAA -> nth 1 frame 0 = 0x55 ->
      exists st',
        COMM_ProcessReceivedData frame sizeof_TelemetryPacket_t (st, s)
        = Some (st', s)
        /\ rx_idle st')
  /\ (forall cmd s,
      sync_ok cmd -> ~ checksum_valid cmd ->
      ProcessCommand ERROR_UNKNOWN_COMMAND cmd s
      = LogError ERROR_UART
          (reads RdChecksum
             (reads (RdObject (sizeof_CommandPacket_t - 2))
                (reads RdSync2 (reads RdSync1 s))))).
Proof.
  split; [| split].
  - intros frame st s Hidle Hlen H0 H1.
    rewrite COMM_ProcessReceivedData_all by exact Hlen.
    apply rx_command_frame; assumption.
  - intros frame st s Hidle Hlen H0 H1.
    rewrite COMM_ProcessReceivedData_all by exact Hlen.
    apply rx_telemetry_frame; assumption.
  - intros cmd s. apply ProcessCommand_bad_checksum.
Qed.

(** C2, as the code has it.  The only encoder is [COMM_SendTelemetry]: the
    70 bytes it transmits end in the little-endian checksum of the 68 bytes
    before them.  There is no telemetry decoder: such a frame, fed to the
    receive parser, is consumed and yields nothing.  A well-formed command
    packet is read back unchanged from its 73-byte object representation,
    and its frame, fed to the idle parser, is offered to the command queue
    as that same packet. *)
Theorem telemetry_checksum_command_roundtrip :
  (forall p s,
      let wire := Telemetry.bytes (fst (COMM_SendTelemetry p s)) in
      trace (snd (COMM_SendTelemetry p s))
      = trace s ++ [EvUartTransmit huart1 wire]
      /\ length wire = Z.to_nat sizeof_TelemetryPacket_t
      /\ CalculateChecksum
           (take (Z.to_nat (sizeof_TelemetryPacket_t - 2)) wire)
           (sizeof_TelemetryPacket_t - 2)
         = rd16 (nth 68 wire 0) (nth 69 wire 0))
  /\ (forall p s st s0,
      rx_idle st ->
      exists st',
        COMM_ProcessReceivedData
          (Telemetry.bytes (fst (COMM_SendTelemetry p s)))
          sizeof_TelemetryPacket_t (st, s0)
        = Some (st', s0)
        /\ rx_idle st')
  /\ (forall c, Command.wf c -> Command.of_bytes (Command.bytes c) = c)
  /\ (forall c st s,
      Command.wf c -> sync_ok c -> rx_idle st ->
      exists st',
        COMM_ProcessReceivedData (Command.bytes c) sizeof_CommandPacket_t
          (st, s)
        = Some (st',
                set_commandQueue
                  (osMessageQueuePut commandQueue_capacity (commandQueue s) c)
                  s)
        /\ rx_idle st').
Proof.
  split; [| split; [| split]].
  - intros p s. destruct (COMM_SendTelemetry_wire p s) as (H1 & H2 & _ & _ & H3).
    cbv zeta. auto.
  - intros p s st s0 Hidle.
    destruct (COMM_SendTelemetry_wire p s) as (_ & Hlen & H0 & H1 & _).
    rewrite COMM_ProcessReceivedData_all by exact Hlen.
    apply rx_telemetry_frame; assumption.
  - apply Command_of_bytes_bytes.
  - intros c st s Hwf [Hs1 Hs2] Hidle.
    pose proof Hwf as (_ & _ & _ & _ & _ & Hlen & _).
    assert (HL : length (Command.bytes c) = Z.to_nat sizeof_CommandPacket_t).
    { unfold Command.bytes. rewrite length_app, Command_payload_length by exact Hlen.
      reflexivity. }
    rewrite COMM_ProcessReceivedData_all by exact HL.
    destruct (rx_command_frame (Command.bytes c) st s Hidle HL) as (st' & E & Hi).
    + cbn. rewrite Hs1. reflexivity.
    + cbn. rewrite Hs2. reflexivity.
    + exists st'. rewrite E, Command_of_bytes_bytes by exact Hwf. auto.
Qed.

Lemma CalculateChecksum_take data n :
  CalculateChecksum (take (Z.to_nat n) data) n = CalculateChecksum data n.
Proof.
  unfold CalculateChecksum. rewrite take_take, Nat.min_id. reflexivity.
Qed.

Lemma Command_bytes_length c :
  length (Command.parameters c) = 64%nat ->
  length (Command.bytes c) = 73%nat.
Proof.
  intros H. unfold Command.bytes. rewrite length_app.
  rewrite Command_payload_length by exact H. reflexivity.
Qed.

Lemma load_object_ok cmd n s :
  length (Command.parameters cmd) = 64%nat ->
  0 <= n <= sizeof_CommandPacket_t ->
  load_object cmd n s
  = Some (take (Z.to_nat n) (Command.bytes cmd), reads (RdObject n) s).
Proof.
  intros Hl Hn. unfold load_object.
  rewrite Command_bytes_length by exact Hl.
  unfold sizeof_CommandPacket_t in Hn.
  destruct (Z.leb_spec 0 n); [| lia].
  destruct (Z.leb_spec n (Z.of_nat 73)); [reflexivity | lia].
Qed.

Lemma load_parameter_first cmd s :
  length (Command.parameters cmd) = 64%nat ->
  load_parameter cmd 0 s
  = Some (nth 0 (Command.parameters cmd) 0, reads (RdParameters 0) s).
Proof.
  intros Hl. unfold load_parameter. cbn.
  destruct (Command.parameters cmd) as [| v l]; [discriminate | reflexivity].
Qed.

(** The checked dispatcher and the dispatcher agree. *)
Lemma ProcessCommand_checked_ok E cmd s :
  length (Command.parameters cmd) = 64%nat ->
  ProcessCommand_checked E cmd s = Some (ProcessCommand E cmd s).
Proof.
  intros Hl. unfold ProcessCommand_checked, ProcessCommand.
  cbv zeta.
  destruct (negb (Command.sync1 cmd =? 170)); [reflexivity |].
  destruct (negb (Command.sync2 cmd =? 86)); [reflexivity |].
  rewrite load_object_ok by (unfold sizeof_CommandPacket_t; (exact Hl || lia)).
  rewrite CalculateChecksum_take.
  destruct (negb (_ =? Command.checksum cmd)); [reflexivity |].
  destruct (Command.command_id cmd =? CMD_PING); [reflexivity |].
  destruct (Command.command_id cmd =? CMD_GET_TELEMETRY); [reflexivity |].
  destruct (Command.command_id cmd =? CMD_CAPTURE_IMAGE); [reflexivity |].
  destruct (Command.command_id cmd =? CMD_SET_MODE).
  { destruct (Command.parameter_length cmd >=? 1); [| reflexivity].
    rewrite load_parameter_first by exact Hl. reflexivity. }
  destruct (Command.command_id cmd =? CMD_RESET); [reflexivity |].
  destruct (Command.command_id cmd =? CMD_TRANSMIT_FILE); [| reflexivity].
  rewrite load_object_ok by (unfold sizeof_CommandPacket_t; (exact Hl || lia)).
  unfold HAL_UART_Transmit. rewrite take_take, Nat.min_id. reflexivity.
Qed.

(** C5.  For a checksum-valid command packet that announces more than 64
    parameter bytes, every read [ProcessCommand] makes of the packet stays
    inside it.  The dispatcher whose reads fail outside the object never
    fails and does what [ProcessCommand] does; the elements of
    [parameters] read lie in [parameters[0..63]] (the only one ever read is
    [parameters[0]], which is what SetMode stores), and the byte-wise reads
    cover at most [sizeof(CommandPacket_t)] bytes.  A read at index
    [parameter_length] would fail. *)
Theorem ProcessCommand_parameters_in_bounds
    (ERROR_UNKNOWN_COMMAND : Z) (cmd : CommandPacket_t) (s : Sys) :
  Command.wf cmd ->
  checksum_valid cmd -> Command.parameter_length cmd > 64 ->
  ProcessCommand_checked ERROR_UNKNOWN_COMMAND cmd s
  = Some (ProcessCommand ERROR_UNKNOWN_COMMAND cmd s)
  /\ load_parameter cmd (Command.parameter_length cmd) s = None
  /\ (sync_ok cmd -> Command.command_id cmd = CMD_SET_MODE ->
      Command.parameters cmd !! 0%nat
      = Some (system_state (ProcessCommand ERROR_UNKNOWN_COMMAND cmd s)))
  /\ exists l,
       cmd_reads (ProcessCommand ERROR_UNKNOWN_COMMAND cmd s)
       = cmd_reads s ++ l
       /\ Forall access_in_bounds l
       /\ Forall (fun a => forall i, a = RdParameters i -> i = 0) l.
Proof.
  intros Hwf Hc Hlen.
  assert (Hl : length (Command.parameters cmd) = 64%nat)
    by (destruct Hwf as (_ & _ & _ & _ & _ & Hl & _); exact Hl).
  split; [apply ProcessCommand_checked_ok; exact Hl |].
  split.
  { unfold load_parameter.
    destruct (Z.leb_spec 0 (Command.parameter_length cmd)); [| reflexivity].
    rewrite lookup_ge_None_2; [reflexivity |]. rewrite Hl. lia. }
  split.
  { intros [H1 H2] Hid. unfold checksum_valid in Hc. unfold ProcessCommand.
    rewrite H1, H2, Hc, !Z.eqb_refl, Hid. cbn [negb].
    change (CMD_SET_MODE =? CMD_PING) with false.
    change (CMD_SET_MODE =? CMD_GET_TELEMETRY) with false.
    change (CMD_SET_MODE =? CMD_CAPTURE_IMAGE) with false.
    change (CMD_SET_MODE =? CMD_SET_MODE) with true.
    cbv beta iota zeta.
    destruct (Z.geb_spec (Command.parameter_length cmd) 1); [| lia].
    cbn. destruct (Command.parameters cmd); [discriminate | reflexivity]. }
  clear. unfold ProcessCommand.
  repeat match goal with
         | |- context [if ?c then _ else _] => destruct c
         end;
    cbn; rewrite <- ?app_assoc; eexists; (split; [reflexivity |]);
    (split; repeat constructor; cbn; unfold sizeof_CommandPacket_t;
     try lia; intros i Hi; (discriminate Hi || (injection Hi; lia))).
Qed.

(** C8, as the code has it.  [ProcessCommand] has no case for
    UpdateFirmware (0x07), SetSchedule (0x08) or Beacon (0x09): like every
    other identifier outside 0x01..0x06 they take the default branch, which
    ORs [ERROR_UNKNOWN_COMMAND] into [error_flags] and changes nothing else
    (no transmission, no state change). *)
Theorem ProcessCommand_unhandled
    (ERROR_UNKNOWN_COMMAND : Z) (cmd : CommandPacket_t) (s : Sys) :
  sync_ok cmd -> checksum_valid cmd ->
  Command.command_id cmd = CMD_UPDATE_FIRMWARE
  \/ Command.command_id cmd = CMD_SET_SCHEDULE
  \/ Command.command_id cmd = CMD_BEACON
  \/ ~ (CMD_PING <= Command.command_id cmd <= CMD_BEACON) ->
  let s' := ProcessCommand ERROR_UNKNOWN_COMMAND cmd s in
  s' = LogError ERROR_UNKNOWN_COMMAND (checked s)
  /\ flags s' = u8 (Z.lor (flags s) (u8 ERROR_UNKNOWN_COMMAND))
  /\ system_state s' = system_state s
  /\ trace s' = trace s.
Proof.
  intros Hs Hc Hid. cbv zeta.
  rewrite ProcessCommand_default; [repeat split | exact Hs | exact Hc |].
  unfold CMD_PING, CMD_TRANSMIT_FILE, CMD_UPDATE_FIRMWARE, CMD_SET_SCHEDULE,
    CMD_BEACON in *. lia.
Qed.

(** ** Concrete runs *)

(** The 71 bytes of a Ping frame of sequence number 7 sum to 0x0108; the
    checksum is the complement. *)
Example CalculateChecksum_ping :
  CalculateChecksum ping_frame (sizeof_CommandPacket_t - 2) = 0xFEF7.
Proof. reflexivity. Qed.

(** A valid Ping frame goes through the parser and the queue, and the next
    pass of [CommTask] answers with [AA 57 01 seq]. *)
Example ping_end_to_end :
  match COMM_ProcessReceivedData ping_frame sizeof_CommandPacket_t
          (rx_init, sys_init) with
  | Some (_, s) =>
      trace (fst (CommTask_iteration SAMPLE_UNKNOWN_COMMAND 0 s))
      = [EvUartTransmit huart1 [0xAA; 0x57; 0x01; 0x07]; EvDelay 100]
  | None => False
  end.
Proof. vm_compute. reflexivity. Qed.

(** Float comparisons: 71 > 70, 70 > 70 fails, -20.5 < -20, and a NaN is
    neither above 70 nor below -20. *)
Example f32_compare_samples :
  f32_gt F32_71 F32_70 = true /\ f32_gt F32_70 F32_70 = false
  /\ f32_lt 0xC1A40000 F32_minus_20 = true
  /\ f32_gt 0x7FC00000 F32_70 = false
  /\ f32_lt 0x7FC00000 F32_minus_20 = false.
Proof. by_compute. Qed.

(** C1: a command frame with a wrong checksum goes through the parser
    into the command queue, and the parser raises no fault. *)
Lemma corrupted_command_reaches_queue :
  ~ checksum_valid (Command.of_bytes corrupted_ping_frame)
  /\ match COMM_ProcessReceivedData corrupted_ping_frame
             sizeof_CommandPacket_t (rx_init, sys_init) with
     | Some (_, s) =>
         commandQueue s = [Command.of_bytes corrupted_ping_frame]
         /\ flags s = 0
     | None => False
     end.
Proof. split; [vm_compute; discriminate | by_compute]. Qed.

Lemma checksum_checked_by_dispatcher_witness :
  (exists st',
      COMM_ProcessReceivedData corrupted_ping_frame sizeof_CommandPacket_t
        (rx_init, sys_init)
      = Some (st',
              set_commandQueue
                (osMessageQueuePut commandQueue_capacity
                   (commandQueue sys_init)
                   (Command.of_bytes corrupted_ping_frame)) sys_init)
      /\ rx_idle st')
  /\ ProcessCommand SAMPLE_UNKNOWN_COMMAND
       (Command.of_bytes corrupted_ping_frame) sys_init
     = LogError ERROR_UART
         (reads RdChecksum
            (reads (RdObject (sizeof_CommandPacket_t - 2))
               (reads RdSync2 (reads RdSync1 sys_init)))).
Proof.
  split.
  - apply (proj1 (checksum_checked_by_dispatcher SAMPLE_UNKNOWN_COMMAND));
      [exact rx_init_idle | reflexivity | reflexivity | reflexivity].
  - apply (proj2 (proj2 (checksum_checked_by_dispatcher SAMPLE_UNKNOWN_COMMAND)));
      [split; reflexivity | vm_compute; discriminate].
Defined.

(** C2: the frame [COMM_SendTelemetry] emits for the all-zero packet is not
    that packet any more (the header members are overwritten), and the
    receive parser turns it into nothing. *)
Lemma telemetry_frame_not_decoded :
  fst (COMM_SendTelemetry Telemetry.zero sys_init) <> Telemetry.zero
  /\ match COMM_ProcessReceivedData
             (Telemetry.bytes (fst (COMM_SendTelemetry Telemetry.zero sys_init)))
             sizeof_TelemetryPacket_t (rx_init, sys_init) with
     | Some (_, s) => s = sys_init
     | None => False
     end.
Proof.
  split.
  - intros H. apply (f_equal Telemetry.sync1) in H. vm_compute in H.
    discriminate H.
  - vm_compute. reflexivity.
Qed.

Lemma telemetry_checksum_command_roundtrip_witness :
  Command.of_bytes (Command.bytes set_mode_65) = set_mode_65
  /\ exists st',
      COMM_ProcessReceivedData (Command.bytes set_mode_65)
        sizeof_CommandPacket_t (rx_init, sys_init)
      = Some (st',
              set_commandQueue
                (osMessageQueuePut commandQueue_capacity
                   (commandQueue sys_init) set_mode_65) sys_init)
      /\ rx_idle st'.
Proof.
  assert (Hwf : Command.wf set_mode_65).
  { unfold Command.wf. vm_compute.
    repeat split; try reflexivity; try discriminate.
    repeat constructor; discriminate. }
  split.
  - apply (proj1 (proj2 (proj2 telemetry_checksum_command_roundtrip))).
    exact Hwf.
  - apply (proj2 (proj2 (proj2 telemetry_checksum_command_roundtrip)));
      [exact Hwf | split; reflexivity | exact rx_init_idle].
Defined.

(** C3: with the voltage resting at 3399 mV, two passes call
    [ShutdownPayload] twice; and a pass that finds 3399 mV together with
    71 degrees ends in [STATE_SAFE]. *)
Lemma shutdown_every_pass_and_safe_wins :
  shutdown_invocations
    (trace (WatchdogTask_iteration
              (WatchdogTask_iteration (sys_at STATE_NOMINAL 0 3399 F32_25))))
  = 2%nat
  /\ Telemetry.battery_voltage
       (current_telemetry
          (WatchdogTask_iteration (sys_at STATE_NOMINAL 0 3399 F32_25)))
     = 3399
  /\ system_state (WatchdogTask_iteration (sys_at STATE_NOMINAL 0 3399 F32_71))
     = STATE_SAFE
  /\ STATE_SAFE <> STATE_LOW_POWER.
Proof. by_compute. Qed.

Lemma WatchdogTask_battery_rule_witness :
  (shutdown_invocations
     (trace (WatchdogTask_iteration (sys_at STATE_NOMINAL 0 3399 F32_25)))
   = 1%nat
   /\ system_state (WatchdogTask_iteration (sys_at STATE_NOMINAL 0 3399 F32_25))
      = STATE_LOW_POWER)
  /\ (shutdown_invocations
        (trace (WatchdogTask_iteration (sys_at STATE_NOMINAL 0 3401 F32_25)))
      = 0%nat
      /\ system_state
           (WatchdogTask_iteration (sys_at STATE_NOMINAL 0 3401 F32_25))
         = STATE_NOMINAL).
Proof.
  split.
  - apply (proj1 (WatchdogTask_battery_rule (sys_at STATE_NOMINAL 0 3399 F32_25))).
    reflexivity.
  - apply (proj2 (WatchdogTask_battery_rule (sys_at STATE_NOMINAL 0 3401 F32_25))).
    discriminate.
Defined.

(** C4: in [STATE_IDLE] with exactly 30000 ms elapsed no beacon is sent. *)
Lemma no_beacon_at_30000_ms :
  u32 (HAL_GetTick (sys_at STATE_IDLE 30000 3700 F32_25) - 0) = 30000
  /\ CommTask_beacon 0 (sys_at STATE_IDLE 30000 3700 F32_25)
     = (sys_at STATE_IDLE 30000 3700 F32_25, 0)
  /\ beacons
       (trace (fst (CommTask_iteration SAMPLE_UNKNOWN_COMMAND 0
                      (sys_at STATE_IDLE 30000 3700 F32_25))))
     = 0%nat.
Proof. by_compute. Qed.

Lemma CommTask_beacon_gating_witness :
  CommTask_beacon 0 (sys_at STATE_SAFE 40000 3700 F32_25)
  = (sys_at STATE_SAFE 40000 3700 F32_25, 0)
  /\ beacons (trace (fst (CommTask_beacon 0 (sys_at STATE_IDLE 30001 3700 F32_25))))
     = 1%nat
  /\ beacons (trace (fst (CommTask_iteration SAMPLE_UNKNOWN_COMMAND 0
                            (sys_at STATE_NOMINAL 30001 3700 F32_25))))
     = 1%nat.
Proof.
  split; [| split].
  - apply (proj1 (CommTask_beacon_gating 0 (sys_at STATE_SAFE 40000 3700 F32_25))).
    reflexivity.
  - apply (proj1 (proj2 (CommTask_beacon_gating 0
                           (sys_at STATE_IDLE 30001 3700 F32_25))));
      [left; reflexivity | reflexivity].
  - apply (proj1 (proj2 (proj2 (proj2 (CommTask_beacon_gating 0
                                  (sys_at STATE_NOMINAL 30001 3700 F32_25)))))
             SAMPLE_UNKNOWN_COMMAND); reflexivity.
Defined.

Lemma set_mode_65_wf : Command.wf set_mode_65.
Proof.
  assert (Hp : Forall (fun b => 0 <= b < 256) (Command.parameters set_mode_65)).
  { cbn. repeat (apply List.Forall_cons; [unfold STATE_NOMINAL; lia |]).
    apply List.Forall_nil. }
  unfold Command.wf.
  repeat match goal with |- _ /\ _ => split end;
    first [ exact Hp | reflexivity
          | vm_compute; first [discriminate | reflexivity] ].
Qed.

Lemma ProcessCommand_parameters_in_bounds_witness :
  ProcessCommand_checked SAMPLE_UNKNOWN_COMMAND set_mode_65 sys_init
  = Some (ProcessCommand SAMPLE_UNKNOWN_COMMAND set_mode_65 sys_init)
  /\ load_parameter set_mode_65 65 sys_init = None
  /\ Command.parameters set_mode_65 !! 0%nat
     = Some (system_state
               (ProcessCommand SAMPLE_UNKNOWN_COMMAND set_mode_65 sys_init))
  /\ exists l,
       cmd_reads (ProcessCommand SAMPLE_UNKNOWN_COMMAND set_mode_65 sys_init)
       = cmd_reads sys_init ++ l
       /\ Forall access_in_bounds l
       /\ Forall (fun a => forall i, a = RdParameters i -> i = 0) l.
Proof.
  destruct (ProcessCommand_parameters_in_bounds SAMPLE_UNKNOWN_COMMAND
              set_mode_65 sys_init set_mode_65_wf eq_refl eq_refl)
    as (H1 & H2 & H3 & H4).
  split; [exact H1 |].
  split; [exact H2 |].
  split; [| exact H4].
  apply H3; [split; reflexivity | reflexivity].
Defined.

Lemma error_flags_sticky_witness :
  Z.testbit
    (flags (sys (run SAMPLE_UNKNOWN_COMMAND
                   [OpCommTask; OpWatchdogTask; OpRadiationTask]
                   fw_overheated))) 1
  = true.
Proof.
  apply (error_flags_sticky SAMPLE_UNKNOWN_COMMAND fw_overheated).
  - unfold fw_overheated. apply reachable_step, reachable_step, reachable_init.
  - reflexivity.
Defined.

(** C8: whatever value [ERROR_UNKNOWN_COMMAND] has, it cannot be that a
    checksum-valid UpdateFirmware command leaves [error_flags] alone while
    a checksum-valid command with the unassigned identifier 0x0A records a
    fault: both take the same branch. *)
Lemma placeholders_take_default_branch :
  sync_ok (bare_command CMD_UPDATE_FIRMWARE)
  /\ checksum_valid (bare_command CMD_UPDATE_FIRMWARE)
  /\ sync_ok (bare_command 0x0A)
  /\ checksum_valid (bare_command 0x0A)
  /\ flags (ProcessCommand SAMPLE_UNKNOWN_COMMAND
              (bare_command CMD_UPDATE_FIRMWARE) sys_init)
     = SAMPLE_UNKNOWN_COMMAND
  /\ ~ (exists code,
         flags (ProcessCommand code (bare_command CMD_UPDATE_FIRMWARE) sys_init)
         = flags sys_init
         /\ flags (ProcessCommand code (bare_command 0x0A) sys_init)
            <> flags sys_init).
Proof.
  assert (H7 : sync_ok (bare_command CMD_UPDATE_FIRMWARE)
               /\ checksum_valid (bare_command CMD_UPDATE_FIRMWARE))
    by (split; [split |]; reflexivity).
  assert (HA : sync_ok (bare_command 0x0A) /\ checksum_valid (bare_command 0x0A))
    by (split; [split |]; reflexivity).
  destruct H7 as [Hs7 Hc7], HA as [HsA HcA].
  repeat (split; [assumption || reflexivity |]).
  intros (code & H1 & H2). apply H2.
  rewrite ProcessCommand_default in H1 |- *;
    try assumption; vm_compute; intros [? ?]; congruence.
Qed.

Lemma ProcessCommand_unhandled_witness :
  ProcessCommand SAMPLE_UNKNOWN_COMMAND (bare_command CMD_BEACON) sys_init
  = LogError SAMPLE_UNKNOWN_COMMAND (checked sys_init)
  /\ flags (ProcessCommand SAMPLE_UNKNOWN_COMMAND (bare_command CMD_BEACON)
              sys_init)
     = u8 (Z.lor (flags sys_init) (u8 SAMPLE_UNKNOWN_COMMAND))
  /\ system_state
       (ProcessCommand SAMPLE_UNKNOWN_COMMAND (bare_command CMD_BEACON) sys_init)
     = system_state sys_init
  /\ trace
       (ProcessCommand SAMPLE_UNKNOWN_COMMAND (bare_command CMD_BEACON) sys_init)
     = trace sys_init.
Proof.
  apply (ProcessCommand_unhandled SAMPLE_UNKNOWN_COMMAND
           (bare_command CMD_BEACON) sys_init).
  - split; reflexivity.
  - reflexivity.
  - right; right; left. reflexivity.
Defined.

(** * Further properties of the code *)

(** ** Checksum *)

Lemma checksum_fold (l : list Z) a :
  0 <= a < 65536 ->
  fold_left (fun checksum byte => u16 (checksum + byte)) l a
  = u16 (a + byte_sum l).
Proof.
  revert a. induction l as [| b l IH]; intros a Ha.
  - cbn. rewrite Z.add_0_r, u16_small by exact Ha. reflexivity.
  - cbn [fold_left byte_sum fold_right]. rewrite IH by apply u16_range.
    unfold u16. rewrite Z.add_mod_idemp_l by lia. f_equal.
    fold (byte_sum l). lia.
Qed.

Lemma u16_lnot x : 0 <= x < 65536 -> u16 (Z.lnot x) = 65535 - x.
Proof.
  intros H. unfold u16, Z.lnot.
  replace (Z.pred (- x)) with (65535 - x + (-1) * 65536) by lia.
  rewrite Z_mod_plus_full. apply Z.mod_small. lia.
Qed.

Lemma CalculateChecksum_sum data n :
  CalculateChecksum data n
  = 65535 - u16 (byte_sum (take (Z.to_nat n) data)).
Proof.
  unfold CalculateChecksum. rewrite checksum_fold by lia.
  rewrite u16_lnot by apply u16_range. reflexivity.
Qed.

Lemma byte_sum_app l1 l2 : byte_sum (l1 ++ l2) = byte_sum l1 + byte_sum l2.
Proof.
  induction l1 as [| a l1 IH]; cbn; [reflexivity |].
  fold (byte_sum (l1 ++ l2)). fold (byte_sum l1). lia.
Qed.

Lemma byte_sum_perm l1 l2 : Permutation l1 l2 -> byte_sum l1 = byte_sum l2.
Proof.
  induction 1 as [| x l l' _ IH | x y l | l l' l'' _ IH1 _ IH2]; cbn.
  - reflexivity.
  - fold (byte_sum l). fold (byte_sum l'). lia.
  - fold (byte_sum l). lia.
  - congruence.
Qed.

(** X1.  The checksum does not depend on the order of the bytes it covers:
    two byte sequences that are permutations of each other (a swapped pair
    of bytes, for one) have the same checksum. *)
Theorem CalculateChecksum_order_insensitive (d1 d2 : list Z) :
  Permutation d1 d2 ->
  CalculateChecksum d1 (Z.of_nat (length d1))
  = CalculateChecksum d2 (Z.of_nat (length d2)).
Proof.
  intros H. rewrite !CalculateChecksum_sum, !Nat2Z.id, !take_ge by lia.
  rewrite (byte_sum_perm _ _ H). reflexivity.
Qed.

(** X2.  Changing one covered byte into a different byte always changes
    the checksum. *)
Theorem CalculateChecksum_detects_single_byte (data : list Z) (n : Z)
    (i : nat) (a b : Z) :
  data !! i = Some a -> Z.of_nat i < n ->
  0 <= a < 256 -> 0 <= b < 256 -> a <> b ->
  CalculateChecksum (<[i:=b]> data) n <> CalculateChecksum data n.
Proof.
  intros Hi Hn Ha Hb Hab.
  rewrite !CalculateChecksum_sum.
  assert (Hlt : (i < length data)%nat) by (eapply lookup_lt_Some; exact Hi).
  assert (Hs : byte_sum (take (Z.to_nat n) (<[i:=b]> data))
               = byte_sum (take (Z.to_nat n) data) + (b - a)).
  { rewrite take_insert_lt by lia.
    assert (Ht : take (Z.to_nat n) data !! i = Some a)
      by (rewrite lookup_take_lt by lia; exact Hi).
    rewrite <- (take_drop_middle _ _ _ Ht) at 2.
    rewrite insert_take_drop
      by (apply lookup_lt_Some in Ht; exact Ht).
    rewrite !byte_sum_app. cbn. fold (byte_sum (drop (S i) (take (Z.to_nat n) data))).
    lia. }
  rewrite Hs. unfold u16. intros H.
  assert (He : (byte_sum (take (Z.to_nat n) data) + (b - a)) mod 65536
               = byte_sum (take (Z.to_nat n) data) mod 65536) by lia.
  apply (f_equal (fun x => (x - byte_sum (take (Z.to_nat n) data)) mod 65536)) in He.
  rewrite Zminus_mod_idemp_l in He.
  rewrite (Zminus_mod_idemp_l (byte_sum (take (Z.to_nat n) data))) in He.
  replace (byte_sum (take (Z.to_nat n) data) + (b - a)
           - byte_sum (take (Z.to_nat n) data)) with (b - a) in He by lia.
  rewrite Z.sub_diag, Z.mod_0_l in He by lia.
  assert (Hcases : 0 < b - a < 65536 \/ -65536 < b - a < 0) by lia.
  destruct Hcases as [Hp | Hm].
  - rewrite Z.mod_small in He by lia. lia.
  - replace (b - a) with (b - a + 65536 + (-1) * 65536) in He by lia.
    rewrite Z_mod_plus_full, Z.mod_small in He by lia. lia.
Qed.

Lemma CalculateChecksum_detects_single_byte_witness :
  CalculateChecksum (<[3%nat:=0x08]> ping_frame) (sizeof_CommandPacket_t - 2)
  <> CalculateChecksum ping_frame (sizeof_CommandPacket_t - 2).
Proof.
  apply (CalculateChecksum_detects_single_byte ping_frame _ 3 0x07 0x08);
    [reflexivity | reflexivity | lia | lia | discriminate].
Defined.

Lemma CalculateChecksum_order_insensitive_witness :
  CalculateChecksum [0x12; 0x34; 0x56] (Z.of_nat (length [0x12; 0x34; 0x56]))
  = CalculateChecksum [0x34; 0x12; 0x56] (Z.of_nat (length [0x34; 0x12; 0x56])).
Proof.
  apply (CalculateChecksum_order_insensitive [0x12; 0x34; 0x56] [0x34; 0x12; 0x56]).
  apply perm_swap.
Defined.

(** X3.  What a receiver checks: the 16-bit sum of the covered bytes plus
    the checksum is always 0xFFFF; over no bytes at all the checksum is
    0xFFFF. *)
Theorem CalculateChecksum_complements_sum (data : list Z) (n : Z) :
  u16 (byte_sum (take (Z.to_nat n) data) + CalculateChecksum data n) = 0xFFFF
  /\ CalculateChecksum data 0 = 0xFFFF.
Proof.
  split.
  - rewrite CalculateChecksum_sum. unfold u16.
    rewrite <- Z.add_mod_idemp_l by lia.
    replace (byte_sum (take (Z.to_nat n) data) mod 65536
             + (65535 - byte_sum (take (Z.to_nat n) data) mod 65536))
      with 65535 by lia.
    reflexivity.
  - rewrite CalculateChecksum_sum. reflexivity.
Qed.

(** ** Command dispatcher: the individual commands *)

(** X4.  A packet whose sync bytes are not 0xAA 0x56 is dropped without a
    trace: no error flag is set, nothing is transmitted, no global changes,
    whatever the rest of the packet holds. *)
Theorem ProcessCommand_bad_sync_silent
    (ERROR_UNKNOWN_COMMAND : Z) (cmd : CommandPacket_t) (s : Sys) :
  Command.sync1 cmd <> 0xAA \/ Command.sync2 cmd <> 0x56 ->
  let s' := ProcessCommand ERROR_UNKNOWN_COMMAND cmd s in
  current_telemetry s' = current_telemetry s
  /\ system_state s' = system_state s
  /\ trace s' = trace s
  /\ mcu_reset s' = mcu_reset s
  /\ commandQueue s' = commandQueue s
  /\ telemetryQueue s' = telemetryQueue s.
Proof.
  intros H. cbv zeta. unfold ProcessCommand.
  destruct (Z.eqb_spec (Command.sync1 cmd) 170) as [E1 | E1]; cbn [negb];
    [| repeat split].
  destruct (Z.eqb_spec (Command.sync2 cmd) 86) as [E2 | E2]; cbn [negb];
    [| repeat split].
  destruct H; contradiction.
Qed.

Lemma ProcessCommand_bad_sync_silent_witness :
  current_telemetry
    (ProcessCommand SAMPLE_UNKNOWN_COMMAND
       (Command.of_bytes (0x00 :: drop 1 corrupted_ping_frame)) sys_init)
  = current_telemetry sys_init
  /\ system_state
       (ProcessCommand SAMPLE_UNKNOWN_COMMAND
          (Command.of_bytes (0x00 :: drop 1 corrupted_ping_frame)) sys_init)
     = system_state sys_init
  /\ trace
       (ProcessCommand SAMPLE_UNKNOWN_COMMAND
          (Command.of_bytes (0x00 :: drop 1 corrupted_ping_frame)) sys_init)
     = trace sys_init
  /\ mcu_reset
       (ProcessCommand SAMPLE_UNKNOWN_COMMAND
          (Command.of_bytes (0x00 :: drop 1 corrupted_ping_frame)) sys_init)
     = mcu_reset sys_init
  /\ commandQueue
       (ProcessCommand SAMPLE_UNKNOWN_COMMAND
          (Command.of_bytes (0x00 :: drop 1 corrupted_ping_frame)) sys_init)
     = commandQueue sys_init
  /\ telemetryQueue
       (ProcessCommand SAMPLE_UNKNOWN_COMMAND
          (Command.of_bytes (0x00 :: drop 1 corrupted_ping_frame)) sys_init)
     = telemetryQueue sys_init.
Proof.
  apply (ProcessCommand_bad_sync_silent SAMPLE_UNKNOWN_COMMAND
           (Command.of_bytes (0x00 :: drop 1 corrupted_ping_frame)) sys_init).
  left. discriminate.
Defined.

Lemma ProcessCommand_ping E cmd s :
  sync_ok cmd -> checksum_valid cmd -> Command.command_id cmd = CMD_PING ->
  ProcessCommand E cmd s
  = HAL_UART_Transmit huart1
      [0xAA; 0x57; 0x01; u8 (Z.land (Command.sequence_number cmd) 0xFF)] 4
      (reads RdSequenceNumber (checked s)).
Proof.
  intros [H1 H2] Hc Hid. unfold checksum_valid in Hc.
  dispatch_to Hid. reflexivity.
Qed.

Lemma u8_land_255 x : u8 (Z.land x 0xFF) = x mod 256.
Proof.
  change 255 with (Z.ones 8). rewrite Z.land_ones by lia.
  unfold u8. apply Z.mod_mod. lia.
Qed.

(** A well-formed command packet with the right sync bytes, sent as a
    frame to the idle parser, is offered to the command queue. *)
Lemma command_frame_delivered (cmd : CommandPacket_t) st s :
  Command.wf cmd -> sync_ok cmd -> rx_idle st ->
  exists st',
    COMM_ProcessReceivedData (Command.bytes cmd) sizeof_CommandPacket_t (st, s)
    = Some (st',
            set_commandQueue
              (osMessageQueuePut commandQueue_capacity (commandQueue s) cmd) s)
    /\ rx_idle st'.
Proof.
  intros Hwf [Hs1 Hs2] Hidle.
  pose proof Hwf as (_ & _ & _ & _ & _ & Hlen & _).
  assert (HL : length (Command.bytes cmd) = Z.to_nat sizeof_CommandPacket_t).
  { unfold Command.bytes.
    rewrite length_app, Command_payload_length by exact Hlen. reflexivity. }
  rewrite COMM_ProcessReceivedData_all by exact HL.
  destruct (rx_command_frame (Command.bytes cmd) st s Hidle HL) as (st' & E & Hi).
  - cbn. rewrite Hs1. reflexivity.
  - cbn. rewrite Hs2. reflexivity.
  - exists st'. rewrite E, Command_of_bytes_bytes by exact Hwf. auto.
Qed.

(** X5.  A well-formed, checksum-valid Ping packet that arrives as a frame
    at the idle parser is answered by the next pass of [CommTask]: the
    first thing the pass emits is [AA 57 01 seq mod 256] on [huart1]; the
    operating mode does not change and the command queue is empty again. *)
Theorem ping_answered
    (ERROR_UNKNOWN_COMMAND : Z) (cmd : CommandPacket_t) (st : RxState)
    (s : Sys) (last_beacon : Z) :
  Command.wf cmd -> sync_ok cmd -> checksum_valid cmd ->
  Command.command_id cmd = CMD_PING ->
  rx_idle st ->
  telemetryQueue s = [] -> commandQueue s = [] -> mcu_reset s = false ->
  exists st' s1,
    COMM_ProcessReceivedData (Command.bytes cmd) sizeof_CommandPacket_t (st, s)
    = Some (st', s1)
    /\ let s2 := fst (CommTask_iteration ERROR_UNKNOWN_COMMAND last_beacon s1) in
       trace s2
       = trace s
         ++ [EvUartTransmit huart1
               [0xAA; 0x57; 0x01; Command.sequence_number cmd mod 256]]
         ++ (if beacon_due last_beacon s
             then [EvUartTransmit huart2 (beacon_frame s)] else [])
         ++ [EvDelay 100]
       /\ system_state s2 = system_state s
       /\ commandQueue s2 = [].
Proof.
  intros Hwf Hs Hc Hid Hidle Htq Hcq Hr.
  destruct (command_frame_delivered cmd st s Hwf Hs Hidle) as (st' & E & _).
  rewrite Hcq in E.
  change (osMessageQueuePut commandQueue_capacity [] cmd) with [cmd] in E.
  exists st', (set_commandQueue [cmd] s). split; [exact E |].
  cbv zeta. unfold CommTask_iteration.
  change (telemetryQueue (set_commandQueue [cmd] s)) with (telemetryQueue s).
  rewrite Htq. cbn [osMessageQueueGet].
  change (commandQueue (set_commandQueue [cmd] s)) with [cmd].
  cbn [osMessageQueueGet].
  rewrite ProcessCommand_ping by assumption.
  rewrite u8_land_255.
  set (resp := [170; 87; 1; Command.sequence_number cmd mod 256]).
  change (mcu_reset (HAL_UART_Transmit huart1 resp 4
                       (reads RdSequenceNumber
                          (checked (set_commandQueue [] (set_commandQueue [cmd] s))))))
    with (mcu_reset s).
  rewrite Hr. unfold CommTask_beacon, beacon_due, HAL_GetTick.
  cbn [HAL_UART_Transmit emit reads checked set_trace set_cmd_reads
       set_commandQueue hal_tick system_state].
  destruct (_ && _); cbn; rewrite <- ?app_assoc; repeat split.
Qed.

Lemma ping_answered_witness :
  exists st' s1,
    COMM_ProcessReceivedData (Command.bytes (bare_command CMD_PING))
      sizeof_CommandPacket_t (rx_init, sys_init)
    = Some (st', s1)
    /\ let s2 := fst (CommTask_iteration SAMPLE_UNKNOWN_COMMAND 0 s1) in
       trace s2
       = trace sys_init
         ++ [EvUartTransmit huart1
               [0xAA; 0x57; 0x01;
                Command.sequence_number (bare_command CMD_PING) mod 256]]
         ++ (if beacon_due 0 sys_init
             then [EvUartTransmit huart2 (beacon_frame sys_init)] else [])
         ++ [EvDelay 100]
       /\ system_state s2 = system_state sys_init
       /\ commandQueue s2 = [].
Proof.
  apply (ping_answered SAMPLE_UNKNOWN_COMMAND (bare_command CMD_PING)
           rx_init sys_init 0); try reflexivity.
  - unfold Command.wf. vm_compute.
    repeat split; try reflexivity; try discriminate.
    repeat constructor; discriminate.
  - split; reflexivity.
  - exact rx_init_idle.
Defined.

(** X6.  SetMode writes [parameters[0]] into [system_state] as it is: no
    check that the byte is one of the eight states, and no check of
    [parameter_length] beyond "at least 1".  With [parameter_length = 0]
    the command does nothing.  Nothing is transmitted and no flag is
    set. *)
Theorem SetMode_unvalidated
    (ERROR_UNKNOWN_COMMAND : Z) (cmd : CommandPacket_t) (s : Sys) :
  sync_ok cmd -> checksum_valid cmd ->
  Command.command_id cmd = CMD_SET_MODE ->
  let s' := ProcessCommand ERROR_UNKNOWN_COMMAND cmd s in
  system_state s'
  = (if 1 <=? Command.parameter_length cmd
     then nth 0 (Command.parameters cmd) 0
     else system_state s)
  /\ trace s' = trace s
  /\ current_telemetry s' = current_telemetry s
  /\ mcu_reset s' = mcu_reset s.
Proof.
  intros [H1 H2] Hc Hid. unfold checksum_valid in Hc. cbv zeta.
  dispatch_to Hid. change (CMD_SET_MODE =? CMD_PING) with false.
  cbn beta iota. rewrite Z.geb_leb.
  destruct (1 <=? Command.parameter_length cmd); repeat split.
Qed.

(** A SetMode packet that asks for the state 0xFF. *)
Lemma SetMode_unvalidated_witness :
  system_state
    (ProcessCommand SAMPLE_UNKNOWN_COMMAND
       (with_checksum
          {| Command.sync1 := 0xAA; Command.sync2 := 0x56;
             Command.command_id := CMD_SET_MODE;
             Command.sequence_number := 0; Command.parameter_length := 1;
             Command.parameters := 0xFF :: replicate 63 0;
             Command.checksum := 0 |}) sys_init)
  = 0xFF.
Proof.
  apply (proj1 (SetMode_unvalidated SAMPLE_UNKNOWN_COMMAND
                  (with_checksum
                     {| Command.sync1 := 0xAA; Command.sync2 := 0x56;
                        Command.command_id := CMD_SET_MODE;
                        Command.sequence_number := 0;
                        Command.parameter_length := 1;
                        Command.parameters := 0xFF :: replicate 63 0;
                        Command.checksum := 0 |}) sys_init
                  (conj eq_refl eq_refl) eq_refl eq_refl)).
Defined.

Lemma le16_rd16 a b :
  0 <= a < 256 -> 0 <= b < 256 -> le16 (rd16 a b) = [a; b].
Proof.
  intros Ha Hb. unfold le16, rd16.
  replace (a + 256 * b) with (a + b * 256) by lia.
  rewrite Z_mod_plus_full, Z_div_plus_full by lia.
  rewrite (Z.mod_small a), (Z.div_small a), (Z.mod_small (0 + b)) by lia.
  reflexivity.
Qed.

(** Writing out the object that was read from 73 bytes gives the 73 bytes
    back. *)
Lemma Command_bytes_of_bytes (frame : list Z) :
  length frame = Z.to_nat sizeof_CommandPacket_t -> all_bytes frame ->
  Command.bytes (Command.of_bytes frame) = frame.
Proof.
  intros Hlen Hb. unfold sizeof_CommandPacket_t in Hlen.
  destruct frame as [| b0 [| b1 [| b2 [| b3 [| b4 [| b5 [| b6 r]]]]]]];
    cbn [length] in Hlen; try lia.
  assert (Hr : length r = 66%nat) by lia.
  unfold all_bytes in Hb.
  repeat match goal with
         | H : Forall _ (_ :: _) |- _ => apply Forall_cons in H; destruct H
         end.
  assert (Hd : exists p x y, r = p ++ [x; y] /\ length p = 64%nat).
  { exists (take 64 r).
    destruct (drop 64 r) as [| x [| y [| z t]]] eqn:Ed;
      pose proof (f_equal length Ed) as El; rewrite length_drop in El;
      cbn [length] in El; try lia.
    exists x, y. split; [| rewrite length_take; lia].
    rewrite <- Ed. symmetry. apply take_drop. }
  destruct Hd as (p & x & y & -> & Hp). clear Hr Hlen.
  match goal with
  | H : Forall _ (p ++ [x; y]) |- _ =>
      apply Forall_app in H; destruct H as [_ Hxy]
  end.
  apply Forall_cons in Hxy. destruct Hxy as [Hx Hy].
  apply Forall_cons in Hy. destruct Hy as [Hy _].
  unfold Command.bytes, Command.payload, Command.of_bytes.
  cbn [Command.sync1 Command.sync2 Command.command_id Command.sequence_number
       Command.parameter_length Command.parameters Command.checksum nth skipn].
  assert (E0 : nth 64 (p ++ [x; y]) 0 = x).
  { rewrite List.app_nth2 by lia. rewrite Hp. reflexivity. }
  assert (E1 : nth 65 (p ++ [x; y]) 0 = y).
  { rewrite List.app_nth2 by lia. rewrite Hp. reflexivity. }
  rewrite E0, E1, !le16_rd16, !u8_small by assumption.
  rewrite drop_0, take_app_length' by (symmetry; exact Hp).
  reflexivity.
Qed.

(** X7.  TransmitFile forwards the received frame byte for byte: for a
    73-byte frame with a valid checksum and command identifier 0x06, the
    dispatcher transmits exactly those 73 bytes on [huart1], and changes
    nothing else. *)
Theorem TransmitFile_forwards_frame
    (ERROR_UNKNOWN_COMMAND : Z) (frame : list Z) (s : Sys) :
  length frame = Z.to_nat sizeof_CommandPacket_t -> all_bytes frame ->
  sync_ok (Command.of_bytes frame) ->
  checksum_valid (Command.of_bytes frame) ->
  nth 2 frame 0 = CMD_TRANSMIT_FILE ->
  let s' := ProcessCommand ERROR_UNKNOWN_COMMAND (Command.of_bytes frame) s in
  trace s' = trace s ++ [EvUartTransmit huart1 frame]
  /\ system_state s' = system_state s
  /\ current_telemetry s' = current_telemetry s.
Proof.
  intros Hlen Hb [H1 H2] Hc Hid. unfold checksum_valid in Hc. cbv zeta.
  assert (Hid' : Command.command_id (Command.of_bytes frame) = CMD_TRANSMIT_FILE)
    by exact Hid.
  dispatch_to Hid'.
  change (CMD_TRANSMIT_FILE =? CMD_PING) with false.
  change (CMD_TRANSMIT_FILE =? CMD_GET_TELEMETRY) with false.
  change (CMD_TRANSMIT_FILE =? CMD_CAPTURE_IMAGE) with false.
  change (CMD_TRANSMIT_FILE =? CMD_SET_MODE) with false.
  change (CMD_TRANSMIT_FILE =? CMD_RESET) with false.
  cbn beta iota.
  rewrite Command_bytes_of_bytes by assumption.
  unfold HAL_UART_Transmit. rewrite take_ge by lia.
  repeat split.
Qed.

Lemma TransmitFile_forwards_frame_witness :
  trace (ProcessCommand SAMPLE_UNKNOWN_COMMAND
           (Command.of_bytes transmit_file_frame) sys_init)
  = trace sys_init ++ [EvUartTransmit huart1 transmit_file_frame]
  /\ system_state (ProcessCommand SAMPLE_UNKNOWN_COMMAND
                     (Command.of_bytes transmit_file_frame) sys_init)
     = system_state sys_init
  /\ current_telemetry (ProcessCommand SAMPLE_UNKNOWN_COMMAND
                          (Command.of_bytes transmit_file_frame) sys_init)
     = current_telemetry sys_init.
Proof.
  apply (TransmitFile_forwards_frame SAMPLE_UNKNOWN_COMMAND
           transmit_file_frame sys_init).
  - reflexivity.
  - unfold all_bytes, transmit_file_frame. cbn [replicate app].
    repeat (constructor; [unfold CMD_TRANSMIT_FILE; lia |]). constructor.
  - split; reflexivity.
  - reflexivity.
  - reflexivity.
Defined.



(** ** Receive parser: resynchronisation and the interrupt path *)

(** Bytes other than 0xAA, arriving at the idle parser, are thrown away. *)
Lemma rx_bytes_garbage (garbage : list Z) st s :
  rx_idle st -> Forall (fun b => b <> 0xAA) garbage ->
  exists st', rx_bytes garbage (st, s) = Some (st', s) /\ rx_idle st'.
Proof.
  revert st. induction garbage as [| b g IH]; intros st Hidle Hg.
  - exists st. auto.
  - apply Forall_cons in Hg. destruct Hg as [Hb Hg].
    cbn [rx_bytes]. rewrite rx_byte_sync1 by exact Hidle.
    destruct (Z.eqb_spec b 170) as [-> | _]; [contradiction |].
    apply IH; [| exact Hg].
    destruct Hidle as (Hlen & _ & _). repeat split; cbn.
    rewrite length_insert. exact Hlen.
Qed.

(** X9.  Line noise in front of a frame does no harm as long as it holds
    no 0xAA: the noise is discarded and the command frame that follows is
    offered to the command queue as it stands. *)
Theorem rx_resynchronises_after_noise
    (noise frame : list Z) (st : RxState) (s : Sys) :
  rx_idle st ->
  Forall (fun b => b <> 0xAA) noise ->
  length frame = Z.to_nat sizeof_CommandPacket_t ->
  nth 0 frame 0 = 0xAA -> nth 1 frame 0 = 0x56 ->
  Z.of_nat (length (noise ++ frame)) < 65536 ->
  exists st',
    COMM_ProcessReceivedData (noise ++ frame)
      (Z.of_nat (length (noise ++ frame))) (st, s)
    = Some (st',
            set_commandQueue
              (osMessageQueuePut commandQueue_capacity (commandQueue s)
                 (Command.of_bytes frame)) s)
    /\ rx_idle st'.
Proof.
  intros Hidle Hn Hlen H0 H1 _.
  rewrite COMM_ProcessReceivedData_all by lia.
  rewrite rx_bytes_app.
  destruct (rx_bytes_garbage noise st s Hidle Hn) as (st1 & E1 & Hidle1).
  rewrite E1. apply rx_command_frame; assumption.
Qed.

Lemma rx_resynchronises_after_noise_witness :
  exists st',
    COMM_ProcessReceivedData ([0x00; 0x55; 0x56; 0xFF] ++ ping_frame)
      (Z.of_nat (length ([0x00; 0x55; 0x56; 0xFF] ++ ping_frame)))
      (rx_init, sys_init)
    = Some (st',
            set_commandQueue
              (osMessageQueuePut commandQueue_capacity (commandQueue sys_init)
                 (Command.of_bytes ping_frame)) sys_init)
    /\ rx_idle st'.
Proof.
  apply (rx_resynchronises_after_noise [0x00; 0x55; 0x56; 0xFF] ping_frame
           rx_init sys_init);
    [exact rx_init_idle | | reflexivity | reflexivity | reflexivity
    | reflexivity].
  repeat (constructor; [discriminate |]). constructor.
Defined.

(** X10.  One stray 0xAA directly in front of a frame loses the frame: the
    parser takes the stray byte for the first sync byte, rejects the
    frame's own 0xAA as a frame kind, and then discards the rest of the
    frame byte by byte (as long as the rest holds no further 0xAA).
    Nothing reaches the command queue and no fault is recorded. *)
Theorem rx_stray_sync_loses_frame (rest : list Z) (st : RxState) (s : Sys) :
  rx_idle st ->
  Forall (fun b => b <> 0xAA) rest ->
  Z.of_nat (length (0xAA :: 0xAA :: 0x56 :: rest)) < 65536 ->
  exists st',
    COMM_ProcessReceivedData (0xAA :: 0xAA :: 0x56 :: rest)
      (Z.of_nat (length (0xAA :: 0xAA :: 0x56 :: rest))) (st, s)
    = Some (st', s)
    /\ rx_idle st'.
Proof.
  intros Hidle Hr _.
  rewrite COMM_ProcessReceivedData_all by lia.
  pose proof Hidle as (Hlen & Hi & He).
  cbn [rx_bytes]. rewrite rx_byte_sync1 by exact Hidle.
  change (170 =? 170) with true. cbn beta iota.
  rewrite rx_byte_kind by (cbn; rewrite ?length_insert; trivial).
  change (170 =? 85) with false. change (170 =? 86) with false.
  cbn [orb rx_buffer rx_index expected_length packet_type].
  apply (rx_bytes_garbage (0x56 :: rest)).
  - repeat split; cbn. rewrite !length_insert. exact Hlen.
  - constructor; [discriminate | exact Hr].
Qed.

Lemma rx_stray_sync_loses_frame_witness :
  exists st',
    COMM_ProcessReceivedData (0xAA :: 0xAA :: 0x56 :: drop 2 ping_frame)
      (Z.of_nat (length (0xAA :: 0xAA :: 0x56 :: drop 2 ping_frame)))
      (rx_init, sys_init)
    = Some (st', sys_init)
    /\ rx_idle st'.
Proof.
  apply (rx_stray_sync_loses_frame (drop 2 ping_frame) rx_init sys_init);
    [exact rx_init_idle | | reflexivity].
  unfold ping_frame. cbn [app replicate drop skipn].
  repeat (constructor; [discriminate |]). constructor.
Defined.

(** *** Reception through the interrupt *)

(** An interrupt on [huart1] is one parser step on the buffer whose first
    cell already holds the received byte. *)
Lemma HAL_UART_RxCpltCallback_step b st s :
  length (rx_buffer st) = Z.to_nat UART_RX_BUFFER_SIZE ->
  HAL_UART_RxCpltCallback huart1 b (st, s)
  = rx_byte b ({| rx_buffer := <[0%nat:=b]> (rx_buffer st);
                  rx_index := rx_index st;
                  expected_length := expected_length st;
                  packet_type := packet_type st |}, s).
Proof.
  intros Hlen. cbn [HAL_UART_RxCpltCallback]. unfold COMM_ProcessReceivedData.
  cbn [rx_buffer]. unfold UART_RX_BUFFER_SIZE in Hlen.
  destruct (rx_buffer st) as [| x l]; cbn [length] in Hlen; [lia |].
  change (take (Z.to_nat 1) (<[0%nat:=b]> (x :: l))) with [b].
  cbn [rx_bytes]. destruct (rx_byte b _); reflexivity.
Qed.

Lemma drop_1_take_S_insert (buf : list Z) (k : nat) b :
  (1 <= k < length buf)%nat ->
  drop 1 (take (S k) (<[k:=b]> (<[0%nat:=b]> buf)))
  = drop 1 (take k buf) ++ [b].
Proof.
  intros Hk. rewrite take_S_insert by (rewrite length_insert; lia).
  rewrite take_insert_lt by lia.
  destruct (take k buf) as [| x l] eqn:E.
  - apply (f_equal length) in E. rewrite length_take in E. cbn in E. lia.
  - reflexivity.
Qed.

(** Bytes in the middle of a frame, received one interrupt at a time:
    each lands behind the stored ones, and each also overwrites cell 0. *)
Lemma rx_interrupts_accumulate (data : list Z) st s :
  length (rx_buffer st) = Z.to_nat UART_RX_BUFFER_SIZE ->
  2 <= rx_index st ->
  rx_index st + Z.of_nat (length data) < expected_length st ->
  expected_length st <= UART_RX_BUFFER_SIZE ->
  exists st',
    rx_run (map (RxInterrupt huart1) data) (st, s) = Some (st', s)
    /\ rx_index st' = rx_index st + Z.of_nat (length data)
    /\ expected_length st' = expected_length st
    /\ packet_type st' = packet_type st
    /\ length (rx_buffer st') = Z.to_nat UART_RX_BUFFER_SIZE
    /\ drop 1 (take (Z.to_nat (rx_index st')) (rx_buffer st'))
       = drop 1 (take (Z.to_nat (rx_index st)) (rx_buffer st)) ++ data.
Proof.
  revert st. induction data as [| b data IH]; intros st Hlen H2 Hlt Hle.
  - exists st. cbn [map rx_run length Z.of_nat].
    rewrite Z.add_0_r, app_nil_r. repeat split; trivial.
  - cbn [map rx_run rx_feed]. cbn [length] in Hlt.
    rewrite HAL_UART_RxCpltCallback_step by exact Hlen.
    rewrite rx_byte_accumulate by (cbn; lia).
    cbn [rx_buffer rx_index expected_length packet_type].
    set (st1 := {| rx_buffer := <[Z.to_nat (rx_index st):=b]>
                                  (<[0%nat:=b]> (rx_buffer st)) |}).
    destruct (IH st1) as (st' & E & Hi & He & Ht & Hl & Hb).
    + cbn. rewrite !length_insert. exact Hlen.
    + cbn. lia.
    + cbn. lia.
    + cbn. exact Hle.
    + exists st'. cbn in Hi, He, Ht, Hb. cbn [length].
      repeat split; trivial; try lia.
      rewrite Hb. replace (Z.to_nat (rx_index st + 1))
        with (S (Z.to_nat (rx_index st))) by lia.
      rewrite drop_1_take_S_insert by (unfold UART_RX_BUFFER_SIZE in *; lia).
      rewrite <- app_assoc. reflexivity.
Qed.

(** X11.  A command frame received through the receive-complete interrupt
    of [communication.c] does not arrive as it was sent.  Every received
    byte is first stored in [rx_buffer[0]], so when the frame is complete
    the first byte of the buffer is the last byte of the frame: the packet
    offered to the command queue has [sync1] equal to the last checksum
    byte.  Unless that byte happens to be 0xAA, [ProcessCommand] then drops
    the packet for its sync bytes, without any error flag. *)
Theorem rx_interrupt_overwrites_sync1
    (ERROR_UNKNOWN_COMMAND : Z) (body : list Z) (last : Z)
    (st : RxState) (s : Sys) :
  rx_idle st -> length body = 70%nat ->
  let sent := 0xAA :: 0x56 :: body ++ [last] in
  let queued := Command.of_bytes (last :: 0x56 :: body ++ [last]) in
  exists st',
    rx_run (map (RxInterrupt huart1) sent) (st, s)
    = Some (st',
            set_commandQueue
              (osMessageQueuePut commandQueue_capacity (commandQueue s) queued)
              s)
    /\ rx_idle st'
    /\ Command.sync1 queued = last
    /\ (last <> 0xAA ->
        forall s0,
          let s1 := ProcessCommand ERROR_UNKNOWN_COMMAND queued s0 in
          trace s1 = trace s0 /\ current_telemetry s1 = current_telemetry s0
          /\ system_state s1 = system_state s0).
Proof.
  intros Hidle Hbody. cbv zeta.
  pose proof Hidle as (Hlen & Hi & He).
  cbn [map rx_run rx_feed].
  (* first sync byte *)
  rewrite HAL_UART_RxCpltCallback_step by exact Hlen.
  rewrite rx_byte_sync1
    by (repeat split; cbn; rewrite ?length_insert; assumption).
  change (170 =? 170) with true. cbn beta iota.
  cbn [rx_buffer rx_index expected_length packet_type].
  (* frame kind *)
  rewrite HAL_UART_RxCpltCallback_step
    by (cbn; rewrite !length_insert; exact Hlen).
  rewrite rx_byte_kind by (cbn; rewrite ?length_insert; trivial).
  change (86 =? 85) with false. change (86 =? 86) with true.
  cbn [orb rx_buffer rx_index expected_length packet_type].
  set (st2 := {| rx_buffer := <[1%nat:=86]> _ |}).
  assert (H2 : rx_index st2 = 2
               /\ expected_length st2 = sizeof_CommandPacket_t
               /\ packet_type st2 = 2
               /\ length (rx_buffer st2) = Z.to_nat UART_RX_BUFFER_SIZE
               /\ drop 1 (take 2 (rx_buffer st2)) = [86]).
  { subst st2. cbn [rx_buffer rx_index expected_length packet_type].
    rewrite !length_insert. repeat split; trivial.
    unfold UART_RX_BUFFER_SIZE in Hlen.
    destruct (rx_buffer st) as [| x [| y l]]; cbn [length] in Hlen; try lia.
    reflexivity. }
  clearbody st2. destruct H2 as (Hi2 & He2 & Ht2 & Hl2 & Hb2).
  (* body and last byte *)
  rewrite map_app, <- (app_nil_r (map _ [last])).
  assert (Hrun : forall l1 l2 c,
             rx_run (l1 ++ l2) c
             = match rx_run l1 c with
               | Some c' => rx_run l2 c'
               | None => None
               end).
  { induction l1 as [| i l1 IH]; intros l2 c; [reflexivity |].
    cbn [app rx_run]. destruct (rx_feed i c); [apply IH | reflexivity]. }
  rewrite Hrun.
  destruct (rx_interrupts_accumulate body st2 s)
    as (st3 & E & Hi3 & He3 & Ht3 & Hl3 & Hb3);
    try (rx_consts; lia).
  rewrite E. rewrite app_nil_r. cbn [map rx_run rx_feed].
  rewrite HAL_UART_RxCpltCallback_step by exact Hl3.
  rewrite rx_byte_complete by (cbn; rx_consts; lia).
  cbn [rx_buffer rx_index expected_length packet_type].
  rewrite Ht3, Ht2. change (2 =? 2) with true. cbn beta iota.
  set (buf := <[Z.to_nat (rx_index st3):=last]> (<[0%nat:=last]> (rx_buffer st3))).
  assert (Hbuf : take (Z.to_nat sizeof_CommandPacket_t) buf
                 = last :: 0x56 :: body ++ [last]).
  { subst buf. replace (Z.to_nat sizeof_CommandPacket_t)
      with (S (Z.to_nat (rx_index st3))) by (rx_consts; lia).
    rewrite take_S_insert by (rewrite length_insert; rx_consts; lia).
    rewrite take_insert_lt by (rx_consts; lia).
    rewrite Hi2 in Hb3. change (Z.to_nat 2) with 2%nat in Hb3.
    rewrite Hb2 in Hb3.
    destruct (take (Z.to_nat (rx_index st3)) (rx_buffer st3)) as [| x l] eqn:Et.
    - apply (f_equal length) in Et. rewrite length_take in Et.
      cbn in Et. rx_consts. lia.
    - cbn in Hb3. rewrite drop_0 in Hb3. subst l. reflexivity. }
  assert (Hq : Command.of_bytes buf
               = Command.of_bytes (last :: 0x56 :: body ++ [last])).
  { rewrite <- (of_bytes_take buf), Hbuf. reflexivity. }
  rewrite Hq.
  eexists. split; [reflexivity |].
  split; [repeat split; cbn; subst buf; rewrite !length_insert; exact Hl3 |].
  split; [reflexivity |].
  intros Hne s0. cbv zeta. unfold ProcessCommand.
  change (Command.sync1 (Command.of_bytes (last :: 86 :: body ++ [last])))
    with last.
  destruct (Z.eqb_spec last 170); [contradiction |].
  repeat split.
Qed.

Lemma rx_interrupt_overwrites_sync1_witness :
  exists st',
    rx_run (map (RxInterrupt huart1) (0xAA :: 0x56 :: ping_body ++ [0xFE]))
      (rx_init, sys_init)
    = Some (st',
            set_commandQueue
              (osMessageQueuePut commandQueue_capacity (commandQueue sys_init)
                 (Command.of_bytes (0xFE :: 0x56 :: ping_body ++ [0xFE])))
              sys_init)
    /\ rx_idle st'.
Proof.
  destruct (rx_interrupt_overwrites_sync1 SAMPLE_UNKNOWN_COMMAND ping_body
              0xFE rx_init sys_init rx_init_idle eq_refl)
    as (st' & E & Hidle & _).
  exists st'. split; [exact E | exact Hidle].
Defined.

(** The frame of the witness is [ping_frame], and received through the
    interrupt it is ignored by the next pass of [CommTask]. *)
Example ping_lost_on_interrupt_path :
  0xAA :: 0x56 :: ping_body ++ [0xFE] = ping_frame
  /\ match rx_run (map (RxInterrupt huart1) ping_frame) (rx_init, sys_init) with
     | Some (_, s) =>
         trace (fst (CommTask_iteration SAMPLE_UNKNOWN_COMMAND 0 s))
         = [EvDelay 100]
     | None => False
     end.
Proof. split; [reflexivity | vm_compute; reflexivity]. Qed.

(** ** Beacon *)

(** X12.  The beacon is six bytes on [huart2]: 0xAA, 0x59, the operating
    mode, the low byte of the boot counter, and the battery voltage high
    byte first; the voltage can be read back from the last two bytes. *)
Theorem COMM_SendBeacon_layout (s : Sys) :
  0 <= system_state s < 256 ->
  0 <= Telemetry.battery_voltage (current_telemetry s) < 65536 ->
  let frame := beacon_frame s in
  trace (COMM_SendBeacon s) = trace s ++ [EvUartTransmit huart2 frame]
  /\ length frame = 6%nat
  /\ all_bytes frame
  /\ nth 0 frame 0 = 0xAA /\ nth 1 frame 0 = 0x59
  /\ nth 2 frame 0 = system_state s
  /\ nth 3 frame 0 = boot_count s mod 256
  /\ 256 * nth 4 frame 0 + nth 5 frame 0
     = Telemetry.battery_voltage (current_telemetry s).
Proof.
  intros Hst Hv. cbv zeta. split; [reflexivity |]. unfold beacon_frame.
  set (v := Telemetry.battery_voltage (current_telemetry s)) in *.
  rewrite !u8_land_255.
  assert (Hhi : u8 (Z.shiftr v 8) = v / 256).
  { rewrite Z.shiftr_div_pow2 by lia. change (2 ^ 8) with 256.
    apply u8_small. split; [apply Z.div_pos; lia |].
    apply Z.div_lt_upper_bound; lia. }
  rewrite Hhi.
  split; [reflexivity |].
  assert (Hd : 0 <= v / 256 < 256).
  { split; [apply Z.div_pos; lia | apply Z.div_lt_upper_bound; lia]. }
  pose proof (Z.mod_pos_bound v 256 ltac:(lia)).
  pose proof (Z.mod_pos_bound (boot_count s) 256 ltac:(lia)).
  split.
  - unfold all_bytes. repeat (apply List.Forall_cons; [lia |]).
    apply List.Forall_nil.
  - repeat split. cbn [nth]. pose proof (Z.div_mod v 256). lia.
Qed.

Lemma COMM_SendBeacon_layout_witness :
  256 * nth 4 (beacon_frame (sys_at STATE_IDLE 0 3712 F32_25)) 0
  + nth 5 (beacon_frame (sys_at STATE_IDLE 0 3712 F32_25)) 0
  = Telemetry.battery_voltage
      (current_telemetry (sys_at STATE_IDLE 0 3712 F32_25)).
Proof.
  apply (COMM_SendBeacon_layout (sys_at STATE_IDLE 0 3712 F32_25)).
  - split; [discriminate | reflexivity].
  - split; [discriminate | reflexivity].
Defined.

(** ** Battery measurement *)

(** X13.  For every 12-bit ADC sample the battery voltage is
    [sample * 6600 / 4096] millivolts, computed without wrap-around and at
    most 6598; it is below the critical threshold exactly for samples up to
    2110.  A conversion that does not complete reads as 0 mV. *)
Theorem Read_Battery_Voltage_range (adc_value : Z) :
  0 <= adc_value <= 4095 ->
  Read_Battery_Voltage (Some adc_value) = adc_value * 6600 / 4096
  /\ 0 <= Read_Battery_Voltage (Some adc_value) <= 6598
  /\ (Read_Battery_Voltage (Some adc_value) < BATTERY_CRITICAL
      <-> adc_value <= 2110)
  /\ Read_Battery_Voltage None = 0.
Proof.
  intros H. unfold Read_Battery_Voltage, BATTERY_CRITICAL.
  assert (E : u16 (u32 (u32 (adc_value * 3300) * 2) / 4096)
              = adc_value * 6600 / 4096).
  { unfold u32. rewrite (Z.mod_small (adc_value * 3300)) by lia.
    rewrite Z.mod_small by lia.
    replace (adc_value * 3300 * 2) with (adc_value * 6600) by lia.
    apply u16_small. split; [apply Z.div_pos; lia |].
    apply Z.div_lt_upper_bound; lia. }
  rewrite E.
  split; [reflexivity |].
  split; [split; [apply Z.div_pos; lia |] |].
  - assert (adc_value * 6600 / 4096 < 6599)
      by (apply Z.div_lt_upper_bound; lia). lia.
  - split; [| reflexivity]. split; intros Hc.
    + destruct (Z.le_gt_cases adc_value 2110) as [? | Hgt]; [assumption |].
      assert (3400 <= adc_value * 6600 / 4096)
        by (apply Z.div_le_lower_bound; lia). lia.
    + apply Z.div_lt_upper_bound; lia.
Qed.

Lemma Read_Battery_Voltage_range_witness :
  Read_Battery_Voltage (Some 2110) = 2110 * 6600 / 4096
  /\ 0 <= Read_Battery_Voltage (Some 2110) <= 6598
  /\ (Read_Battery_Voltage (Some 2110) < BATTERY_CRITICAL <-> 2110 <= 2110)
  /\ Read_Battery_Voltage None = 0.
Proof. apply (Read_Battery_Voltage_range 2110). lia. Defined.

Lemma WatchdogTask_low_battery s :
  Telemetry.battery_voltage (current_telemetry s) < BATTERY_CRITICAL ->
  shutdown_invocations (trace (WatchdogTask_iteration s))
  = S (shutdown_invocations (trace s))
  /\ safing (system_state (WatchdogTask_iteration s)).
Proof.
  intros Hv. unfold WatchdogTask_iteration, safing.
  destruct (Z.ltb_spec (Telemetry.battery_voltage (current_telemetry s))
              BATTERY_CRITICAL) as [_ | Hge]; [| lia].
  destruct (_ || _); cbn - [shutdown_invocations];
    rewrite <- !app_assoc, !shutdown_invocations_app; cbn; split; auto; lia.
Qed.

Lemma WatchdogTask_low_battery_state s :
  Telemetry.battery_voltage (current_telemetry s) < BATTERY_CRITICAL ->
  system_state (WatchdogTask_iteration s)
  = (if temperature_out_of_range s then STATE_SAFE else STATE_LOW_POWER).
Proof.
  intros Hv. unfold WatchdogTask_iteration, temperature_out_of_range.
  destruct (Z.ltb_spec (Telemetry.battery_voltage (current_telemetry s))
              BATTERY_CRITICAL) as [_ | Hge]; [| lia].
  cbn.
  destruct (_ || _); reflexivity.
Qed.

(** X14.  A battery measurement that fails is taken for 0 mV, and 0 mV is
    below the critical threshold: after a sensor pass whose ADC conversion
    did not complete, the next watchdog pass shuts the payload down once
    and leaves the system in LowPower; only if the temperature stored by
    that sensor pass is out of range does the temperature rule of the same
    watchdog pass turn that into Safe. *)
Theorem failed_ADC_forces_low_power
    (inp : SensorInputs) (sequence : Z) (s : Sys) :
  adc1 inp = None ->
  let s1 := fst (SensorTask_iteration inp sequence s) in
  let s2 := WatchdogTask_iteration s1 in
  Telemetry.battery_voltage (current_telemetry s1) = 0
  /\ shutdown_invocations (trace s2) = S (shutdown_invocations (trace s1))
  /\ system_state s2
     = (if temperature_out_of_range s1 then STATE_SAFE else STATE_LOW_POWER).
Proof.
  intros Hadc. cbv zeta.
  assert (Hv : Telemetry.battery_voltage
                 (current_telemetry (fst (SensorTask_iteration inp sequence s)))
               = 0).
  { unfold SensorTask_iteration. rewrite Hadc.
    destruct (lis3mdl inp) as [[[? ?] ?] |], (bme280 inp) as [[[? ?] ?] |],
      (tmp117 inp); reflexivity. }
  split; [exact Hv |].
  split.
  - apply WatchdogTask_low_battery. rewrite Hv. reflexivity.
  - apply WatchdogTask_low_battery_state. rewrite Hv. reflexivity.
Qed.

Lemma failed_ADC_forces_low_power_witness :
  Telemetry.battery_voltage
    (current_telemetry
       (fst (SensorTask_iteration failed_inputs 0
               (sys_at STATE_NOMINAL 0 3700 F32_25))))
  = 0
  /\ shutdown_invocations
       (trace (WatchdogTask_iteration
                 (fst (SensorTask_iteration failed_inputs 0
                         (sys_at STATE_NOMINAL 0 3700 F32_25)))))
     = S (shutdown_invocations
            (trace (fst (SensorTask_iteration failed_inputs 0
                           (sys_at STATE_NOMINAL 0 3700 F32_25)))))
  /\ system_state
       (WatchdogTask_iteration
          (fst (SensorTask_iteration failed_inputs 0
                  (sys_at STATE_NOMINAL 0 3700 F32_25))))
     = (if temperature_out_of_range
             (fst (SensorTask_iteration failed_inputs 0
                     (sys_at STATE_NOMINAL 0 3700 F32_25)))
        then STATE_SAFE else STATE_LOW_POWER).
Proof.
  apply (failed_ADC_forces_low_power failed_inputs 0
           (sys_at STATE_NOMINAL 0 3700 F32_25)).
  reflexivity.
Defined.

Example failed_ADC_states :
  system_state
    (WatchdogTask_iteration
       (fst (SensorTask_iteration failed_inputs 0
               (sys_at STATE_NOMINAL 0 3700 F32_25)))) = STATE_LOW_POWER
  /\ system_state
       (WatchdogTask_iteration
          (fst (SensorTask_iteration failed_inputs 0
                  (sys_at STATE_NOMINAL 0 3700 F32_71)))) = STATE_SAFE.
Proof. vm_compute. split; reflexivity. Qed.

(** ** Sensor pass *)

Lemma MCP3008_result_bound rx1 rx2 :
  0 <= rx2 < 256 ->
  0 <= Z.lor (Z.shiftl (Z.land rx1 0x03) 8) rx2 < 1024.
Proof.
  intros H2.
  assert (H1 : 0 <= Z.land rx1 3 < 4).
  { change 3 with (Z.ones 2). rewrite Z.land_ones by lia.
    apply Z.mod_pos_bound. lia. }
  rewrite Z.shiftl_mul_pow2 by lia. change (2 ^ 8) with 256.
  set (a := Z.land rx1 3 * 256).
  assert (Ha : 0 <= a < 1024) by (subst a; lia).
  split; [apply Z.lor_nonneg; lia |].
  destruct (Z.eq_dec (Z.lor a rx2) 0) as [-> | Hnz]; [lia |].
  assert (Hpos : 0 < Z.lor a rx2).
  { assert (0 <= Z.lor a rx2) by (apply Z.lor_nonneg; lia). lia. }
  apply Z.log2_lt_pow2 with (b := 10); [exact Hpos |].
  rewrite Z.log2_lor by lia.
  apply Z.max_lub_lt.
  - destruct (Z.eq_dec a 0) as [-> | ?]; [reflexivity |].
    apply Z.log2_lt_pow2; lia.
  - destruct (Z.eq_dec rx2 0) as [-> | ?]; [reflexivity |].
    apply Z.log2_lt_pow2; lia.
Qed.

(** X15.  Whatever the SPI transfer clocks in, the corrosion value stored
    by a sensor pass is a 10-bit number. *)
Theorem corrosion_raw_is_10_bit
    (inp : SensorInputs) (sequence : Z) (s : Sys) :
  0 <= snd (mcp3008 inp) < 256 ->
  0 <= Telemetry.corrosion_raw
         (current_telemetry (fst (SensorTask_iteration inp sequence s)))
    < 1024.
Proof.
  intros H.
  assert (E : Telemetry.corrosion_raw
                (current_telemetry (fst (SensorTask_iteration inp sequence s)))
              = u16 (Z.lor (Z.shiftl (Z.land (fst (mcp3008 inp)) 0x03) 8)
                           (snd (mcp3008 inp)))).
  { unfold SensorTask_iteration.
    destruct (lis3mdl inp) as [[[? ?] ?] |], (bme280 inp) as [[[? ?] ?] |],
      (tmp117 inp); reflexivity. }
  rewrite E.
  pose proof (MCP3008_result_bound (fst (mcp3008 inp)) (snd (mcp3008 inp)) H).
  rewrite u16_small by lia. lia.
Qed.

Lemma corrosion_raw_is_10_bit_witness :
  0 <= Telemetry.corrosion_raw
         (current_telemetry
            (fst (SensorTask_iteration
                    {| lis3mdl := None; bme280 := None; tmp117 := None;
                       mcp3008 := (0xFF, 0xFF); adc1 := None |} 0 sys_init)))
    < 1024.
Proof.
  apply (corrosion_raw_is_10_bit
           {| lis3mdl := None; bme280 := None; tmp117 := None;
              mcp3008 := (0xFF, 0xFF); adc1 := None |} 0 sys_init).
  cbn. lia.
Defined.

(** X16.  When the three I2C drivers fail, a sensor pass keeps the previous
    magnetometer, environmental and temperature values in the shared
    record, queues and numbers the packet as usual, and records no fault:
    the error flags are the same after every sensor pass, failed or not. *)
Theorem SensorTask_failures_unreported
    (inp : SensorInputs) (sequence : Z) (s : Sys) :
  let s' := fst (SensorTask_iteration inp sequence s) in
  let t := current_telemetry s in
  let t' := current_telemetry s' in
  flags s' = flags s
  /\ Telemetry.sequence_number t' = sequence
  /\ snd (SensorTask_iteration inp sequence s) = u16 (sequence + 1)
  /\ (lis3mdl inp = None ->
      Telemetry.mag_x t' = Telemetry.mag_x t
      /\ Telemetry.mag_y t' = Telemetry.mag_y t
      /\ Telemetry.mag_z t' = Telemetry.mag_z t)
  /\ (bme280 inp = None ->
      Telemetry.temperature_bme t' = Telemetry.temperature_bme t
      /\ Telemetry.pressure t' = Telemetry.pressure t
      /\ Telemetry.humidity t' = Telemetry.humidity t)
  /\ (tmp117 inp = None ->
      Telemetry.temperature_tmp t' = Telemetry.temperature_tmp t).
Proof.
  cbv zeta. unfold SensorTask_iteration.
  destruct (lis3mdl inp) as [[[? ?] ?] |], (bme280 inp) as [[[? ?] ?] |],
    (tmp117 inp); cbn; repeat split; intros; try discriminate; reflexivity.
Qed.

Lemma SensorTask_failures_unreported_witness :
  Telemetry.temperature_bme
    (current_telemetry
       (fst (SensorTask_iteration failed_inputs 0
               (sys_at STATE_NOMINAL 0 3700 F32_71))))
  = Telemetry.temperature_bme
      (current_telemetry (sys_at STATE_NOMINAL 0 3700 F32_71))
  /\ Telemetry.pressure
       (current_telemetry
          (fst (SensorTask_iteration failed_inputs 0
                  (sys_at STATE_NOMINAL 0 3700 F32_71))))
     = Telemetry.pressure
         (current_telemetry (sys_at STATE_NOMINAL 0 3700 F32_71))
  /\ Telemetry.humidity
       (current_telemetry
          (fst (SensorTask_iteration failed_inputs 0
                  (sys_at STATE_NOMINAL 0 3700 F32_71))))
     = Telemetry.humidity
         (current_telemetry (sys_at STATE_NOMINAL 0 3700 F32_71)).
Proof.
  apply (proj1 (proj2 (proj2 (proj2 (proj2
           (SensorTask_failures_unreported failed_inputs 0
              (sys_at STATE_NOMINAL 0 3700 F32_71))))))).
  reflexivity.
Defined.

(** ** Watchdog pass *)

Lemma iwdg_refreshes_app tr1 tr2 :
  iwdg_refreshes (tr1 ++ tr2) = (iwdg_refreshes tr1 + iwdg_refreshes tr2)%nat.
Proof.
  unfold iwdg_refreshes. rewrite List.filter_app, length_app. reflexivity.
Qed.

Lemma WatchdogTask_once s :
  iwdg_refreshes (trace (WatchdogTask_iteration s))
  = S (iwdg_refreshes (trace s))
  /\ system_uptime (WatchdogTask_iteration s) = u32 (system_uptime s + 5).
Proof.
  unfold WatchdogTask_iteration.
  destruct (_ <? _), (_ || _); cbn - [iwdg_refreshes];
    rewrite <- ?app_assoc, !iwdg_refreshes_app; cbn; split;
    (lia || reflexivity).
Qed.

(** X17.  Every watchdog pass refreshes the hardware watchdog exactly once
    and adds 5 to the uptime, whichever safety rule fires: after [n] passes
    there are [n] more refreshes and the uptime has advanced by [5 n]
    modulo 2^32. *)
Theorem WatchdogTask_refreshes_every_pass (n : nat) (s : Sys) :
  iwdg_refreshes (trace (Nat.iter n WatchdogTask_iteration s))
  = (iwdg_refreshes (trace s) + n)%nat
  /\ u32 (system_uptime (Nat.iter n WatchdogTask_iteration s))
     = u32 (system_uptime s + 5 * Z.of_nat n).
Proof.
  induction n as [| n [IH1 IH2]].
  - cbn. split; [lia | f_equal; lia].
  - rewrite Nat.iter_succ.
    destruct (WatchdogTask_once (Nat.iter n WatchdogTask_iteration s))
      as [H1 H2].
    rewrite H1, H2, IH1. split; [lia |].
    unfold u32 in *. rewrite Z.mod_mod by lia.
    rewrite <- Z.add_mod_idemp_l, IH2, Z.add_mod_idemp_l by lia.
    f_equal. lia.
Qed.

Lemma f32_nan_compare w x :
  f32_is_nan w = true ->
  f32_gt w x = false /\ f32_lt w x = false.
Proof.
  unfold f32_is_nan, f32_gt, f32_lt, f32_of_bits. intros H.
  apply andb_true_iff in H. destruct H as [He Hm].
  apply negb_true_iff in Hm.
  rewrite He, Hm.
  destruct (Z.eqb_spec (Z.land (Z.shiftr w 23) 255) 0) as [E0 | _].
  - apply Z.eqb_eq in He. lia.
  - split; reflexivity.
Qed.

(** X18.  A temperature reading that is a NaN never triggers the
    temperature rule: both comparisons are false, so the watchdog pass
    neither enters Safe on its account nor logs the temperature error,
    whatever the real temperature is. *)
Theorem WatchdogTask_ignores_NaN (s : Sys) :
  f32_is_nan (Telemetry.temperature_bme (current_telemetry s)) = true ->
  temperature_out_of_range s = false
  /\ flags (WatchdogTask_iteration s) = flags s
  /\ system_state (WatchdogTask_iteration s)
     = (if Telemetry.battery_voltage (current_telemetry s) <? BATTERY_CRITICAL
        then STATE_LOW_POWER else system_state s).
Proof.
  intros Hn.
  destruct (f32_nan_compare _ F32_70 Hn) as [Hgt _].
  destruct (f32_nan_compare _ F32_minus_20 Hn) as [_ Hlt].
  unfold temperature_out_of_range, WatchdogTask_iteration.
  rewrite Hgt, Hlt. split; [reflexivity |].
  destruct (_ <? _); cbn; rewrite ?Hgt, ?Hlt; split; reflexivity.
Qed.

Lemma WatchdogTask_ignores_NaN_witness :
  temperature_out_of_range (sys_at STATE_NOMINAL 0 3700 0x7FC00000) = false
  /\ flags (WatchdogTask_iteration (sys_at STATE_NOMINAL 0 3700 0x7FC00000))
     = flags (sys_at STATE_NOMINAL 0 3700 0x7FC00000)
  /\ system_state
       (WatchdogTask_iteration (sys_at STATE_NOMINAL 0 3700 0x7FC00000))
     = STATE_NOMINAL.
Proof.
  apply (WatchdogTask_ignores_NaN (sys_at STATE_NOMINAL 0 3700 0x7FC00000)).
  reflexivity.
Defined.

(** X19.  Nothing but a command leads out of Safe or LowPower.  A step of
    the firmware that dispatches no command (any step other than a pass of
    [CommTask], or a pass of [CommTask] that finds the command queue empty)
    keeps a system that is in Safe or LowPower in Safe or LowPower; so does
    any sequence of steps without a pass of [CommTask]. *)
Theorem no_automatic_recovery (ERROR_UNKNOWN_COMMAND : Z) (f : Firmware) :
  safing (system_state (sys f)) ->
  (forall o,
      o <> OpCommTask \/ commandQueue (sys f) = [] ->
      safing (system_state (sys (exec ERROR_UNKNOWN_COMMAND o f))))
  /\ (forall ops,
      Forall (fun o => o <> OpCommTask) ops ->
      safing (system_state (sys (run ERROR_UNKNOWN_COMMAND ops f)))).
Proof.
  assert (Hstep : forall f o,
             safing (system_state (sys f)) ->
             o <> OpCommTask \/ commandQueue (sys f) = [] ->
             safing (system_state (sys (exec ERROR_UNKNOWN_COMMAND o f)))).
  { clear f. intros f o Hs Ho. unfold exec.
    destruct (mcu_reset (sys f)); [exact Hs |].
    destruct o as [inp | | | | pin | data n | h received | |].
    - assert (E : system_state (fst (SensorTask_iteration inp (sequence f) (sys f)))
                  = system_state (sys f)).
      { unfold SensorTask_iteration.
        destruct (lis3mdl inp) as [[[? ?] ?] |], (bme280 inp) as [[[? ?] ?] |],
          (tmp117 inp); reflexivity. }
      destruct (SensorTask_iteration inp (sequence f) (sys f)) as [s n].
      cbn [sys]. cbn [fst] in E. rewrite E. exact Hs.
    - exact Hs.
    - destruct Ho as [Ho | Hq]; [contradiction |].
      assert (E : system_state
                    (fst (CommTask_iteration ERROR_UNKNOWN_COMMAND
                            (last_beacon f) (sys f)))
                  = system_state (sys f)).
      { unfold CommTask_iteration.
        set (s1 := match osMessageQueueGet (telemetryQueue (sys f)) with
                   | Some _ => _ | None => _ end).
        assert (H1 : system_state s1 = system_state (sys f)
                     /\ commandQueue s1 = []).
        { subst s1. destruct (telemetryQueue (sys f)); cbn; auto. }
        clearbody s1. destruct H1 as [H1 Hq1]. rewrite Hq1.
        cbn [osMessageQueueGet]. destruct (mcu_reset s1); [exact H1 |].
        unfold CommTask_beacon. destruct (_ && _); exact H1. }
      destruct (CommTask_iteration _ _ _) as [s n].
      cbn [sys]. cbn [fst] in E. rewrite E. exact Hs.
    - cbn [sys]. unfold WatchdogTask_iteration, safing.
      destruct (_ <? _), (_ || _); cbn; auto.
    - cbn [sys]. unfold HAL_GPIO_EXTI_Callback.
      destruct (pin =? RADIATION_PIN); exact Hs.
    - destruct (COMM_ProcessReceivedData data n (rxs f, sys f))
        as [[st' s'] |] eqn:E; [| exact Hs].
      destruct (rx_bytes_sys _ _ _ _ _ E) as [q ->]. exact Hs.
    - destruct (HAL_UART_RxCpltCallback h received (rxs f, sys f))
        as [[st' s'] |] eqn:E; [| exact Hs].
      destruct h; cbn [HAL_UART_RxCpltCallback] in E.
      + destruct (rx_bytes_sys _ _ _ _ _ E) as [q ->]. exact Hs.
      + injection E as _ <-. exact Hs.
    - exact Hs.
    - exact Hs. }
  intros Hs. split.
  - intros o Ho. apply Hstep; assumption.
  - intros ops. revert f Hs. induction ops as [| o ops IH]; intros f Hs Hops.
    + exact Hs.
    + apply Forall_cons in Hops. destruct Hops as [Ho Hops].
      cbn [run fold_left]. apply IH; [| exact Hops].
      apply Hstep; [exact Hs | left; exact Ho].
Qed.

Lemma no_automatic_recovery_witness :
  safing
    (system_state
       (sys (run SAMPLE_UNKNOWN_COMMAND
               [OpSensorTask failed_inputs; OpWatchdogTask; OpRadiationTask]
               fw_overheated))).
Proof.
  apply (proj2 (no_automatic_recovery SAMPLE_UNKNOWN_COMMAND fw_overheated
                  (or_introl eq_refl))).
  repeat (constructor; [discriminate |]). constructor.
Defined.

(** ** Error log *)

(** Logging is idempotent and order-independent, and a code whose
    bits are all covered by an earlier code leaves no mark of its own: after
    [LogError a], logging any [b] with [a | b = a] changes nothing (after
    code 0x07, none of the codes 0x01 to 0x07). *)
Theorem LogError_composition (a b : Z) (s : Sys) :
  LogError a (LogError a s) = LogError a s
  /\ LogError b (LogError a s) = LogError a (LogError b s)
  /\ (Z.lor a b = a -> LogError b (LogError a s) = LogError a s).
Proof.
  assert (H : forall x y,
             LogError y (LogError x s)
             = with_telemetry
                 (fun t => Telemetry.set_error_flags
                             (u8 (Z.lor (Telemetry.error_flags t)
                                        (u8 (Z.lor x y)))) t) s).
  { intros x y. unfold LogError, with_telemetry, set_current_telemetry; cbn.
    f_equal. unfold Telemetry.set_error_flags; cbn. f_equal.
    apply u8_lor_assoc. }
  split; [| split].
  - rewrite H, Z.lor_diag. reflexivity.
  - rewrite !H, (Z.lor_comm a b). reflexivity.
  - intros Hc. rewrite H, Hc. reflexivity.
Qed.

Lemma LogError_composition_witness :
  LogError ERROR_TEMPERATURE (LogError ERROR_TASK_HANG sys_init)
  = LogError ERROR_TASK_HANG sys_init.
Proof.
  apply (proj2 (proj2 (LogError_composition ERROR_TASK_HANG ERROR_TEMPERATURE
                         sys_init))).
  reflexivity.
Defined.

(** ** Radiation counter: reset between passes *)

Lemma pulses_count_from_zero n s :
  radiation_pulse_count s = 0 ->
  radiation_pulse_count (pulses n s) = u32 (Z.of_nat n).
Proof.
  intros H0. pose proof (pulses_count n s) as H. rewrite H0 in H.
  rewrite Z.add_0_l in H. rewrite <- H.
  destruct n as [| n]; cbn [pulses].
  - rewrite H0. reflexivity.
  - unfold HAL_GPIO_EXTI_Callback. rewrite Z.eqb_refl.
    cbn [radiation_pulse_count set_radiation_pulse_count].
    unfold u32. rewrite Z.mod_mod by lia. reflexivity.
Qed.

(** X20.  [Reset_Radiation_Counter] does not go together with
    [RadiationTask]: the task keeps its own copy of the last count, so if
    the counter is reset between two passes and [n] pulses then arrive, the
    second pass reports [n] minus the old count, modulo 2^32; with fewer
    new pulses than the old count that is a number close to 2^32. *)
Theorem Reset_Radiation_Counter_breaks_rate (s : Sys) (last0 : Z) (n : nat) :
  0 <= radiation_pulse_count s < 2 ^ 32 ->
  Z.of_nat n < radiation_pulse_count s ->
  let '(s1, last1) := RadiationTask_iteration last0 s in
  let '(s2, _) :=
    RadiationTask_iteration last1 (pulses n (Reset_Radiation_Counter s1)) in
  Telemetry.radiation_cps (current_telemetry s2)
  = 2 ^ 32 - (radiation_pulse_count s - Z.of_nat n).
Proof.
  intros Hc Hn. change (2 ^ 32) with 4294967296 in *.
  cbn [RadiationTask_iteration]. cbv zeta.
  unfold Get_Radiation_Counts.
  rewrite pulses_count_from_zero by reflexivity.
  cbn [current_telemetry with_telemetry emit set_trace set_current_telemetry
       Telemetry.radiation_cps Telemetry.set_radiation_cps
       radiation_pulse_count].
  unfold u32. rewrite Zminus_mod_idemp_l.
  replace (Z.of_nat n - radiation_pulse_count s)
    with (4294967296 - (radiation_pulse_count s - Z.of_nat n)
          + (-1) * 4294967296) by lia.
  rewrite Z_mod_plus_full. apply Z.mod_small. lia.
Qed.

Lemma Reset_Radiation_Counter_breaks_rate_witness :
  let '(s1, last1) :=
    RadiationTask_iteration 0 (set_radiation_pulse_count 100 sys_init) in
  let '(s2, _) :=
    RadiationTask_iteration last1 (pulses 37 (Reset_Radiation_Counter s1)) in
  Telemetry.radiation_cps (current_telemetry s2) = 2 ^ 32 - (100 - 37).
Proof.
  apply (Reset_Radiation_Counter_breaks_rate
           (set_radiation_pulse_count 100 sys_init) 0 37);
    cbn; lia.
Defined.

(** ** Task health (system.c) *)

Lemma SYSTEM_CheckHealth_early run s h :
  u32 (HAL_GetTick s - last_health_check h) <= 60000 ->
  SYSTEM_CheckHealth run s h = h.
Proof.
  intros H. unfold SYSTEM_CheckHealth. cbn zeta.
  destruct (Z.gtb_spec (u32 (HAL_GetTick s - last_health_check h)) 60000);
    [lia | reflexivity].
Qed.

Lemma SYSTEM_CheckHealth_late run s h :
  length (task_health h) = 4%nat ->
  u32 (HAL_GetTick s - last_health_check h) > 60000 ->
  SYSTEM_CheckHealth run s h =
  {| last_health_check := HAL_GetTick s;
     task_health := [Z.b2z (run sensorTask); Z.b2z (run radiationTask);
                     Z.b2z (run commTask); Z.b2z (run watchdogTask)] |}.
Proof.
  intros Hl H. unfold SYSTEM_CheckHealth. cbn zeta.
  destruct (Z.gtb_spec (u32 (HAL_GetTick s - last_health_check h)) 60000);
    [| lia].
  destruct h as [l th]. cbn in Hl |- *.
  destruct th as [| a [| b [| c [| d [| ? ?]]]]]; try discriminate.
  reflexivity.
Qed.

(** X21.  From boot, every health poll made while the tick counter is at
    most 60000 leaves the health record untouched, so
    [SYSTEM_CheckTaskHealth] answers 0 during the first minute whatever the
    tasks do. *)
Theorem SYSTEM_CheckTaskHealth_blind_after_boot
    (polls : list ((task -> bool) * Sys)) :
  Forall (fun p => 0 <= hal_tick (snd p) <= 60000) polls ->
  health_polls polls health_init = health_init /\
  SYSTEM_CheckTaskHealth (health_polls polls health_init) = 0.
Proof.
  intros H.
  assert (E : health_polls polls health_init = health_init).
  { unfold health_polls. induction H as [| [run s] polls Hp _ IH].
    - reflexivity.
    - cbn [fold_left fst snd]. cbn [snd] in Hp.
      rewrite SYSTEM_CheckHealth_early; [exact IH |].
      unfold HAL_GetTick. cbn [last_health_check health_init].
      rewrite Z.sub_0_r. unfold u32. rewrite Z.mod_small by lia. lia. }
  split; [exact E | rewrite E; reflexivity].
Qed.

Lemma SYSTEM_CheckTaskHealth_blind_after_boot_witness :
  health_polls [(fun _ => true, set_hal_tick 1000 sys_init);
                (fun _ => true, set_hal_tick 60000 sys_init)] health_init
  = health_init /\
  SYSTEM_CheckTaskHealth
    (health_polls [(fun _ => true, set_hal_tick 1000 sys_init);
                   (fun _ => true, set_hal_tick 60000 sys_init)] health_init)
  = 0.
Proof.
  apply (SYSTEM_CheckTaskHealth_blind_after_boot
           [(fun _ => true, set_hal_tick 1000 sys_init);
            (fun _ => true, set_hal_tick 60000 sys_init)]).
  repeat (apply List.Forall_cons; [cbn; lia |]). apply List.Forall_nil.
Defined.

(** X22.  A health poll that fires (more than 60000 ticks after the last
    one) makes [SYSTEM_CheckTaskHealth] answer 1 exactly when all four
    tasks were found running; a poll within the next 60000 ticks keeps that
    answer whatever has become of the tasks. *)
Theorem SYSTEM_CheckHealth_verdict_is_latched
    (run1 run2 : task -> bool) (s1 s2 : Sys) (h : HealthState) :
  length (task_health h) = 4%nat ->
  u32 (HAL_GetTick s1 - last_health_check h) > 60000 ->
  u32 (HAL_GetTick s2 - HAL_GetTick s1) <= 60000 ->
  (SYSTEM_CheckTaskHealth (SYSTEM_CheckHealth run1 s1 h) = 1 <->
   forall t, run1 t = true) /\
  SYSTEM_CheckTaskHealth
    (SYSTEM_CheckHealth run2 s2 (SYSTEM_CheckHealth run1 s1 h))
  = SYSTEM_CheckTaskHealth (SYSTEM_CheckHealth run1 s1 h) /\
  last_health_check
    (SYSTEM_CheckHealth run2 s2 (SYSTEM_CheckHealth run1 s1 h))
  = HAL_GetTick s1.
Proof.
  intros Hl H1 H2.
  rewrite (SYSTEM_CheckHealth_late run1 s1 h Hl H1).
  rewrite SYSTEM_CheckHealth_early by exact H2.
  split; [| split; reflexivity].
  unfold SYSTEM_CheckTaskHealth. cbn [task_health nth].
  split.
  - intros H t.
    destruct (run1 sensorTask) eqn:E0, (run1 radiationTask) eqn:E1,
      (run1 commTask) eqn:E2, (run1 watchdogTask) eqn:E3;
      cbn in H; try discriminate.
    destruct t; assumption.
  - intros H. rewrite !H. reflexivity.
Qed.

Lemma SYSTEM_CheckHealth_verdict_is_latched_witness :
  (SYSTEM_CheckTaskHealth
     (SYSTEM_CheckHealth (fun _ => true) (set_hal_tick 60001 sys_init)
        health_init) = 1 <->
   forall t : task, (fun _ : task => true) t = true) /\
  SYSTEM_CheckTaskHealth
    (SYSTEM_CheckHealth (fun _ => false) (set_hal_tick 120001 sys_init)
       (SYSTEM_CheckHealth (fun _ => true) (set_hal_tick 60001 sys_init)
          health_init))
  = SYSTEM_CheckTaskHealth
      (SYSTEM_CheckHealth (fun _ => true) (set_hal_tick 60001 sys_init)
         health_init) /\
  last_health_check
    (SYSTEM_CheckHealth (fun _ => false) (set_hal_tick 120001 sys_init)
       (SYSTEM_CheckHealth (fun _ => true) (set_hal_tick 60001 sys_init)
          health_init))
  = HAL_GetTick (set_hal_tick 60001 sys_init).
Proof.
  apply (SYSTEM_CheckHealth_verdict_is_latched
           (fun _ => true) (fun _ => false)
           (set_hal_tick 60001 sys_init) (set_hal_tick 120001 sys_init)
           health_init).
  - reflexivity.
  - vm_compute. reflexivity.
  - vm_compute. discriminate.
Defined.

(** X23.  The verdict asks for four threads to be in the running state at
    the same instant: when at most one thread is running at a time, a poll
    that fires always makes [SYSTEM_CheckTaskHealth] answer 0. *)
Theorem SYSTEM_CheckTaskHealth_needs_four_running
    (run : task -> bool) (s : Sys) (h : HealthState) :
  length (task_health h) = 4%nat ->
  u32 (HAL_GetTick s - last_health_check h) > 60000 ->
  (forall t t', run t = true -> run t' = true -> t = t') ->
  SYSTEM_CheckTaskHealth (SYSTEM_CheckHealth run s h) = 0.
Proof.
  intros Hl H Hone.
  rewrite (SYSTEM_CheckHealth_late run s h Hl H).
  unfold SYSTEM_CheckTaskHealth. cbn [task_health nth].
  destruct (run sensorTask) eqn:E0; [| reflexivity].
  destruct (run radiationTask) eqn:E1; [| reflexivity].
  specialize (Hone sensorTask radiationTask E0 E1). discriminate.
Qed.

Lemma SYSTEM_CheckTaskHealth_needs_four_running_witness :
  SYSTEM_CheckTaskHealth
    (SYSTEM_CheckHealth
       (fun t => match t with watchdogTask => true | _ => false end)
       (set_hal_tick 60001 sys_init) health_init) = 0.
Proof.
  apply (SYSTEM_CheckTaskHealth_needs_four_running
           (fun t => match t with watchdogTask => true | _ => false end)
           (set_hal_tick 60001 sys_init) health_init).
  - reflexivity.
  - vm_compute. reflexivity.
  - intros [] []; intros; first [reflexivity | discriminate].
Defined.

(** ** Sensor initialisation over I2C (main.c) *)

Lemma is_HAL_OK_false r : r <> HAL_OK -> is_HAL_OK r = false.
Proof. destruct r; [contradiction | reflexivity ..]. Qed.

(** The statuses of the next five transactions, by successor. *)
Lemma status_next (status : nat -> HAL_StatusTypeDef) (c : nat) (P : nat -> Prop) :
  (forall k, P k -> status (c + k)%nat = HAL_OK) ->
  (P 0%nat -> status c = HAL_OK) /\
  (P 1%nat -> status (S c) = HAL_OK) /\
  (P 2%nat -> status (S (S c)) = HAL_OK) /\
  (P 3%nat -> status (S (S (S c))) = HAL_OK) /\
  (P 4%nat -> status (S (S (S (S c)))) = HAL_OK).
Proof.
  intros H.
  repeat split; intros Hp; apply H in Hp; rewrite <- Hp; f_equal; lia.
Qed.

Lemma status_at (status : nat -> HAL_StatusTypeDef) (c j : nat) :
  status (c + j)%nat <> HAL_OK ->
  match j with
  | 0%nat => is_HAL_OK (status c) = false
  | 1%nat => is_HAL_OK (status (S c)) = false
  | 2%nat => is_HAL_OK (status (S (S c))) = false
  | 3%nat => is_HAL_OK (status (S (S (S c)))) = false
  | _ => True
  end.
Proof.
  intros H. apply is_HAL_OK_false in H.
  destruct j as [| [| [| [| j]]]]; try exact I;
    rewrite <- H; do 2 f_equal; lia.
Qed.

(** X24.  [LIS3MDL_Init] writes its four control registers in order and
    gives up at the first write that does not return [HAL_OK]: with the
    first failure at write [j] it returns [HAL_ERROR] after exactly the
    first [j + 1] writes, and with none it returns [HAL_OK] after all
    four. *)
Theorem LIS3MDL_Init_stops_at_first_failure
    (status : nat -> HAL_StatusTypeDef) (b : I2c) (j : nat) :
  (forall k, (k < j)%nat -> status (i2c_calls b + k)%nat = HAL_OK) ->
  ((j < 4)%nat -> status (i2c_calls b + j)%nat <> HAL_OK ->
   LIS3MDL_Init status b =
   (HAL_ERROR, {| i2c_calls := i2c_calls b + S j;
                  i2c_log := i2c_log b ++ take (S j) LIS3MDL_writes |})) /\
  ((4 <= j)%nat ->
   LIS3MDL_Init status b =
   (HAL_OK, {| i2c_calls := i2c_calls b + 4;
               i2c_log := i2c_log b ++ LIS3MDL_writes |})).
Proof.
  intros Hok. destruct b as [c l]. cbn [i2c_calls i2c_log] in *.
  destruct (status_next status c _ Hok) as (H0 & H1 & H2 & H3 & _).
  unfold LIS3MDL_Init, HAL_I2C_Mem_Write. cbn [i2c_calls i2c_log].
  rewrite <- !app_assoc. cbn [app].
  split.
  - intros Hj Hbad. apply status_at in Hbad.
    destruct j as [| [| [| [| j]]]]; [| | | | lia].
    + rewrite Hbad. cbn. repeat f_equal; lia.
    + rewrite H0 by lia. cbn. rewrite Hbad. cbn. repeat f_equal; lia.
    + rewrite H0, H1 by lia. cbn. rewrite Hbad. cbn. repeat f_equal; lia.
    + rewrite H0, H1, H2 by lia. cbn. rewrite Hbad. cbn.
      repeat f_equal; lia.
  - intros Hj. rewrite H0, H1, H2, H3 by lia. cbn. repeat f_equal; lia.
Qed.

Lemma LIS3MDL_Init_stops_at_first_failure_witness :
  LIS3MDL_Init (fails_at 2) i2c_idle =
  (HAL_ERROR, {| i2c_calls := 3;
                 i2c_log := [BusMemWrite LIS3MDL_ADDR 0x20 0x70;
                             BusMemWrite LIS3MDL_ADDR 0x21 0x00;
                             BusMemWrite LIS3MDL_ADDR 0x22 0x00] |}).
Proof.
  apply (LIS3MDL_Init_stops_at_first_failure (fails_at 2) i2c_idle 2).
  - intros k Hk. destruct k as [| [| k]]; [reflexivity | reflexivity | lia].
  - lia.
  - discriminate.
Defined.

(** X25.  [BME280_Init] resets the sensor, waits 10 ms, then writes the
    humidity control before the measurement control and the configuration;
    it gives up at the first write that does not return [HAL_OK], and a
    failed reset is followed by no wait and no write. *)
Theorem BME280_Init_stops_at_first_failure
    (status : nat -> HAL_StatusTypeDef) (b : I2c) (j : nat) :
  (forall k, (k < j)%nat -> status (i2c_calls b + k)%nat = HAL_OK) ->
  ((j < 4)%nat -> status (i2c_calls b + j)%nat <> HAL_OK ->
   BME280_Init status b =
   (HAL_ERROR,
    {| i2c_calls := i2c_calls b + S j;
       i2c_log := i2c_log b
                  ++ take (if Nat.eqb j 0 then 1 else j + 2) BME280_sequence |})) /\
  ((4 <= j)%nat ->
   BME280_Init status b =
   (HAL_OK, {| i2c_calls := i2c_calls b + 4;
               i2c_log := i2c_log b ++ BME280_sequence |})).
Proof.
  intros Hok. destruct b as [c l]. cbn [i2c_calls i2c_log] in *.
  destruct (status_next status c _ Hok) as (H0 & H1 & H2 & H3 & _).
  unfold BME280_Init, HAL_I2C_Mem_Write, HAL_Delay_bus.
  cbn [i2c_calls i2c_log].
  rewrite <- !app_assoc. cbn [app].
  split.
  - intros Hj Hbad. apply status_at in Hbad.
    destruct j as [| [| [| [| j]]]]; [| | | | lia].
    + rewrite Hbad. cbn. repeat f_equal; lia.
    + rewrite H0 by lia. cbn. rewrite Hbad. cbn. repeat f_equal; lia.
    + rewrite H0, H1 by lia. cbn. rewrite Hbad. cbn. repeat f_equal; lia.
    + rewrite H0, H1, H2 by lia. cbn. rewrite Hbad. cbn.
      repeat f_equal; lia.
  - intros Hj. rewrite H0, H1, H2, H3 by lia. cbn. repeat f_equal; lia.
Qed.

Lemma BME280_Init_stops_at_first_failure_witness :
  BME280_Init (fails_at 0) i2c_idle =
  (HAL_ERROR, {| i2c_calls := 1;
                 i2c_log := [BusMemWrite BME280_ADDR 0xE0 0xB6] |}).
Proof.
  apply (BME280_Init_stops_at_first_failure (fails_at 0) i2c_idle 0).
  - intros k Hk. lia.
  - lia.
  - discriminate.
Defined.

Lemma LIS3MDL_Init_log status b :
  exists l n,
    i2c_log (snd (LIS3MDL_Init status b)) = i2c_log b ++ l /\
    i2c_calls (snd (LIS3MDL_Init status b)) = (i2c_calls b + n)%nat /\
    In (BusMemWrite LIS3MDL_ADDR 0x20 0x70) l /\ (1 <= n <= 4)%nat.
Proof.
  unfold LIS3MDL_Init, HAL_I2C_Mem_Write. cbn [i2c_calls i2c_log].
  destruct (status (i2c_calls b)); cbn [is_HAL_OK negb];
    [| bus_result [BusMemWrite LIS3MDL_ADDR 0x20 0x70] 1%nat ..].
  destruct (status (S (i2c_calls b))); cbn [is_HAL_OK negb];
    [| bus_result (take 2 LIS3MDL_writes) 2%nat ..].
  destruct (status (S (S (i2c_calls b)))); cbn [is_HAL_OK negb];
    [| bus_result (take 3 LIS3MDL_writes) 3%nat ..].
  destruct (status (S (S (S (i2c_calls b))))); cbn [is_HAL_OK negb];
    bus_result LIS3MDL_writes 4%nat.
Qed.

Lemma BME280_Init_log status b :
  exists l n,
    i2c_log (snd (BME280_Init status b)) = i2c_log b ++ l /\
    i2c_calls (snd (BME280_Init status b)) = (i2c_calls b + n)%nat /\
    In (BusMemWrite BME280_ADDR 0xE0 0xB6) l /\ (1 <= n <= 4)%nat.
Proof.
  unfold BME280_Init, HAL_I2C_Mem_Write, HAL_Delay_bus.
  cbn [i2c_calls i2c_log].
  destruct (status (i2c_calls b)); cbn [is_HAL_OK negb];
    [| bus_result [BusMemWrite BME280_ADDR 0xE0 0xB6] 1%nat ..].
  destruct (status (S (i2c_calls b))); cbn [is_HAL_OK negb];
    [| bus_result (take 3 BME280_sequence) 2%nat ..].
  destruct (status (S (S (i2c_calls b)))); cbn [is_HAL_OK negb];
    [| bus_result (take 4 BME280_sequence) 3%nat ..].
  destruct (status (S (S (S (i2c_calls b))))); cbn [is_HAL_OK negb];
    bus_result BME280_sequence 4%nat.
Qed.

Lemma TMP117_Init_log status b :
  exists l n,
    i2c_log (snd (TMP117_Init status b)) = i2c_log b ++ l /\
    i2c_calls (snd (TMP117_Init status b)) = (i2c_calls b + n)%nat /\
    In (BusMemRead TMP117_ADDR 0x0F 1) l /\ (1 <= n <= 2)%nat.
Proof.
  unfold TMP117_Init, HAL_I2C_Mem_Write, HAL_I2C_Mem_Read.
  cbn [i2c_calls i2c_log].
  destruct (status (i2c_calls b)); cbn [is_HAL_OK negb];
    [| bus_result [BusMemRead TMP117_ADDR 0x0F 1] 1%nat ..].
  destruct (status (S (i2c_calls b))); cbn [is_HAL_OK negb];
    bus_result [BusMemRead TMP117_ADDR 0x0F 1;
                BusMemWrite TMP117_ADDR 0x01 0x00] 2%nat.
Qed.

(** X26.  [SensorTask] drops the results of the three initialisations:
    whatever the bus answers, each sensor is addressed (the first
    transaction of each initialisation is issued), between 3 and 10
    transactions are made, and earlier bus traffic is kept. *)
Theorem SensorTask_init_attempts_every_sensor
    (status : nat -> HAL_StatusTypeDef) (b : I2c) :
  exists l,
    i2c_log (SensorTask_init status b) = i2c_log b ++ l /\
    In (BusMemWrite LIS3MDL_ADDR 0x20 0x70) l /\
    In (BusMemWrite BME280_ADDR 0xE0 0xB6) l /\
    In (BusMemRead TMP117_ADDR 0x0F 1) l /\
    (i2c_calls b + 3 <= i2c_calls (SensorTask_init status b)
     <= i2c_calls b + 10)%nat.
Proof.
  unfold SensorTask_init.
  destruct (LIS3MDL_Init_log status b) as (l1 & n1 & E1 & C1 & I1 & N1).
  destruct (BME280_Init_log status (snd (LIS3MDL_Init status b)))
    as (l2 & n2 & E2 & C2 & I2 & N2).
  destruct (TMP117_Init_log status
              (snd (BME280_Init status (snd (LIS3MDL_Init status b)))))
    as (l3 & n3 & E3 & C3 & I3 & N3).
  exists (l1 ++ l2 ++ l3).
  rewrite E3, E2, E1, C3, C2, C1. rewrite <- !app_assoc.
  repeat split; try lia; rewrite ?in_app_iff; tauto.
Qed.

(** ** BME280 calibration (sensors.c) *)

Lemma lor_shiftl_small a m k :
  0 <= k -> 0 <= m < 2 ^ k ->
  Z.lor (Z.shiftl a k) m = a * 2 ^ k + m.
Proof.
  intros Hk Hm.
  assert (Hland : Z.land (Z.shiftl a k) m = 0).
  { apply Z.bits_inj'. intros n Hn.
    rewrite Z.land_spec, Z.bits_0.
    destruct (Z.lt_ge_cases n k) as [Hlt | Hge].
    - rewrite Z.shiftl_spec_low by exact Hlt. reflexivity.
    - rewrite <- (Z.mod_small m (2 ^ k)) by exact Hm.
      rewrite Z.mod_pow2_bits_high by lia. apply andb_false_r. }
  rewrite <- Z.lxor_lor by exact Hland.
  rewrite <- Z.add_nocarry_lxor by exact Hland.
  rewrite Z.shiftl_mul_pow2 by exact Hk. reflexivity.
Qed.

Lemma split16 a m :
  0 <= m < 16 -> (a * 16 + m) mod 16 = m /\ (a * 16 + m) / 16 = a.
Proof.
  intros H. split.
  - rewrite Z.add_comm, Z.mod_add by lia. apply Z.mod_small. lia.
  - rewrite Z.add_comm, Z.div_add by lia. rewrite Z.div_small by lia. lia.
Qed.

Lemma all_bytes_nth (l : list Z) (i : nat) :
  all_bytes l -> 0 <= nth i l 0 < 256.
Proof.
  intros H. revert i.
  induction H as [| x l Hx _ IH]; intros [| i]; cbn; try lia.
  apply IH.
Qed.

Lemma s16_small x : 0 <= x < 32768 -> s16 x = x.
Proof.
  intros H. unfold s16. cbn zeta. rewrite Z.mod_small by lia.
  destruct (Z.ltb_spec x 32768); lia.
Qed.

Lemma s16_u16 x : s16 (u16 x) = s16 x.
Proof. unfold s16, u16. cbn zeta. rewrite Z.mod_mod by lia. reflexivity. Qed.

Lemma s16_range x : -32768 <= s16 x < 32768.
Proof.
  unfold s16. cbn zeta.
  pose proof (Z.mod_pos_bound x 65536 ltac:(lia)).
  destruct (Z.ltb_spec (x mod 65536) 32768); lia.
Qed.

Lemma s8_range x : -128 <= s8 x < 128.
Proof.
  unfold s8. cbn zeta.
  pose proof (Z.mod_pos_bound x 256 ltac:(lia)).
  destruct (Z.ltb_spec (x mod 256) 128); lia.
Qed.

(** X27.  [Sensors_Init] looks at the status of its first read only.  If
    that read fails the calibration record is left as it was and
    [HAL_ERROR] is returned; otherwise [HAL_OK] is returned whatever the
    two humidity reads answer, and if the last read leaves the buffer as
    the first one filled it, the humidity coefficient [dig_H2] is parsed
    from the temperature bytes: it is [dig_T1] read as a signed number. *)
Theorem Sensors_Init_checks_first_read_only
    (rd88 : HAL_StatusTypeDef * list Z) (rdA1 : HAL_StatusTypeDef * Z)
    (rdE1 : HAL_StatusTypeDef * list Z) (cal : bme280_cal_t) :
  (fst rd88 <> HAL_OK ->
   Sensors_Init rd88 rdA1 rdE1 cal = (HAL_ERROR, cal)) /\
  (fst rd88 = HAL_OK ->
   fst (Sensors_Init rd88 rdA1 rdE1 cal) = HAL_OK /\
   (snd rdE1 = snd rd88 ->
    dig_H2 (snd (Sensors_Init rd88 rdA1 rdE1 cal))
    = s16 (dig_T1 (snd (Sensors_Init rd88 rdA1 rdE1 cal))))).
Proof.
  split.
  - intros H. apply is_HAL_OK_false in H.
    unfold Sensors_Init. cbn zeta. rewrite H. reflexivity.
  - intros H. unfold Sensors_Init. cbn zeta. rewrite H.
    cbn [is_HAL_OK negb fst snd dig_H2 dig_T1].
    split; [reflexivity |].
    intros E. rewrite E. rewrite s16_u16. reflexivity.
Qed.

Lemma Sensors_Init_checks_first_read_only_witness :
  fst (Sensors_Init (HAL_OK, [0x70; 0x6B] ++ replicate 22 0)
         (HAL_TIMEOUT, 0) (HAL_TIMEOUT, [0x70; 0x6B] ++ replicate 22 0)
         bme280_cal_zero) = HAL_OK /\
  dig_H2 (snd (Sensors_Init (HAL_OK, [0x70; 0x6B] ++ replicate 22 0)
                 (HAL_TIMEOUT, 0)
                 (HAL_TIMEOUT, [0x70; 0x6B] ++ replicate 22 0)
                 bme280_cal_zero)) = 27504.
Proof.
  destruct (Sensors_Init_checks_first_read_only
              (HAL_OK, [0x70; 0x6B] ++ replicate 22 0) (HAL_TIMEOUT, 0)
              (HAL_TIMEOUT, [0x70; 0x6B] ++ replicate 22 0) bme280_cal_zero)
    as [_ H].
  destruct (H eq_refl) as [H1 H2].
  split; [exact H1 |].
  rewrite (H2 eq_refl). reflexivity.
Defined.

(** X28.  After a successful [Sensors_Init] on byte data, [dig_H4] and
    [dig_H5] are 12-bit numbers that share the byte at 0xE5: its low nibble
    is the low nibble of [dig_H4], its high nibble the low nibble of
    [dig_H5], and the bytes at 0xE4 and 0xE6 are their upper eight bits;
    [dig_T1] is the little-endian value of the first two bytes. *)
Theorem Sensors_Init_humidity_nibbles
    (rd88 : HAL_StatusTypeDef * list Z) (rdA1 : HAL_StatusTypeDef * Z)
    (rdE1 : HAL_StatusTypeDef * list Z) (cal : bme280_cal_t) :
  fst rd88 = HAL_OK -> all_bytes (snd rd88) -> all_bytes (snd rdE1) ->
  let c := snd (Sensors_Init rd88 rdA1 rdE1 cal) in
  0 <= dig_H4 c < 4096 /\ 0 <= dig_H5 c < 4096 /\
  nth 4 (snd rdE1) 0 = dig_H4 c mod 16 + 16 * (dig_H5 c mod 16) /\
  nth 3 (snd rdE1) 0 = dig_H4 c / 16 /\
  nth 5 (snd rdE1) 0 = dig_H5 c / 16 /\
  dig_T1 c = nth 0 (snd rd88) 0 + 256 * nth 1 (snd rd88) 0 /\
  -128 <= dig_H6 c < 128.
Proof.
  intros Hok Hb1 Hb3. cbn zeta.
  unfold Sensors_Init. cbn zeta. rewrite Hok.
  cbn [is_HAL_OK negb fst snd dig_H4 dig_H5 dig_H6 dig_T1].
  pose proof (all_bytes_nth _ 3 Hb3) as B3.
  pose proof (all_bytes_nth _ 4 Hb3) as B4.
  pose proof (all_bytes_nth _ 5 Hb3) as B5.
  pose proof (all_bytes_nth _ 0 Hb1) as A0.
  pose proof (all_bytes_nth _ 1 Hb1) as A1.
  set (d3 := nth 3 (snd rdE1) 0) in *.
  set (d4 := nth 4 (snd rdE1) 0) in *.
  set (d5 := nth 5 (snd rdE1) 0) in *.
  set (a0 := nth 0 (snd rd88) 0) in *.
  set (a1 := nth 1 (snd rd88) 0) in *.
  change 15 with (Z.ones 4). rewrite Z.land_ones by lia.
  rewrite Z.shiftr_div_pow2 by lia.
  change (2 ^ 4) with 16.
  assert (M4 : 0 <= d4 mod 16 < 16) by (apply Z.mod_pos_bound; lia).
  assert (Q4 : 0 <= d4 / 16 < 16).
  { split; [apply Z.div_pos; lia | apply Z.div_lt_upper_bound; lia]. }
  rewrite (lor_shiftl_small d3 (d4 mod 16) 4) by (change (2 ^ 4) with 16; lia).
  rewrite (lor_shiftl_small d5 (d4 / 16) 4) by (change (2 ^ 4) with 16; lia).
  rewrite (lor_shiftl_small a1 a0 8) by (change (2 ^ 8) with 256; lia).
  change (2 ^ 4) with 16. change (2 ^ 8) with 256.
  rewrite !s16_small by lia. rewrite u16_small by lia.
  pose proof (s8_range (nth 6 (snd rdE1) 0)).
  pose proof (Z.div_mod d4 16 ltac:(lia)).
  destruct (split16 d3 (d4 mod 16) M4) as [E1 E2].
  destruct (split16 d5 (d4 / 16) Q4) as [E3 E4].
  rewrite E1, E2, E3, E4.
  repeat split; lia.
Qed.

Lemma Sensors_Init_humidity_nibbles_witness :
  nth 4 [0x6B; 0x01; 0x00; 0x14; 0x2E; 0x03; 0x1E] 0 =
  dig_H4 (snd (Sensors_Init (HAL_OK, replicate 24 0) (HAL_OK, 0x4B)
                 (HAL_OK, [0x6B; 0x01; 0x00; 0x14; 0x2E; 0x03; 0x1E])
                 bme280_cal_zero)) mod 16
  + 16 * (dig_H5 (snd (Sensors_Init (HAL_OK, replicate 24 0) (HAL_OK, 0x4B)
                         (HAL_OK, [0x6B; 0x01; 0x00; 0x14; 0x2E; 0x03; 0x1E])
                         bme280_cal_zero)) mod 16).
Proof.
  apply (Sensors_Init_humidity_nibbles
           (HAL_OK, replicate 24 0) (HAL_OK, 0x4B)
           (HAL_OK, [0x6B; 0x01; 0x00; 0x14; 0x2E; 0x03; 0x1E])
           bme280_cal_zero).
  - reflexivity.
  - cbn. repeat (apply List.Forall_cons; [lia |]). apply List.Forall_nil.
  - cbn. repeat (apply List.Forall_cons; [lia |]). apply List.Forall_nil.
Defined.

(** ** The whole-packet receive callback (main.c) *)

Lemma osMessageQueuePut_room {A} (capacity : Z) (queue : list A) (msg : A) :
  Z.of_nat (length queue) < capacity ->
  osMessageQueuePut capacity queue msg = queue ++ [msg].
Proof.
  intros H. unfold osMessageQueuePut.
  destruct (Z.ltb_spec (Z.of_nat (length queue)) capacity); [reflexivity | lia].
Qed.

(** X29.  With the callback of [main.c], the first packet received after
    [CommTask] has started never reaches the command queue: the callback
    queues its own still-zero [rx_cmd] instead, which the dispatcher drops
    without any effect.  The second packet is queued as received. *)
Theorem packet_callback_loses_first_packet
    (ERROR_UNKNOWN_COMMAND : Z) (first second : list Z) (s s' : Sys) :
  Z.of_nat (length (commandQueue s)) + 2 <= commandQueue_capacity ->
  let c1 := MainC.HAL_UART_RxCpltCallback huart1 first
              (MainC.packet_rx_init, s) in
  let c2 := MainC.HAL_UART_RxCpltCallback huart1 second c1 in
  commandQueue (snd c1) = commandQueue s ++ [Command_zero] /\
  commandQueue (snd c2)
  = commandQueue s ++ [Command_zero; Command.of_bytes second] /\
  current_telemetry (ProcessCommand ERROR_UNKNOWN_COMMAND Command_zero s')
  = current_telemetry s' /\
  system_state (ProcessCommand ERROR_UNKNOWN_COMMAND Command_zero s')
  = system_state s' /\
  trace (ProcessCommand ERROR_UNKNOWN_COMMAND Command_zero s') = trace s'.
Proof.
  intros H. cbv zeta.
  unfold MainC.HAL_UART_RxCpltCallback, MainC.packet_rx_init.
  cbn [MainC.armed_into_rx_cmd MainC.rx_cmd snd].
  rewrite osMessageQueuePut_room by lia.
  split; [reflexivity |].
  split.
  - change (commandQueue (set_commandQueue ?q ?s)) with q.
    cbn [commandQueue set_commandQueue].
    rewrite osMessageQueuePut_room.
    + rewrite <- app_assoc. reflexivity.
    + rewrite length_app. cbn [length]. lia.
  - repeat split.
Qed.

Lemma packet_callback_loses_first_packet_witness :
  commandQueue
    (snd (MainC.HAL_UART_RxCpltCallback huart1 ping_frame
            (MainC.packet_rx_init, sys_init)))
  = commandQueue sys_init ++ [Command_zero].
Proof.
  apply (packet_callback_loses_first_packet SAMPLE_UNKNOWN_COMMAND
           ping_frame ping_frame sys_init sys_init).
  vm_compute. discriminate.
Defined.

(** ** Reset *)

Lemma run_after_reset E ops f :
  mcu_reset (sys f) = true -> run E ops f = f.
Proof.
  intros H. unfold run. induction ops as [| o ops IH]; [reflexivity |].
  cbn [fold_left]. unfold exec at 2. rewrite H. exact IH.
Qed.

(** X30.  A valid Reset command does what [SYSTEM_ResetSystem] does: it
    waits 100 ms and resets the MCU, leaving telemetry and mode as they
    were; whatever is scheduled afterwards in this boot session does not
    run. *)
Theorem Reset_command_ends_session
    (ERROR_UNKNOWN_COMMAND : Z) (cmd : CommandPacket_t) (s : Sys)
    (f : Firmware) (ops : list op) :
  sync_ok cmd -> checksum_valid cmd -> Command.command_id cmd = CMD_RESET ->
  sys f = ProcessCommand ERROR_UNKNOWN_COMMAND cmd s ->
  trace (sys f) = trace (SYSTEM_ResetSystem s) /\
  mcu_reset (sys f) = true /\
  current_telemetry (sys f) = current_telemetry s /\
  system_state (sys f) = system_state s /\
  run ERROR_UNKNOWN_COMMAND ops f = f.
Proof.
  intros [H1 H2] Hc Hid Hf. unfold checksum_valid in Hc.
  assert (E : ProcessCommand ERROR_UNKNOWN_COMMAND cmd s
              = NVIC_SystemReset (emit (EvDelay 100) (checked s))).
  { dispatch_to Hid. reflexivity. }
  rewrite E in Hf.
  assert (Hr : mcu_reset (sys f) = true) by (rewrite Hf; reflexivity).
  repeat split; try (rewrite Hf; reflexivity); try exact Hr.
  apply run_after_reset. exact Hr.
Qed.

Lemma Reset_command_ends_session_witness :
  run SAMPLE_UNKNOWN_COMMAND [OpWatchdogTask; OpCommTask]
    {| sys := ProcessCommand SAMPLE_UNKNOWN_COMMAND (bare_command CMD_RESET)
                sys_init;
       rxs := rx_init; sequence := 0; last_count := 0; last_beacon := 0 |}
  = {| sys := ProcessCommand SAMPLE_UNKNOWN_COMMAND (bare_command CMD_RESET)
                sys_init;
       rxs := rx_init; sequence := 0; last_count := 0; last_beacon := 0 |}.
Proof.
  apply (Reset_command_ends_session SAMPLE_UNKNOWN_COMMAND
           (bare_command CMD_RESET) sys_init
           {| sys := ProcessCommand SAMPLE_UNKNOWN_COMMAND
                       (bare_command CMD_RESET) sys_init;
              rxs := rx_init; sequence := 0; last_count := 0;
              last_beacon := 0 |}
           [OpWatchdogTask; OpCommTask]).
  - split; reflexivity.
  - vm_compute. reflexivity.
  - reflexivity.
  - reflexivity.
Defined.
